(** * azurerm container group and container service resources

    A shallow embedding of [azurerm/resource_arm_container_group.go] and
    [azurerm/resource_arm_container_service.go]: the expand / flatten
    mappings between the configuration document and the SDK structs, the
    validation functions, and the Create / Read / Delete operations written
    as programs over the calls of the management client.

    Conventions.
    - A Go pointer [*T] is [option T]; dereferencing [None] panics.  Pure
      functions that dereference return [option], [None] being the panic.
    - Go [int] and [int32] are [Z]; the conversion [int32(x)] wraps.
    - [float64] values are only copied, never computed with.
    - [map[string]interface{}] values produced by the schema reader and by
      flatten are records, one field per key; a key that may be missing from
      the map is an [option] field.
    - An [error] is a value of the inductive type [error]; a nil error is
      [None]. *)

From Stdlib Require Import Floats.PrimFloat Ascii.
From stdpp Require Import gmap strings list fin_maps pretty.

Local Open Scope Z_scope.

(** ** Go primitives *)

Definition float64 : Type := PrimFloat.float.

(** [int32(x)] for a Go [int] x: two's complement wrap-around to 32 bits. *)
Definition int32 (x : Z) : Z := (x + 2 ^ 31) `mod` 2 ^ 32 - 2 ^ 31.

Module strings.

(** [strings.ToUpper] and [strings.ToLower] on the ASCII range; bytes
    outside [a-z] / [A-Z] are left alone.  The documents handled here
    only pass protocol names through them. *)
Definition upper_ascii (c : ascii) : ascii :=
  let n := nat_of_ascii c in
  if ((97 <=? n)%nat && (n <=? 122)%nat)%bool then ascii_of_nat (n - 32) else c.

Definition lower_ascii (c : ascii) : ascii :=
  let n := nat_of_ascii c in
  if ((65 <=? n)%nat && (n <=? 90)%nat)%bool then ascii_of_nat (n + 32) else c.

Fixpoint ToUpper (s : string) : string :=
  match s with
  | EmptyString => EmptyString
  | String c r => String (upper_ascii c) (ToUpper r)
  end.

Fixpoint ToLower (s : string) : string :=
  match s with
  | EmptyString => EmptyString
  | String c r => String (lower_ascii c) (ToLower r)
  end.

(** [strings.Split(s, " ")]: cut at every single space; the result is
    never empty ([Split("", " ")] is [[""]]). *)
Fixpoint Split (s : string) : list string :=
  match s with
  | EmptyString => [EmptyString]
  | String c r =>
      if Ascii.eqb c " "%char then EmptyString :: Split r
      else match Split r with
           | h :: t => String c h :: t
           | [] => [String c EmptyString]
           end
  end.

(** [strings.Join(l, " ")]. *)
Fixpoint Join (l : list string) : string :=
  match l with
  | [] => EmptyString
  | [x] => x
  | x :: rest => x +:+ " " +:+ Join rest
  end.

End strings.

(** ** Errors *)

(** The error values the two files produce or pass on.  [Errorf] keeps the
    format string of the [fmt.Errorf] call and its arguments. *)
Inductive error : Type :=
| RemoteError (msg : string)
| Errorf (format : string) (args : list fmtArg)
| ImportAsExistsError (resourceName id : string)
| TimeoutError
| UnexpectedStateError (state : string)
with fmtArg : Type :=
| ArgString (s : string)
| ArgError (e : error).

(** ** Validation functions of the container service schema *)

Definition validateArmContainerServiceOrchestrationPlatform
    (v : string) (k : string) : list string * list error :=
  let value := v in
  let capacities : gmap string bool :=
    {[ "DCOS" := true; "Kubernetes" := true; "Swarm" := true ]} in
  let errors := [] in
  let errors :=
    if negb (default false (capacities !! value))
    then errors ++ [Errorf "Container Service: Orchestration Platgorm can only be DCOS / Kubernetes / Swarm" []]
    else errors in
  ([], errors).

Definition validateArmContainerServiceMasterProfileCount
    (v : Z) (k : string) : list string * list error :=
  let value := v in
  let capacities : gmap Z bool := {[ 1 := true; 3 := true; 5 := true ]} in
  let errors := [] in
  let errors :=
    if negb (default false (capacities !! value))
    then errors ++ [Errorf "The number of master nodes must be 1, 3 or 5." []]
    else errors in
  ([], errors).

Definition validateArmContainerServiceAgentPoolProfileCount
    (v : Z) (k : string) : list string * list error :=
  let value := v in
  let errors := [] in
  let errors :=
    if ((100 <? value) || (value <=? 0))%bool
    then errors ++ [Errorf "The Count for an Agent Pool Profile can only be between 1 and 100." []]
    else errors in
  ([], errors).

(** ** Collaborators outside the two files *)

(** The embedded [autorest.Response] of an SDK result holds a
    [*http.Response]; it is kept as its status code, [None] when the pointer
    is nil. *)
Definition Response : Type := option Z.

(** [ResourceID] as [parseAzureResourceID] returns it. *)
Record ResourceID : Type := {
  ResourceGroup : string;
  Path : gmap string string
}.

(** Helpers of the provider that the two files call and that live in other
    files: they are taken as parameters.  [ResponseWasNotFound] is
    [utils.ResponseWasNotFound], the test the spec calls "not found". *)
Class Externals : Type := {
  ResponseWasNotFound : Response -> bool;
  parseAzureResourceID : string -> ResourceID + error;
  azureRMNormalizeLocation : string -> string;
  expandTags : gmap string string -> gmap string (option string);
  flattenTags : gmap string (option string) -> gmap string string;
  hashcode_String : string -> Z
}.

(** Go's indexing of a [map[string]string]: the zero value for a missing key. *)
Definition index_string (m : gmap string string) (k : string) : string :=
  default EmptyString (m !! k).

Module schema.

(** Modelled from the spec: the schema engine is an external collaborator,
    outside the two files.  [schema.Set] is a collection of items keyed by
    the hash code [F] assigns them: [Add] keeps the item already stored
    under a code, [List] enumerates the items.  Every set read here holds
    at most one item ([MaxItems: 1]), so the order of [List] plays no
    role. *)
Record Set_ (A : Type) : Type := {
  F : A -> Z;
  m : gmap Z A
}.
Arguments F {A} _ _.
Arguments m {A} _.

Definition NewSet {A} (f : A -> Z) : Set_ A := {| F := f; m := ∅ |}.

Definition Add {A} (s : Set_ A) (item : A) : Set_ A :=
  let code := F s item in
  match m s !! code with
  | Some _ => s
  | None => {| F := F s; m := <[code := item]> (m s) |}
  end.

Definition List {A} (s : Set_ A) : list A := (map_to_list (m s)).*2.

Definition Len {A} (s : Set_ A) : nat := size (m s).

(** The keys [d.Timeout] is asked for. *)
Inductive TimeoutKey : Type := TimeoutCreate | TimeoutUpdate | TimeoutDelete.

End schema.

(** ** Programs over the calls of a management client

    An operation is a tree of client calls: [Vis e k] issues the call [e]
    and continues with [k] on its result, [Ret] returns, [Panic] is a Go
    run-time panic. *)
Inductive Prog (E : Type -> Type) (A : Type) : Type :=
| Ret (a : A)
| Panic
| Vis (X : Type) (e : E X) (k : X -> Prog E A).
Arguments Ret {E A} a.
Arguments Panic {E A}.
Arguments Vis {E A X} e k.

Fixpoint bind {E A B} (p : Prog E A) (f : A -> Prog E B) : Prog E B :=
  match p with
  | Ret a => f a
  | Panic => Panic
  | Vis e k => Vis e (fun x => bind (k x) f)
  end.

Definition call {E X} (e : E X) : Prog E X := Vis e Ret.

(** A pure computation that may panic, run inside a program. *)
Definition lift {E A} (o : option A) : Prog E A :=
  match o with
  | Some a => Ret a
  | None => Panic
  end.

Global Instance Prog_ret {E} : MRet (Prog E) := fun A a => Ret a.
Global Instance Prog_bind {E} : MBind (Prog E) := fun A B f p => bind p f.

(** A remote is a handler of the calls over its own state. *)
Definition Remote (E : Type -> Type) (S : Type) : Type :=
  forall X, E X -> S -> X * S.

(** What running a program against a remote gives: the returned value
    ([None] after a panic), the remote's final state and the calls issued,
    in order. *)
Record Run (E : Type -> Type) (A S : Type) : Type := {
  result : option A;
  final : S;
  calls : list (sigT E)
}.
Arguments result {E A S} _.
Arguments final {E A S} _.
Arguments calls {E A S} _.

Fixpoint run {E A S} (h : Remote E S) (p : Prog E A) (s : S) : Run E A S :=
  match p with
  | Ret a => {| result := Some a; final := s; calls := [] |}
  | Panic => {| result := None; final := s; calls := [] |}
  | Vis e k =>
      let xs := h _ e s in
      let r := run h (k xs.1) xs.2 in
      {| result := result r; final := final r; calls := existT _ e :: calls r |}
  end.

(** A [for ... range] loop whose body may panic: the accumulator is
    threaded through the items from left to right. *)
Fixpoint rangeM {A B} (body : B -> A -> option B) (acc : B) (items : list A) : option B :=
  match items with
  | [] => Some acc
  | x :: rest => acc' ← body acc x; rangeM body acc' rest
  end.

(** ** The SDK structs of [containerinstance] (API 2018-04-01) *)
Module containerinstance.

Record ResourceRequests : Type := {
  MemoryInGB : option float64;
  CPU : option float64
}.

Record ResourceRequirements : Type := {
  Requests : option ResourceRequests
}.

Record ContainerPort : Type := {
  ContainerPort_Port : option Z
}.

Record Port : Type := {
  Port_Protocol : string;
  Port_Port : option Z
}.

Record EnvironmentVariable : Type := {
  EnvironmentVariable_Name : option string;
  EnvironmentVariable_Value : option string
}.

Record VolumeMount : Type := {
  VolumeMount_Name : option string;
  MountPath : option string;
  VolumeMount_ReadOnly : option bool
}.

Record AzureFileVolume : Type := {
  ShareName : option string;
  AzureFileVolume_ReadOnly : option bool;
  StorageAccountName : option string;
  StorageAccountKey : option string
}.

Record Volume : Type := {
  Volume_Name : option string;
  AzureFile : option AzureFileVolume
}.

Record ContainerProperties : Type := {
  Image : option string;
  Command : option (list string);
  Ports : option (list ContainerPort);
  EnvironmentVariables : option (list EnvironmentVariable);
  Resources : option ResourceRequirements;
  VolumeMounts : option (list VolumeMount)
}.

(** [Container] embeds [*ContainerProperties]. *)
Record Container : Type := {
  Container_Name : option string;
  Container_ContainerProperties : option ContainerProperties
}.

Record ImageRegistryCredential : Type := {
  Server : option string;
  Username : option string;
  Password : option string
}.

Record IPAddress : Type := {
  IPAddress_Ports : option (list Port);
  IPAddress_Type : option string;
  IP : option string;
  DNSNameLabel : option string;
  Fqdn : option string
}.

Record ContainerGroupProperties : Type := {
  ImageRegistryCredentials : option (list ImageRegistryCredential);
  Containers : option (list Container);
  RestartPolicy : string;
  ContainerGroupProperties_IPAddress : option IPAddress;
  OsType : string;
  Volumes : option (list Volume)
}.

(** [ContainerGroup] embeds [autorest.Response] and
    [*ContainerGroupProperties]. *)
Record ContainerGroup : Type := {
  ContainerGroup_Response : Response;
  ID : option string;
  Name : option string;
  Location : option string;
  Tags : gmap string (option string);
  ContainerGroup_ContainerGroupProperties : option ContainerGroupProperties
}.

(** The calls of [containerGroupsClient] the resource makes. *)
Inductive Call : Type -> Type :=
| Get (resourceGroupName containerGroupName : string)
    : Call (ContainerGroup * option error)
| CreateOrUpdate (resourceGroupName containerGroupName : string)
    (containerGroup : ContainerGroup)
    : Call (ContainerGroup * option error)
| Delete (resourceGroupName containerGroupName : string)
    : Call (ContainerGroup * option error).

End containerinstance.

(** ** resource_arm_container_group.go *)
Module ContainerGroup.
Import containerinstance.

(** *** The configuration document, as [d.Get] returns it: the schema
    reader fills every key of a block, with the zero value when unset. *)

Record VolumeConfig : Type := {
  volume_name : string;
  volume_mount_path : string;
  volume_read_only : bool;
  volume_share_name : string;
  volume_storage_account_name : string;
  volume_storage_account_key : string
}.

Record ContainerConfig : Type := {
  container_name : string;
  container_image : string;
  container_cpu : float64;
  container_memory : float64;
  container_port : Z;
  container_protocol : string;
  container_environment_variables : gmap string string;
  container_command : string;
  container_volume : list VolumeConfig
}.

Record CredentialConfig : Type := {
  credential_server : string;
  credential_username : string;
  credential_password : string
}.

Record ResourceData : Type := {
  Id : string;
  name : string;
  location : string;
  resource_group_name : string;
  ip_address_type : string;
  os_type : string;
  image_registry_credential : list CredentialConfig;
  tags : gmap string string;
  restart_policy : string;
  ip_address : string;
  fqdn : string;
  dns_name_label : string;
  container : list ContainerConfig;
  Timeout : schema.TimeoutKey -> Z
}.

(** *** The maps flatten builds: a key flatten sets only on some paths is
    an [option] field. *)

Record FlatVolume : Type := {
  flat_volume_name : string;
  flat_volume_mount_path : string;
  flat_volume_read_only : option bool;
  flat_volume_share_name : option string;
  flat_volume_storage_account_name : option string;
  flat_volume_storage_account_key : option string
}.

Record FlatContainer : Type := {
  flat_container_name : string;
  flat_container_image : string;
  flat_container_cpu : option float64;
  flat_container_memory : option float64;
  flat_container_port : option Z;
  flat_container_protocol : option string;
  flat_container_environment_variables : option (gmap string string);
  flat_container_command : option string;
  flat_container_volume : option (list FlatVolume)
}.

Record FlatCredential : Type := {
  flat_credential_server : option string;
  flat_credential_username : option string;
  flat_credential_password : option string
}.

(** *** Expand: configuration to SDK structs *)

Definition expandContainerEnvironmentVariables
    (input : gmap string string) : list EnvironmentVariable :=
  (fun kv => {| EnvironmentVariable_Name := Some kv.1;
                EnvironmentVariable_Value := Some kv.2 |}) <$> map_to_list input.

Definition expandContainerImageRegistryCredentials
    (d : ResourceData) : option (list ImageRegistryCredential) :=
  let credsRaw := image_registry_credential d in
  if decide (length credsRaw = 0%nat) then None
  else Some ((fun credConfig =>
                {| Server := Some (credential_server credConfig);
                   Password := Some (credential_password credConfig);
                   Username := Some (credential_username credConfig) |}) <$> credsRaw).

Definition expandContainerVolumes (input : list VolumeConfig)
    : option (list VolumeMount) * option (list Volume) :=
  let volumesRaw := input in
  if decide (length volumesRaw = 0%nat) then (None, None)
  else
    let volumeMounts :=
      (fun volumeConfig =>
         {| VolumeMount_Name := Some (volume_name volumeConfig);
            MountPath := Some (volume_mount_path volumeConfig);
            VolumeMount_ReadOnly := Some (volume_read_only volumeConfig) |}) <$> volumesRaw in
    let containerGroupVolumes :=
      (fun volumeConfig =>
         {| Volume_Name := Some (volume_name volumeConfig);
            AzureFile := Some
              {| ShareName := Some (volume_share_name volumeConfig);
                 AzureFileVolume_ReadOnly := Some (volume_read_only volumeConfig);
                 StorageAccountName := Some (volume_storage_account_name volumeConfig);
                 StorageAccountKey := Some (volume_storage_account_key volumeConfig) |} |})
        <$> volumesRaw in
    (Some volumeMounts, Some containerGroupVolumes).

(** The body of the loop of [expandContainerGroupContainers]: the
    container of one configuration block, with the group ports and group
    volumes it contributes.  The keys read with [v, ok := data[...]] are
    always present in a block the schema reader built. *)
Definition expandContainer (data : ContainerConfig)
    : Container * list Port * list Volume :=
  let name := container_name data in
  let image := container_image data in
  let cpu := container_cpu data in
  let memory := container_memory data in
  let v := container_port data in
  let ports : option (list ContainerPort) * list Port :=
    if decide (v ≠ 0) then
      let port := int32 v in
      (Some [ {| ContainerPort_Port := Some port |} ],
       [ {| Port_Port := Some port;
            Port_Protocol := strings.ToUpper (container_protocol data) |} ])
    else (None, []) in
  let command :=
    if decide (container_command data ≠ EmptyString)
    then Some (strings.Split (container_command data))
    else None in
  let volumes := expandContainerVolumes (container_volume data) in
  ({| Container_Name := Some name;
      Container_ContainerProperties := Some
        {| Image := Some image;
           Command := command;
           Ports := ports.1;
           EnvironmentVariables :=
             Some (expandContainerEnvironmentVariables
                     (container_environment_variables data));
           Resources := Some
             {| Requests := Some {| MemoryInGB := Some memory; CPU := Some cpu |} |};
           VolumeMounts := volumes.1 |} |},
   ports.2,
   default [] volumes.2).

Definition expandContainerGroupContainers (d : ResourceData)
    : list Container * list Port * list Volume :=
  let containersConfig := container d in
  foldl (fun acc containerConfig =>
           let '(containers, containerGroupPorts, containerGroupVolumes) := acc in
           let '(container, groupPorts, groupVolumes) := expandContainer containerConfig in
           (containers ++ [container],
            containerGroupPorts ++ groupPorts,
            containerGroupVolumes ++ groupVolumes))
        ([], [], []) containersConfig.

(** *** Flatten: SDK structs to configuration maps *)

Definition flattenContainerEnvironmentVariables
    (input : list EnvironmentVariable) : option (gmap string string) :=
  rangeM (fun (output : gmap string string) envVar =>
            k ← EnvironmentVariable_Name envVar;
            v ← EnvironmentVariable_Value envVar;
            Some (<[k := v]> output))
         ∅ input.

(** The body of the loop of [flattenContainerVolumes]: the map built for
    one volume mount. *)
Definition flattenVolumeMount
    (containerGroupVolumes : list Volume)
    (containerVolumesConfig : option (list VolumeConfig))
    (vm : VolumeMount) : option FlatVolume :=
  vmName ← VolumeMount_Name vm;
  vmMountPath ← MountPath vm;
  let volumeConfig :=
    {| flat_volume_name := vmName;
       flat_volume_mount_path := vmMountPath;
       flat_volume_read_only := VolumeMount_ReadOnly vm;
       flat_volume_share_name := None;
       flat_volume_storage_account_name := None;
       flat_volume_storage_account_key := None |} in
  (* find corresponding volume in container group volumes *)
  volumeConfig ←
    rangeM (fun volumeConfig cgv =>
              cgvName ← Volume_Name cgv;
              if decide (cgvName = vmName) then
                match AzureFile cgv with
                | Some azureFile =>
                    shareName ← ShareName azureFile;
                    storageAccountName ← StorageAccountName azureFile;
                    Some {| flat_volume_name := flat_volume_name volumeConfig;
                            flat_volume_mount_path := flat_volume_mount_path volumeConfig;
                            flat_volume_read_only := flat_volume_read_only volumeConfig;
                            flat_volume_share_name := Some shareName;
                            flat_volume_storage_account_name := Some storageAccountName;
                            flat_volume_storage_account_key :=
                              flat_volume_storage_account_key volumeConfig |}
                | None => Some volumeConfig
                end
              else Some volumeConfig)
           volumeConfig containerGroupVolumes;
  (* find corresponding volume in config *)
  let volumeConfig :=
    match containerVolumesConfig with
    | Some config =>
        foldl (fun volumeConfig cv =>
                 let rawName := volume_name cv in
                 if decide (vmName = rawName) then
                   {| flat_volume_name := flat_volume_name volumeConfig;
                      flat_volume_mount_path := flat_volume_mount_path volumeConfig;
                      flat_volume_read_only := flat_volume_read_only volumeConfig;
                      flat_volume_share_name := flat_volume_share_name volumeConfig;
                      flat_volume_storage_account_name :=
                        flat_volume_storage_account_name volumeConfig;
                      flat_volume_storage_account_key :=
                        Some (volume_storage_account_key cv) |}
                 else volumeConfig)
              volumeConfig config
    | None => volumeConfig
    end in
  Some volumeConfig.

Definition flattenContainerVolumes
    (volumeMounts : list VolumeMount) (containerGroupVolumes : list Volume)
    (containerVolumesConfig : option (list VolumeConfig))
    : option (list FlatVolume) :=
  mapM (flattenVolumeMount containerGroupVolumes containerVolumesConfig) volumeMounts.

(** The body of the loop of [flattenContainerGroupContainers]. *)
Definition flattenContainer (d : ResourceData) (container : Container)
    (containerGroupPorts : option (list Port))
    (containerGroupVolumes : option (list Volume)) : option FlatContainer :=
  containerName ← Container_Name container;
  properties ← Container_ContainerProperties container;
  containerImage ← Image properties;
  requests ←
    match Resources properties with
    | Some resources =>
        match Requests resources with
        | Some resourceRequests =>
            cpu ← CPU resourceRequests;
            memory ← MemoryInGB resourceRequests;
            Some (Some cpu, Some memory)
        | None => Some (None, None)
        end
    | None => Some (None, None)
    end;
  containerPorts ← Ports properties;
  portAndProtocol ←
    match containerPorts with
    | first :: _ =>
        containerPort ← ContainerPort_Port first;
        (* protocol isn't returned in container config, have to search in
           container group ports *)
        protocol ←
          match containerGroupPorts with
          | Some groupPorts =>
              rangeM (fun protocol cgPort =>
                        cgPortPort ← Port_Port cgPort;
                        if decide (cgPortPort = containerPort)
                        then Some (Port_Protocol cgPort)
                        else Some protocol)
                     EmptyString groupPorts
          | None => Some EmptyString
          end;
        Some (Some containerPort,
              if decide (protocol ≠ EmptyString) then Some protocol else None)
    | [] => Some (None, None)
    end;
  environmentVariables ←
    match EnvironmentVariables properties with
    | Some envVars =>
        if decide (0 < length envVars)%nat
        then Some <$> flattenContainerEnvironmentVariables envVars
        else Some None
    | None => Some None
    end;
  let command := strings.Join <$> Command properties in
  volume ←
    match containerGroupVolumes, VolumeMounts properties with
    | Some groupVolumes, Some volumeMounts =>
        (* Also pass in the container volume config from schema *)
        let containersConfigRaw := ContainerGroup.container d in
        let containerVolumesConfig :=
          foldl (fun containerVolumesConfig data =>
                   let nameRaw := container_name data in
                   if decide (nameRaw = containerName)
                   then Some (container_volume data)
                   else containerVolumesConfig)
                None containersConfigRaw in
        Some <$> flattenContainerVolumes volumeMounts groupVolumes containerVolumesConfig
    | _, _ => Some None
    end;
  Some {| flat_container_name := containerName;
          flat_container_image := containerImage;
          flat_container_cpu := requests.1;
          flat_container_memory := requests.2;
          flat_container_port := portAndProtocol.1;
          flat_container_protocol := portAndProtocol.2;
          flat_container_environment_variables := environmentVariables;
          flat_container_command := command;
          flat_container_volume := volume |}.

Definition flattenContainerGroupContainers (d : ResourceData)
    (containers : option (list Container))
    (containerGroupPorts : option (list Port))
    (containerGroupVolumes : option (list Volume)) : option (list FlatContainer) :=
  containers ← containers;
  mapM (fun container =>
          flattenContainer d container containerGroupPorts containerGroupVolumes)
       containers.

(** Modelled from the spec: [d.GetOk] belongs to the schema engine.
    [d.GetOk("image_registry_credential.<i>.password")] gives the value and
    whether it is set to something other than the zero value. *)
Definition GetOk_image_registry_credential_password
    (d : ResourceData) (i : nat) : string * bool :=
  match image_registry_credential d !! i with
  | Some data =>
      (credential_password data,
       bool_decide (credential_password data ≠ EmptyString))
  | None => (EmptyString, false)
  end.

(** The result is a slice; the nil slice returned for nil [credsPtr] is
    the empty list. *)
Definition flattenContainerImageRegistryCredentials (d : ResourceData)
    (credsPtr : option (list ImageRegistryCredential)) : list FlatCredential :=
  match credsPtr with
  | None => []
  | Some creds =>
      let configsOld := image_registry_credential d in
      imap (fun i cred =>
              let password :=
                match configsOld !! i with
                | Some data =>
                    let oldServer := credential_server data in
                    match Server cred with
                    | Some server =>
                        if decide (server = oldServer) then
                          let vok := GetOk_image_registry_credential_password d i in
                          if vok.2 then Some vok.1 else None
                        else None
                    | None => None
                    end
                | None => None
                end in
              {| flat_credential_server := Server cred;
                 flat_credential_username := Username cred;
                 flat_credential_password := password |})
           creds
  end.

(** *** [d.Set] and [d.SetId]

    Modelled from the spec: the schema engine is an external collaborator.
    [d.Set] stores a value of the field's type; a later [d.Get] fills the
    keys a map left out with zero values. *)

Definition SetId (d : ResourceData) (id : string) : ResourceData :=
  {| Id := id; name := name d; location := location d;
     resource_group_name := resource_group_name d;
     ip_address_type := ip_address_type d; os_type := os_type d;
     image_registry_credential := image_registry_credential d;
     tags := tags d; restart_policy := restart_policy d;
     ip_address := ip_address d; fqdn := fqdn d;
     dns_name_label := dns_name_label d; container := container d;
     Timeout := Timeout d |}.

Definition stored_volume (v : FlatVolume) : VolumeConfig :=
  {| volume_name := flat_volume_name v;
     volume_mount_path := flat_volume_mount_path v;
     volume_read_only := default false (flat_volume_read_only v);
     volume_share_name := default EmptyString (flat_volume_share_name v);
     volume_storage_account_name :=
       default EmptyString (flat_volume_storage_account_name v);
     volume_storage_account_key :=
       default EmptyString (flat_volume_storage_account_key v) |}.

Definition stored_container (c : FlatContainer) : ContainerConfig :=
  {| container_name := flat_container_name c;
     container_image := flat_container_image c;
     container_cpu := default 0%float (flat_container_cpu c);
     container_memory := default 0%float (flat_container_memory c);
     container_port := default 0 (flat_container_port c);
     container_protocol := default EmptyString (flat_container_protocol c);
     container_environment_variables :=
       default ∅ (flat_container_environment_variables c);
     container_command := default EmptyString (flat_container_command c);
     container_volume := stored_volume <$> default [] (flat_container_volume c) |}.

Definition stored_credential (c : FlatCredential) : CredentialConfig :=
  {| credential_server := default EmptyString (flat_credential_server c);
     credential_username := default EmptyString (flat_credential_username c);
     credential_password := default EmptyString (flat_credential_password c) |}.

(** *** Create, Read, Delete *)

Section operations.
Context `{Externals}.

Definition Result : Type := ResourceData * option error.

Definition resourceArmContainerGroupRead (d : ResourceData) : Prog Call Result :=
  match parseAzureResourceID (Id d) with
  | inr err => Ret (d, Some err)
  | inl id =>
      let resGroup := ResourceGroup id in
      let name := index_string (Path id) "containerGroups" in
      '(resp, err) ← call (Get resGroup name);
      match err with
      | Some err =>
          if ResponseWasNotFound (ContainerGroup_Response resp)
          then Ret (SetId d EmptyString, None)
          else Ret (d, Some err)
      | None =>
          (* the fields of the embedded *ContainerGroupProperties *)
          props ← lift (ContainerGroup_ContainerGroupProperties resp);
          let credentials :=
            flattenContainerImageRegistryCredentials d (ImageRegistryCredentials props) in
          (* props.IPAddress.Ports *)
          address ← lift (ContainerGroupProperties_IPAddress props);
          containerConfigs ←
            lift (flattenContainerGroupContainers d (Containers props)
                    (IPAddress_Ports address) (Volumes props));
          Ret ({| Id := Id d;
                  name := name;
                  resource_group_name := resGroup;
                  location :=
                    match Location resp with
                    | Some location => azureRMNormalizeLocation location
                    | None => location d
                    end;
                  tags := flattenTags (Tags resp);
                  image_registry_credential := stored_credential <$> credentials;
                  os_type := OsType props;
                  ip_address_type := default EmptyString (IPAddress_Type address);
                  ip_address := default EmptyString (IP address);
                  dns_name_label := default EmptyString (DNSNameLabel address);
                  fqdn := default EmptyString (Fqdn address);
                  restart_policy := RestartPolicy props;
                  container := stored_container <$> containerConfigs;
                  Timeout := Timeout d |}, None)
      end
  end.

(** The [containerinstance.ContainerGroup] that Create sends. *)
Definition containerGroupParameters (d : ResourceData) : ContainerGroup :=
  let name := name d in
  let location := azureRMNormalizeLocation (location d) in
  let OSType := os_type d in
  let IPAddressType := ip_address_type d in
  let tags := tags d in
  let restartPolicy := restart_policy d in
  let '(containers, containerGroupPorts, containerGroupVolumes) :=
    expandContainerGroupContainers d in
  {| ContainerGroup_Response := None;
     ID := None;
     Name := Some name;
     Location := Some location;
     Tags := expandTags tags;
     ContainerGroup_ContainerGroupProperties := Some
       {| Containers := Some containers;
          RestartPolicy := restartPolicy;
          ContainerGroupProperties_IPAddress := Some
            {| IPAddress_Type := Some IPAddressType;
               IPAddress_Ports := Some containerGroupPorts;
               IP := None;
               DNSNameLabel :=
                 if decide (dns_name_label d ≠ EmptyString)
                 then Some (dns_name_label d) else None;
               Fqdn := None |};
          OsType := OSType;
          Volumes := Some containerGroupVolumes;
          ImageRegistryCredentials := expandContainerImageRegistryCredentials d |} |}.

Definition resourceArmContainerGroupCreate (d : ResourceData) : Prog Call Result :=
  let resGroup := resource_group_name d in
  let name := name d in
  (* first check if there's one in this subscription requiring import *)
  '(resp, err) ← call (Get resGroup name);
  if bool_decide (err ≠ None) && negb (ResponseWasNotFound (ContainerGroup_Response resp))
  then Ret (d, Some (Errorf "Error checking for the existence of Container Group %q (Resource Group %q): %+v"
                       (ArgString name :: ArgString resGroup ::
                          match err with Some e => [ArgError e] | None => [] end)))
  else
    match ID resp with
    | Some id => Ret (d, Some (ImportAsExistsError "azurerm_container_group" id))
    | None =>
        let containerGroup := containerGroupParameters d in
        '(_, err) ← call (CreateOrUpdate resGroup name containerGroup);
        match err with
        | Some err => Ret (d, Some err)
        | None =>
            '(read, err) ← call (Get resGroup name);
            match err with
            | Some err => Ret (d, Some err)
            | None =>
                match ID read with
                | None =>
                    Ret (d, Some (Errorf "Cannot read container group %s (resource group %s) ID"
                                    [ArgString name; ArgString resGroup]))
                | Some id =>
                    let d := SetId d id in
                    resourceArmContainerGroupRead d
                end
            end
        end
    end.

Definition resourceArmContainerGroupDelete (d : ResourceData) : Prog Call Result :=
  match parseAzureResourceID (Id d) with
  | inr err => Ret (d, Some err)
  | inl id =>
      let resGroup := ResourceGroup id in
      let name := index_string (Path id) "containerGroups" in
      '(resp, err) ← call (Delete resGroup name);
      match err with
      | Some err =>
          if ResponseWasNotFound (ContainerGroup_Response resp)
          then Ret (d, None)
          else Ret (d, Some err)
      | None => Ret (d, None)
      end
  end.

End operations.

End ContainerGroup.

(** ** The SDK structs of [containerservice] (API 2018-03-31) *)
Module containerservice.

Record MasterProfile : Type := {
  MasterProfile_Count : option Z;
  MasterProfile_DNSPrefix : option string;
  MasterProfile_Fqdn : option string
}.

Record SSHPublicKey : Type := {
  KeyData : option string
}.

Record SSHConfiguration : Type := {
  PublicKeys : option (list SSHPublicKey)
}.

Record LinuxProfile : Type := {
  AdminUsername : option string;
  SSH : option SSHConfiguration
}.

Record AgentPoolProfile : Type := {
  AgentPoolProfile_Name : option string;
  AgentPoolProfile_Count : option Z;
  VMSize : string;
  AgentPoolProfile_DNSPrefix : option string;
  AgentPoolProfile_Fqdn : option string
}.

Record ServicePrincipalProfile : Type := {
  ClientID : option string;
  Secret : option string
}.

Record VMDiagnostics : Type := {
  Enabled : option bool;
  StorageURI : option string
}.

Record DiagnosticsProfile : Type := {
  DiagnosticsProfile_VMDiagnostics : option VMDiagnostics
}.

Record OrchestratorProfileType : Type := {
  OrchestratorType : string
}.

Record Properties : Type := {
  ProvisioningState : option string;
  OrchestratorProfile : option OrchestratorProfileType;
  Properties_ServicePrincipalProfile : option ServicePrincipalProfile;
  Properties_MasterProfile : option MasterProfile;
  AgentPoolProfiles : option (list AgentPoolProfile);
  Properties_LinuxProfile : option LinuxProfile;
  Properties_DiagnosticsProfile : option DiagnosticsProfile
}.

(** [ContainerService] embeds [autorest.Response] and [*Properties]. *)
Record ContainerService : Type := {
  ContainerService_Response : Response;
  ID : option string;
  Name : option string;
  Location : option string;
  Tags : gmap string (option string);
  ContainerService_Properties : option Properties
}.

(** The futures of the long-running calls; the resource only passes them
    back to the client. *)
Record Future : Type := {
  Future_Response : Response
}.

(** The calls of [containerServicesClient] the resource makes. *)
Inductive Call : Type -> Type :=
| Get (resourceGroupName containerServiceName : string)
    : Call (ContainerService * option error)
| CreateOrUpdate (resourceGroupName containerServiceName : string)
    (parameters : ContainerService)
    : Call (Future * option error)
| Delete (resourceGroupName containerServiceName : string)
    : Call (Future * option error)
| WaitForCompletionRef (future : Future)
    : Call (option error).

End containerservice.

(** ** The polling state machine *)
Module resource.

Inductive State : Type := Pending | Succeeded | Failed | TimedOut.

(** [resource.StateChangeConf], with its durations in seconds and its
    refresh function as a program over the client's calls. *)
Record StateChangeConf (E : Type -> Type) (R : Type) : Type := {
  conf_Pending : list string;
  conf_Target : list string;
  Refresh : Prog E (R * string * option error);
  conf_Timeout : Z;
  MinTimeout : Z
}.
Arguments conf_Pending {E R} _.
Arguments conf_Target {E R} _.
Arguments Refresh {E R} _.
Arguments conf_Timeout {E R} _.
Arguments MinTimeout {E R} _.

(** What a polling run ends with: the state reached, the error returned
    and the time spent waiting. *)
Record Outcome : Type := {
  state : State;
  err : option error;
  waited : Z
}.

(** Modelled from the spec: [StateChangeConf.WaitForState] belongs to the
    vendored helper library and is not part of the two files.  The spec's
    AwaitTerminalState reads the state label at a fixed interval, the
    configured floor [MinTimeout]; the run is Pending until the label is in
    the target set (Succeeded), a label outside the pending and target sets
    is observed (Failed), or the timeout elapses (TimedOut).  An error of
    the read itself is passed on.  [remaining] counts the reads that still
    fit before the deadline. *)
Fixpoint poll {E R} (conf : StateChangeConf E R) (remaining : nat) (elapsed : Z)
    : Prog E Outcome :=
  match remaining with
  | O => Ret {| state := TimedOut; err := Some TimeoutError;
                waited := conf_Timeout conf |}
  | S remaining =>
      '(_, label, e) ← Refresh conf;
      match e with
      | Some e => Ret {| state := Pending; err := Some e; waited := elapsed |}
      | None =>
          if bool_decide (label ∈ conf_Target conf) then
            Ret {| state := Succeeded; err := None; waited := elapsed |}
          else if bool_decide (label ∈ conf_Pending conf) then
            poll conf remaining (elapsed + MinTimeout conf)
          else
            Ret {| state := Failed; err := Some (UnexpectedStateError label);
                   waited := elapsed |}
      end
  end.

(** The reads at times 0, [MinTimeout], 2 [MinTimeout], ... that start
    before [Timeout]. *)
Definition readsBeforeDeadline (timeout interval : Z) : nat :=
  Z.to_nat ((timeout + interval - 1) `div` interval).

(** Modelled from the spec: AwaitTerminalState, the spec's name for
    [WaitForState] (see [poll]). *)
Definition AwaitTerminalState {E R} (conf : StateChangeConf E R) : Prog E Outcome :=
  poll conf (readsBeforeDeadline (conf_Timeout conf) (MinTimeout conf)) 0.

End resource.

(** ** resource_arm_container_service.go *)
Module ContainerService.
Import containerservice.

(** *** The configuration document, as [d.Get] returns it *)

Record MasterProfileConfig : Type := {
  master_count : Z;
  master_dns_prefix : string;
  master_fqdn : string
}.

Record SSHKeyConfig : Type := {
  key_data : string
}.

Record LinuxProfileConfig : Type := {
  admin_username : string;
  ssh_key : schema.Set_ SSHKeyConfig
}.

Record AgentPoolProfileConfig : Type := {
  agent_name : string;
  agent_count : Z;
  agent_dns_prefix : string;
  agent_fqdn : string;
  agent_vm_size : string
}.

Record ServicePrincipalConfig : Type := {
  client_id : string;
  client_secret : string
}.

Record DiagnosticsProfileConfig : Type := {
  enabled : bool;
  storage_uri : string
}.

Record ResourceData : Type := {
  Id : string;
  name : string;
  location : string;
  resource_group_name : string;
  orchestration_platform : string;
  master_profile : schema.Set_ MasterProfileConfig;
  linux_profile : schema.Set_ LinuxProfileConfig;
  agent_pool_profile : schema.Set_ AgentPoolProfileConfig;
  service_principal : schema.Set_ ServicePrincipalConfig;
  diagnostics_profile : schema.Set_ DiagnosticsProfileConfig;
  tags : gmap string string;
  IsNewResource : bool;
  Timeout : schema.TimeoutKey -> Z
}.

(** *** The maps flatten builds with a key it sets only on some paths *)

Record FlatServicePrincipal : Type := {
  flat_client_id : string;
  flat_client_secret : option string
}.

Record FlatDiagnosticsProfile : Type := {
  flat_enabled : bool;
  flat_storage_uri : option string
}.

Definition stored_service_principal (m : FlatServicePrincipal) : ServicePrincipalConfig :=
  {| client_id := flat_client_id m;
     client_secret := default EmptyString (flat_client_secret m) |}.

Definition stored_diagnostics_profile (m : FlatDiagnosticsProfile) : DiagnosticsProfileConfig :=
  {| enabled := flat_enabled m;
     storage_uri := default EmptyString (flat_storage_uri m) |}.

Definition SetId (d : ResourceData) (id : string) : ResourceData :=
  {| Id := id; name := name d; location := location d;
     resource_group_name := resource_group_name d;
     orchestration_platform := orchestration_platform d;
     master_profile := master_profile d; linux_profile := linux_profile d;
     agent_pool_profile := agent_pool_profile d;
     service_principal := service_principal d;
     diagnostics_profile := diagnostics_profile d;
     tags := tags d; IsNewResource := IsNewResource d; Timeout := Timeout d |}.

Section mappings.
Context `{Externals}.

(** *** The hash functions of the schema sets; [%d] and [%t] are Go's
    decimal and boolean formats. *)

Definition resourceAzureRMContainerServiceMasterProfileHash
    (m : MasterProfileConfig) : Z :=
  hashcode_String ((pretty (master_count m) +:+ "-") +:+ (master_dns_prefix m +:+ "-")).

Definition resourceAzureRMContainerServiceLinuxProfilesHash
    (m : LinuxProfileConfig) : Z :=
  hashcode_String (admin_username m +:+ "-").

Definition resourceAzureRMContainerServiceLinuxProfilesSSHKeysHash
    (m : SSHKeyConfig) : Z :=
  hashcode_String (key_data m +:+ "-").

Definition resourceAzureRMContainerServiceAgentPoolProfilesHash
    (m : AgentPoolProfileConfig) : Z :=
  hashcode_String ((pretty (agent_count m) +:+ "-") +:+ (agent_dns_prefix m +:+ "-")
                   +:+ (agent_name m +:+ "-") +:+ (agent_vm_size m +:+ "-")).

Definition resourceAzureRMContainerServiceServicePrincipalProfileHash
    (m : ServicePrincipalConfig) : Z :=
  hashcode_String (client_id m +:+ "-").

Definition resourceAzureRMContainerServiceDiagnosticProfilesHash
    (m : DiagnosticsProfileConfig) : Z :=
  hashcode_String (if enabled m then "true" else "false").

(** *** Flatten *)

Definition flattenAzureRmContainerServiceMasterProfile
    (profile : MasterProfile) : option (schema.Set_ MasterProfileConfig) :=
  let masterProfiles := schema.NewSet resourceAzureRMContainerServiceMasterProfileHash in
  count ← MasterProfile_Count profile;
  dnsPrefix ← MasterProfile_DNSPrefix profile;
  fqdn ← MasterProfile_Fqdn profile;
  let masterProfile :=
    {| master_count := count; master_dns_prefix := dnsPrefix; master_fqdn := fqdn |} in
  Some (schema.Add masterProfiles masterProfile).

Definition flattenAzureRmContainerServiceLinuxProfile
    (profile : LinuxProfile) : option (schema.Set_ LinuxProfileConfig) :=
  let profiles := schema.NewSet resourceAzureRMContainerServiceLinuxProfilesHash in
  let sshKeys := schema.NewSet resourceAzureRMContainerServiceLinuxProfilesSSHKeysHash in
  sshConfiguration ← SSH profile;
  publicKeys ← PublicKeys sshConfiguration;
  sshKeys ←
    rangeM (fun sshKeys ssh =>
              keyData ← KeyData ssh;
              Some (schema.Add sshKeys {| key_data := keyData |}))
           sshKeys publicKeys;
  adminUsername ← AdminUsername profile;
  let values := {| admin_username := adminUsername; ssh_key := sshKeys |} in
  Some (schema.Add profiles values).

Definition flattenAzureRmContainerServiceAgentPoolProfiles
    (profiles : option (list AgentPoolProfile))
    : option (schema.Set_ AgentPoolProfileConfig) :=
  let agentPoolProfiles :=
    schema.NewSet resourceAzureRMContainerServiceAgentPoolProfilesHash in
  profiles ← profiles;
  rangeM (fun agentPoolProfiles profile =>
            count ← AgentPoolProfile_Count profile;
            dnsPrefix ← AgentPoolProfile_DNSPrefix profile;
            fqdn ← AgentPoolProfile_Fqdn profile;
            name ← AgentPoolProfile_Name profile;
            Some (schema.Add agentPoolProfiles
                    {| agent_count := count; agent_dns_prefix := dnsPrefix;
                       agent_fqdn := fqdn; agent_name := name;
                       agent_vm_size := VMSize profile |}))
         agentPoolProfiles profiles.

(** The outer [option] is the panic, the inner one the nil result. *)
Definition flattenAzureRmContainerServiceServicePrincipalProfile
    (profile : option ServicePrincipalProfile)
    : option (option (schema.Set_ FlatServicePrincipal)) :=
  match profile with
  | None => Some None
  | Some profile =>
      let servicePrincipalProfiles :=
        schema.NewSet (fun m => resourceAzureRMContainerServiceServicePrincipalProfileHash
                                  (stored_service_principal m)) in
      clientID ← ClientID profile;
      let values := {| flat_client_id := clientID; flat_client_secret := Secret profile |} in
      Some (Some (schema.Add servicePrincipalProfiles values))
  end.

Definition flattenAzureRmContainerServiceDiagnosticsProfile
    (profile : option DiagnosticsProfile)
    : option (schema.Set_ FlatDiagnosticsProfile) :=
  let diagnosticProfiles :=
    schema.NewSet (fun m => resourceAzureRMContainerServiceDiagnosticProfilesHash
                              (stored_diagnostics_profile m)) in
  profile ← profile;
  vmDiagnostics ← DiagnosticsProfile_VMDiagnostics profile;
  enabled ← Enabled vmDiagnostics;
  let values := {| flat_enabled := enabled; flat_storage_uri := StorageURI vmDiagnostics |} in
  Some (schema.Add diagnosticProfiles values).

(** *** Expand; [configs[0]] panics on an empty set. *)

Definition expandAzureRmContainerServiceDiagnostics
    (d : ResourceData) : option DiagnosticsProfile :=
  let configs := schema.List (diagnostics_profile d) in
  data ← head configs;
  let enabled := enabled data in
  Some {| DiagnosticsProfile_VMDiagnostics :=
            Some {| Enabled := Some enabled; StorageURI := None |} |}.

Definition expandAzureRmContainerServiceLinuxProfile
    (d : ResourceData) : option LinuxProfile :=
  let profiles := schema.List (linux_profile d) in
  config ← head profiles;
  let adminUsername := admin_username config in
  let linuxKeys := schema.List (ssh_key config) in
  key ← head linuxKeys;
  let keyData := key_data key in
  let sshPublicKeys := [] ++ [ {| KeyData := Some keyData |} ] in
  Some {| AdminUsername := Some adminUsername;
          SSH := Some {| PublicKeys := Some sshPublicKeys |} |}.

Definition expandAzureRmContainerServiceMasterProfile
    (d : ResourceData) : option MasterProfile :=
  let configs := schema.List (master_profile d) in
  config ← head configs;
  let count := int32 (master_count config) in
  let dnsPrefix := master_dns_prefix config in
  Some {| MasterProfile_Count := Some count;
          MasterProfile_DNSPrefix := Some dnsPrefix;
          MasterProfile_Fqdn := None |}.

(** [d.GetOk("service_principal")], of the schema engine, reports a set as
    present when it is not the empty set.  The outer [option] is the panic,
    the inner one the nil result. *)
Definition expandAzureRmContainerServiceServicePrincipal
    (d : ResourceData) : option (option ServicePrincipalProfile) :=
  let value := service_principal d in
  let exists_ := negb (bool_decide (schema.Len value = 0%nat)) in
  if negb exists_ then Some None
  else
    let configs := schema.List value in
    config ← head configs;
    let clientId := client_id config in
    let clientSecret := client_secret config in
    Some (Some {| ClientID := Some clientId; Secret := Some clientSecret |}).

Definition expandAzureRmContainerServiceAgentProfiles
    (d : ResourceData) : option (list AgentPoolProfile) :=
  let configs := schema.List (agent_pool_profile d) in
  config ← head configs;
  let name := agent_name config in
  let count := int32 (agent_count config) in
  let dnsPrefix := agent_dns_prefix config in
  let vmSize := agent_vm_size config in
  let profile :=
    {| AgentPoolProfile_Name := Some name;
       AgentPoolProfile_Count := Some count;
       VMSize := vmSize;
       AgentPoolProfile_DNSPrefix := Some dnsPrefix;
       AgentPoolProfile_Fqdn := None |} in
  Some ([] ++ [profile]).

End mappings.

(** *** Create / Update, Read, Delete *)

Section operations.
Context `{Externals}.

(** [tf.TimeoutForCreateUpdate], a helper of the provider outside the two
    files: the timeout key to use for this call. *)
Context (TimeoutForCreateUpdate : ResourceData -> schema.TimeoutKey).

Definition Result : Type := ResourceData * option error.

(** Modelled from the spec: [d.Set] belongs to the schema engine.  For a
    set of flattened maps the items are stored under the schema's hash, the
    keys a map left out read as zero values. *)
Definition stored_set {A B} (hash : B -> Z) (stored : A -> B)
    (s : schema.Set_ A) : schema.Set_ B :=
  foldl schema.Add (schema.NewSet hash) (stored <$> schema.List s).

Definition resourceArmContainerServiceRead (d : ResourceData) : Prog Call Result :=
  match parseAzureResourceID (Id d) with
  | inr err => Ret (d, Some err)
  | inl id =>
      let resGroup := ResourceGroup id in
      let name := index_string (Path id) "containerServices" in
      '(resp, err) ← call (Get resGroup name);
      match err with
      | Some err =>
          if ResponseWasNotFound (ContainerService_Response resp)
          then Ret (SetId d EmptyString, None)
          else Ret (d, Some (Errorf "Error making Read request on Azure Container Service %s: %s"
                               [ArgString name; ArgError err]))
      | None =>
          properties ← lift (ContainerService_Properties resp);
          orchestratorProfile ← lift (OrchestratorProfile properties);
          masterProfile ← lift (Properties_MasterProfile properties);
          masterProfiles ← lift (flattenAzureRmContainerServiceMasterProfile masterProfile);
          linuxProfile ← lift (Properties_LinuxProfile properties);
          linuxProfile ← lift (flattenAzureRmContainerServiceLinuxProfile linuxProfile);
          agentPoolProfiles ←
            lift (flattenAzureRmContainerServiceAgentPoolProfiles (AgentPoolProfiles properties));
          servicePrincipal ←
            lift (flattenAzureRmContainerServiceServicePrincipalProfile
                    (Properties_ServicePrincipalProfile properties));
          diagnosticProfile ←
            lift (flattenAzureRmContainerServiceDiagnosticsProfile
                    (Properties_DiagnosticsProfile properties));
          Ret ({| Id := Id d;
                  name := default EmptyString (Name resp);
                  resource_group_name := resGroup;
                  location :=
                    match Location resp with
                    | Some location => azureRMNormalizeLocation location
                    | None => location d
                    end;
                  orchestration_platform := OrchestratorType orchestratorProfile;
                  master_profile := masterProfiles;
                  linux_profile := linuxProfile;
                  agent_pool_profile := agentPoolProfiles;
                  service_principal :=
                    match servicePrincipal with
                    | Some servicePrincipal =>
                        stored_set resourceAzureRMContainerServiceServicePrincipalProfileHash
                          stored_service_principal servicePrincipal
                    | None => service_principal d
                    end;
                  diagnostics_profile :=
                    stored_set resourceAzureRMContainerServiceDiagnosticProfilesHash
                      stored_diagnostics_profile diagnosticProfile;
                  tags := flattenTags (Tags resp);
                  IsNewResource := IsNewResource d;
                  Timeout := Timeout d |}, None)
      end
  end.

Definition containerServiceStateRefreshFunc (resourceGroupName containerServiceName : string)
    : Prog Call (option ContainerService * string * option error) :=
  '(res, err) ← call (Get resourceGroupName containerServiceName);
  match err with
  | Some err =>
      Ret (None, EmptyString,
           Some (Errorf "Error issuing read request in containerServiceStateRefreshFunc to Azure ARM for Container Service '%s' (RG: '%s'): %s"
                   [ArgString containerServiceName; ArgString resourceGroupName; ArgError err]))
  | None =>
      properties ← lift (ContainerService_Properties res);
      provisioningState ← lift (ProvisioningState properties);
      Ret (Some res, provisioningState, None)
  end.

(** The [resource.StateChangeConf] that Create / Update waits with. *)
Definition stateConf (resGroup name : string) (timeout : Z)
    : resource.StateChangeConf Call (option ContainerService) :=
  {| resource.conf_Pending := ["Updating"; "Creating"];
     resource.conf_Target := ["Succeeded"];
     resource.Refresh := containerServiceStateRefreshFunc resGroup name;
     resource.conf_Timeout := timeout;
     resource.MinTimeout := 15 |}.

(** The [containerservice.ContainerService] that Create / Update sends;
    [None] when an expand function panics. *)
Definition containerServiceParameters (d : ResourceData) : option ContainerService :=
  let name := name d in
  let location := azureRMNormalizeLocation (location d) in
  let orchestrationPlatform := orchestration_platform d in
  masterProfile ← expandAzureRmContainerServiceMasterProfile d;
  linuxProfile ← expandAzureRmContainerServiceLinuxProfile d;
  agentProfiles ← expandAzureRmContainerServiceAgentProfiles d;
  diagnosticsProfile ← expandAzureRmContainerServiceDiagnostics d;
  let tags := tags d in
  servicePrincipalProfile ← expandAzureRmContainerServiceServicePrincipal d;
  Some {| ContainerService_Response := None;
          ID := None;
          Name := Some name;
          Location := Some location;
          ContainerService_Properties := Some
            {| ProvisioningState := None;
               Properties_MasterProfile := Some masterProfile;
               Properties_LinuxProfile := Some linuxProfile;
               OrchestratorProfile := Some {| OrchestratorType := orchestrationPlatform |};
               AgentPoolProfiles := Some agentProfiles;
               Properties_DiagnosticsProfile := Some diagnosticsProfile;
               Properties_ServicePrincipalProfile := servicePrincipalProfile |};
          Tags := expandTags tags |}.

(** The check Create makes before anything else: the error to return, if
    any. *)
Definition checkForExisting (d : ResourceData) (resGroup name : string)
    : Prog Call (option error) :=
  if IsNewResource d then
    (* first check if there's one in this subscription requiring import *)
    '(resp, err) ← call (Get resGroup name);
    if bool_decide (err ≠ None) && negb (ResponseWasNotFound (ContainerService_Response resp))
    then Ret (Some (Errorf "Error checking for the existence of Container Service %q (Resource Group %q): %+v"
                      (ArgString name :: ArgString resGroup ::
                         match err with Some e => [ArgError e] | None => [] end)))
    else
      match ID resp with
      | Some id => Ret (Some (ImportAsExistsError "azurerm_container_service" id))
      | None => Ret None
      end
  else Ret None.

Definition resourceArmContainerServiceCreateUpdate (d : ResourceData) : Prog Call Result :=
  let resGroup := resource_group_name d in
  let name := name d in
  existing ← checkForExisting d resGroup name;
  match existing with
  | Some err => Ret (d, Some err)
  | None =>
      parameters ← lift (containerServiceParameters d);
      '(_, err) ← call (CreateOrUpdate resGroup name parameters);
      match err with
      | Some err => Ret (d, Some err)
      | None =>
          '(read, err) ← call (Get resGroup name);
          match err with
          | Some err => Ret (d, Some err)
          | None =>
              match ID read with
              | None =>
                  Ret (d, Some (Errorf "Cannot read Container Service %q (resource group %q) ID"
                                  [ArgString name; ArgString resGroup]))
              | Some id =>
                  let timeout := Timeout d (TimeoutForCreateUpdate d) in
                  outcome ← resource.AwaitTerminalState (stateConf resGroup name timeout);
                  match resource.err outcome with
                  | Some err =>
                      Ret (d, Some (Errorf "Error waiting for Container Service %q (Resource Group %q) to become available: %s"
                                      [ArgString name; ArgString resGroup; ArgError err]))
                  | None =>
                      let d := SetId d id in
                      resourceArmContainerServiceRead d
                  end
              end
          end
      end
  end.

Definition resourceArmContainerServiceDelete (d : ResourceData) : Prog Call Result :=
  match parseAzureResourceID (Id d) with
  | inr err => Ret (d, Some err)
  | inl id =>
      let resGroup := ResourceGroup id in
      let name := index_string (Path id) "containerServices" in
      '(future, err) ← call (Delete resGroup name);
      match err with
      | Some err =>
          Ret (d, Some (Errorf "Error deleting Container Service %q (Resource Group %q): %+v"
                          [ArgString name; ArgString resGroup; ArgError err]))
      | None =>
          err ← call (WaitForCompletionRef future);
          match err with
          | Some err => Ret (d, Some err)
          | None => Ret (d, None)
          end
      end
  end.

End operations.

End ContainerService.

(** * Vocabulary of the properties *)

(** ** Volume mounts and group volumes *)

(** The Azure file share of the group volume a mount resolves to: the last
    group volume of that very name that has one. *)
Definition matching_share (vmName : string) (containerGroupVolumes : list containerinstance.Volume)
    : option containerinstance.AzureFileVolume :=
  last (omap (fun cgv =>
                if decide (containerinstance.Volume_Name cgv = Some vmName)
                then containerinstance.AzureFile cgv else None)
             containerGroupVolumes).

(** A mount or a group volume as the API returns it: the required strings
    are there. *)
Definition mount_complete (vm : containerinstance.VolumeMount) : Prop :=
  is_Some (containerinstance.VolumeMount_Name vm) /\
  is_Some (containerinstance.MountPath vm).

Definition volume_complete (cgv : containerinstance.Volume) : Prop :=
  is_Some (containerinstance.Volume_Name cgv) /\
  forall azureFile,
    containerinstance.AzureFile cgv = Some azureFile ->
    is_Some (containerinstance.ShareName azureFile) /\
    is_Some (containerinstance.StorageAccountName azureFile).

(** The volume configuration after the group volume [azureFile] was found
    for it. *)
Definition with_share (volumeConfig : ContainerGroup.FlatVolume)
    (azureFile : containerinstance.AzureFileVolume) : ContainerGroup.FlatVolume :=
  {| ContainerGroup.flat_volume_name := ContainerGroup.flat_volume_name volumeConfig;
     ContainerGroup.flat_volume_mount_path := ContainerGroup.flat_volume_mount_path volumeConfig;
     ContainerGroup.flat_volume_read_only := ContainerGroup.flat_volume_read_only volumeConfig;
     ContainerGroup.flat_volume_share_name := containerinstance.ShareName azureFile;
     ContainerGroup.flat_volume_storage_account_name :=
       containerinstance.StorageAccountName azureFile;
     ContainerGroup.flat_volume_storage_account_key :=
       ContainerGroup.flat_volume_storage_account_key volumeConfig |}.

(** The volume configuration with its storage account key replaced. *)
Definition with_key (volumeConfig : ContainerGroup.FlatVolume) (key : option string)
    : ContainerGroup.FlatVolume :=
  {| ContainerGroup.flat_volume_name := ContainerGroup.flat_volume_name volumeConfig;
     ContainerGroup.flat_volume_mount_path := ContainerGroup.flat_volume_mount_path volumeConfig;
     ContainerGroup.flat_volume_read_only := ContainerGroup.flat_volume_read_only volumeConfig;
     ContainerGroup.flat_volume_share_name := ContainerGroup.flat_volume_share_name volumeConfig;
     ContainerGroup.flat_volume_storage_account_name :=
       ContainerGroup.flat_volume_storage_account_name volumeConfig;
     ContainerGroup.flat_volume_storage_account_key := key |}.

(** The key the prior configuration holds for a volume name: the one of the
    last volume block of that name. *)
Definition prior_key (vmName : string) (config : list ContainerGroup.VolumeConfig)
    : option string :=
  ContainerGroup.volume_storage_account_key
    <$> last (filter (fun cv => vmName = ContainerGroup.volume_name cv) config).

(** ** Waiting for the container service *)

(** The remote's state after [k] calls [e], and its answer to the next. *)
Fixpoint state_after {E : Type -> Type} {S X : Type}
    (remote : Remote E S) (e : E X) (s : S) (k : nat) : S :=
  match k with
  | O => s
  | Datatypes.S k => state_after remote e (remote _ e s).2 k
  end.

Definition answer_after {E : Type -> Type} {S X : Type}
    (remote : Remote E S) (e : E X) (s : S) (k : nat) : X :=
  (remote _ e (state_after remote e s k)).1.

(** The state label a Get answer shows to [containerServiceStateRefreshFunc]. *)
Definition observed_label (answer : containerservice.ContainerService * option error)
    : option string :=
  match answer.2 with
  | Some _ => None
  | None =>
      properties ← containerservice.ContainerService_Properties answer.1;
      containerservice.ProvisioningState properties
  end.

(** Membership of a concrete label in a concrete list of labels. *)
Ltac label_listed := repeat first [apply list_elem_of_here | apply list_elem_of_further].
Ltac label_unlisted :=
  rewrite ?not_elem_of_cons; repeat split; try discriminate; apply not_elem_of_nil.

(** ** Expand, then flatten *)

(** The configuration block with its protocol in upper case, as expand
    sends it. *)
Definition upper_protocol (data : ContainerGroup.ContainerConfig)
    : ContainerGroup.ContainerConfig :=
  {| ContainerGroup.container_name := ContainerGroup.container_name data;
     ContainerGroup.container_image := ContainerGroup.container_image data;
     ContainerGroup.container_cpu := ContainerGroup.container_cpu data;
     ContainerGroup.container_memory := ContainerGroup.container_memory data;
     ContainerGroup.container_port := ContainerGroup.container_port data;
     ContainerGroup.container_protocol :=
       strings.ToUpper (ContainerGroup.container_protocol data);
     ContainerGroup.container_environment_variables :=
       ContainerGroup.container_environment_variables data;
     ContainerGroup.container_command := ContainerGroup.container_command data;
     ContainerGroup.container_volume := ContainerGroup.container_volume data |}.

(** The configuration block without the write-only storage account keys. *)
Definition without_key (v : ContainerGroup.VolumeConfig) : ContainerGroup.VolumeConfig :=
  {| ContainerGroup.volume_name := ContainerGroup.volume_name v;
     ContainerGroup.volume_mount_path := ContainerGroup.volume_mount_path v;
     ContainerGroup.volume_read_only := ContainerGroup.volume_read_only v;
     ContainerGroup.volume_share_name := ContainerGroup.volume_share_name v;
     ContainerGroup.volume_storage_account_name :=
       ContainerGroup.volume_storage_account_name v;
     ContainerGroup.volume_storage_account_key := EmptyString |}.

Definition without_keys (data : ContainerGroup.ContainerConfig)
    : ContainerGroup.ContainerConfig :=
  {| ContainerGroup.container_name := ContainerGroup.container_name data;
     ContainerGroup.container_image := ContainerGroup.container_image data;
     ContainerGroup.container_cpu := ContainerGroup.container_cpu data;
     ContainerGroup.container_memory := ContainerGroup.container_memory data;
     ContainerGroup.container_port := ContainerGroup.container_port data;
     ContainerGroup.container_protocol := ContainerGroup.container_protocol data;
     ContainerGroup.container_environment_variables :=
       ContainerGroup.container_environment_variables data;
     ContainerGroup.container_command := ContainerGroup.container_command data;
     ContainerGroup.container_volume := without_key <$> ContainerGroup.container_volume data |}.

(** The group volume a configured volume resolves to holds its share. *)
Definition share_resolved (groupVolumes : list containerinstance.Volume)
    (v : ContainerGroup.VolumeConfig) : Prop :=
  exists azureFile,
    matching_share (ContainerGroup.volume_name v) groupVolumes = Some azureFile /\
    containerinstance.ShareName azureFile = Some (ContainerGroup.volume_share_name v) /\
    containerinstance.StorageAccountName azureFile
      = Some (ContainerGroup.volume_storage_account_name v).

(** Every container declares a port the schema accepts. *)
Definition ports_set (d : ContainerGroup.ResourceData) : Prop :=
  Forall (fun data => 1 <= ContainerGroup.container_port data <= 65535)
         (ContainerGroup.container d).

(** Containers that declare the same port declare the same protocol, up
    to case. *)
Definition ports_agree (d : ContainerGroup.ResourceData) : Prop :=
  forall data1 data2,
    data1 ∈ ContainerGroup.container d ->
    data2 ∈ ContainerGroup.container d ->
    ContainerGroup.container_port data1 = ContainerGroup.container_port data2 ->
    strings.ToUpper (ContainerGroup.container_protocol data1)
    = strings.ToUpper (ContainerGroup.container_protocol data2).

(** Volume blocks of the same name, in any containers of the group, name
    the same share of the same storage account. *)
Definition volumes_agree (d : ContainerGroup.ResourceData) : Prop :=
  forall data1 data2 v1 v2,
    data1 ∈ ContainerGroup.container d ->
    data2 ∈ ContainerGroup.container d ->
    v1 ∈ ContainerGroup.container_volume data1 ->
    v2 ∈ ContainerGroup.container_volume data2 ->
    ContainerGroup.volume_name v1 = ContainerGroup.volume_name v2 ->
    ContainerGroup.volume_share_name v1 = ContainerGroup.volume_share_name v2 /\
    ContainerGroup.volume_storage_account_name v1
    = ContainerGroup.volume_storage_account_name v2.

(** A group volume as the API returns it when it does not echo the
    storage account key. *)
Definition without_storage_key (cgv : containerinstance.Volume) : containerinstance.Volume :=
  {| containerinstance.Volume_Name := containerinstance.Volume_Name cgv;
     containerinstance.AzureFile :=
       (fun azureFile =>
          {| containerinstance.ShareName := containerinstance.ShareName azureFile;
             containerinstance.AzureFileVolume_ReadOnly :=
               containerinstance.AzureFileVolume_ReadOnly azureFile;
             containerinstance.StorageAccountName :=
               containerinstance.StorageAccountName azureFile;
             containerinstance.StorageAccountKey := None |})
         <$> containerinstance.AzureFile cgv |}.

Definition returned_volumes (echo_keys : bool) (groupVolumes : list containerinstance.Volume)
    : list containerinstance.Volume :=
  if echo_keys then groupVolumes else without_storage_key <$> groupVolumes.

(** A group volume that comes from the volume block [v]. *)
Definition volume_from (v : ContainerGroup.VolumeConfig) (cgv : containerinstance.Volume)
    : Prop :=
  containerinstance.Volume_Name cgv = Some (ContainerGroup.volume_name v) /\
  exists azureFile,
    containerinstance.AzureFile cgv = Some azureFile /\
    containerinstance.ShareName azureFile = Some (ContainerGroup.volume_share_name v) /\
    containerinstance.StorageAccountName azureFile
      = Some (ContainerGroup.volume_storage_account_name v).

(** The credentials as the API returns them when it does not echo the
    password. *)
Definition returned_credentials (echo_passwords : bool)
    (credentials : option (list containerinstance.ImageRegistryCredential))
    : option (list containerinstance.ImageRegistryCredential) :=
  if echo_passwords then credentials
  else fmap (M := list)
         (fun credential =>
            {| containerinstance.Server := containerinstance.Server credential;
               containerinstance.Username := containerinstance.Username credential;
               containerinstance.Password := None |})
       <$> credentials.

(** What the API returns for what was sent: the server assigns the FQDNs
    and the storage URI, and may or may not echo the client secret. *)
Definition returned_master_profile (fqdn : string) (profile : containerservice.MasterProfile)
    : containerservice.MasterProfile :=
  {| containerservice.MasterProfile_Count := containerservice.MasterProfile_Count profile;
     containerservice.MasterProfile_DNSPrefix := containerservice.MasterProfile_DNSPrefix profile;
     containerservice.MasterProfile_Fqdn := Some fqdn |}.

Definition returned_agent_pool_profile (fqdn : string)
    (profile : containerservice.AgentPoolProfile) : containerservice.AgentPoolProfile :=
  {| containerservice.AgentPoolProfile_Name := containerservice.AgentPoolProfile_Name profile;
     containerservice.AgentPoolProfile_Count := containerservice.AgentPoolProfile_Count profile;
     containerservice.VMSize := containerservice.VMSize profile;
     containerservice.AgentPoolProfile_DNSPrefix :=
       containerservice.AgentPoolProfile_DNSPrefix profile;
     containerservice.AgentPoolProfile_Fqdn := Some fqdn |}.

Definition returned_diagnostics_profile (storageURI : option string)
    (profile : containerservice.DiagnosticsProfile) : containerservice.DiagnosticsProfile :=
  {| containerservice.DiagnosticsProfile_VMDiagnostics :=
       (fun vmDiagnostics =>
          {| containerservice.Enabled := containerservice.Enabled vmDiagnostics;
             containerservice.StorageURI := storageURI |})
         <$> containerservice.DiagnosticsProfile_VMDiagnostics profile |}.

Definition returned_service_principal (echo_secret : bool)
    (profile : containerservice.ServicePrincipalProfile)
    : containerservice.ServicePrincipalProfile :=
  {| containerservice.ClientID := containerservice.ClientID profile;
     containerservice.Secret :=
       if echo_secret then containerservice.Secret profile else None |}.

(** ** Concrete runs

    Stand-ins for the helpers, two resource data and remotes that give a
    fixed answer to each kind of call, to run the operations on. *)

Definition example_externals : Externals :=
  {| ResponseWasNotFound := fun resp =>
       match resp with
       | Some statusCode => statusCode =? 404
       | None => false
       end;
     parseAzureResourceID := fun id =>
       if decide (id = EmptyString) then inr (Errorf "Cannot parse Azure ID: %s" [ArgString id])
       else inl {| ResourceGroup := "rg";
                   Path := {[ "containerGroups" := "g"; "containerServices" := "a" ]} |};
     azureRMNormalizeLocation := fun location => location;
     expandTags := fun tags => Some <$> tags;
     flattenTags := fun tags => omap (fun v => v) tags;
     hashcode_String := fun s => Z.of_nat (String.length s) |}.

Definition example_group_data : ContainerGroup.ResourceData :=
  {| ContainerGroup.Id := "/resourceGroups/rg/containerGroups/g";
     ContainerGroup.name := "g";
     ContainerGroup.location := "westus";
     ContainerGroup.resource_group_name := "rg";
     ContainerGroup.ip_address_type := "Public";
     ContainerGroup.os_type := "linux";
     ContainerGroup.image_registry_credential :=
       [ {| ContainerGroup.credential_server := "hub.docker.com";
            ContainerGroup.credential_username := "u";
            ContainerGroup.credential_password := "pw" |} ];
     ContainerGroup.tags := ∅;
     ContainerGroup.restart_policy := "Always";
     ContainerGroup.ip_address := "";
     ContainerGroup.fqdn := "";
     ContainerGroup.dns_name_label := "";
     ContainerGroup.container :=
       [ {| ContainerGroup.container_name := "web";
            ContainerGroup.container_image := "nginx";
            ContainerGroup.container_cpu := 0.5%float;
            ContainerGroup.container_memory := 1.5%float;
            ContainerGroup.container_port := 80;
            ContainerGroup.container_protocol := "tcp";
            ContainerGroup.container_environment_variables := {[ "MODE" := "prod" ]};
            ContainerGroup.container_command := "nginx -g daemon";
            ContainerGroup.container_volume :=
              [ {| ContainerGroup.volume_name := "data";
                   ContainerGroup.volume_mount_path := "/mnt/data";
                   ContainerGroup.volume_read_only := false;
                   ContainerGroup.volume_share_name := "share1";
                   ContainerGroup.volume_storage_account_name := "account1";
                   ContainerGroup.volume_storage_account_key := "key1" |} ] |} ];
     ContainerGroup.Timeout := fun _ => 1800 |}.

Definition example_service_data : ContainerService.ResourceData :=
  {| ContainerService.Id := "/resourceGroups/rg/containerServices/a";
     ContainerService.name := "a";
     ContainerService.location := "westus";
     ContainerService.resource_group_name := "rg";
     ContainerService.orchestration_platform := "Kubernetes";
     ContainerService.master_profile :=
       schema.Add
         (schema.NewSet (@ContainerService.resourceAzureRMContainerServiceMasterProfileHash
                           example_externals))
         {| ContainerService.master_count := 1;
            ContainerService.master_dns_prefix := "x";
            ContainerService.master_fqdn := "" |};
     ContainerService.linux_profile :=
       schema.Add
         (schema.NewSet (@ContainerService.resourceAzureRMContainerServiceLinuxProfilesHash
                           example_externals))
         {| ContainerService.admin_username := "admin";
            ContainerService.ssh_key :=
              schema.Add
                (schema.NewSet
                   (@ContainerService.resourceAzureRMContainerServiceLinuxProfilesSSHKeysHash
                      example_externals))
                {| ContainerService.key_data := "ssh-rsa AAAA" |} |};
     ContainerService.agent_pool_profile :=
       schema.Add
         (schema.NewSet (@ContainerService.resourceAzureRMContainerServiceAgentPoolProfilesHash
                           example_externals))
         {| ContainerService.agent_name := "pool";
            ContainerService.agent_count := 2;
            ContainerService.agent_dns_prefix := "y";
            ContainerService.agent_fqdn := "";
            ContainerService.agent_vm_size := "Standard_D2_v2" |};
     ContainerService.service_principal :=
       schema.Add
         (schema.NewSet
            (@ContainerService.resourceAzureRMContainerServiceServicePrincipalProfileHash
               example_externals))
         {| ContainerService.client_id := "client";
            ContainerService.client_secret := "secret" |};
     ContainerService.diagnostics_profile :=
       schema.Add
         (schema.NewSet (@ContainerService.resourceAzureRMContainerServiceDiagnosticProfilesHash
                           example_externals))
         {| ContainerService.enabled := false; ContainerService.storage_uri := "" |};
     ContainerService.tags := ∅;
     ContainerService.IsNewResource := true;
     ContainerService.Timeout := fun _ => 3600 |}.

(** A remote that answers every Get, CreateOrUpdate and Delete with a fixed
    result and counts the calls. *)
Definition answering_groups
    (get create delete : containerinstance.ContainerGroup * option error)
    : Remote containerinstance.Call nat :=
  fun X e n =>
    match e in containerinstance.Call X return X * nat with
    | containerinstance.Get _ _ => (get, S n)
    | containerinstance.CreateOrUpdate _ _ _ => (create, S n)
    | containerinstance.Delete _ _ => (delete, S n)
    end.

Definition answering_services
    (get : containerservice.ContainerService * option error)
    (create delete : containerservice.Future * option error)
    (wait : option error)
    : Remote containerservice.Call nat :=
  fun X e n =>
    match e in containerservice.Call X return X * nat with
    | containerservice.Get _ _ => (get, S n)
    | containerservice.CreateOrUpdate _ _ _ => (create, S n)
    | containerservice.Delete _ _ => (delete, S n)
    | containerservice.WaitForCompletionRef _ => (wait, S n)
    end.

(** The result of a call on a container group that is not there, on one
    that is, and of a successful call returning an object without ID. *)
Definition group_response (status : Z) (id : option string)
    : containerinstance.ContainerGroup :=
  {| containerinstance.ContainerGroup_Response := Some status;
     containerinstance.ID := id;
     containerinstance.Name := None;
     containerinstance.Location := None;
     containerinstance.Tags := ∅;
     containerinstance.ContainerGroup_ContainerGroupProperties := None |}.

Definition service_response (status : Z) (id : option string)
    : containerservice.ContainerService :=
  {| containerservice.ContainerService_Response := Some status;
     containerservice.ID := id;
     containerservice.Name := None;
     containerservice.Location := None;
     containerservice.Tags := ∅;
     containerservice.ContainerService_Properties := None |}.

Definition not_found : error := RemoteError "StatusCode=404 ResourceNotFound".

Definition future_response (status : Z) : containerservice.Future :=
  {| containerservice.Future_Response := Some status |}.

Definition existing_group_id : string :=
  "/subscriptions/0/resourceGroups/rg/providers/Microsoft.ContainerInstance/containerGroups/g".

Definition existing_service_id : string :=
  "/subscriptions/0/resourceGroups/rg/providers/Microsoft.ContainerService/containerServices/a".

(** What Create / Update sends for [example_service_data]. *)
Definition example_service_parameters : containerservice.ContainerService :=
  {| containerservice.ContainerService_Response := None;
     containerservice.ID := None;
     containerservice.Name := Some "a";
     containerservice.Location := Some "westus";
     containerservice.Tags := ∅;
     containerservice.ContainerService_Properties := Some
       {| containerservice.ProvisioningState := None;
          containerservice.OrchestratorProfile :=
            Some {| containerservice.OrchestratorType := "Kubernetes" |};
          containerservice.Properties_ServicePrincipalProfile :=
            Some {| containerservice.ClientID := Some "client";
                    containerservice.Secret := Some "secret" |};
          containerservice.Properties_MasterProfile :=
            Some {| containerservice.MasterProfile_Count := Some 1;
                    containerservice.MasterProfile_DNSPrefix := Some "x";
                    containerservice.MasterProfile_Fqdn := None |};
          containerservice.AgentPoolProfiles :=
            Some [ {| containerservice.AgentPoolProfile_Name := Some "pool";
                      containerservice.AgentPoolProfile_Count := Some 2;
                      containerservice.VMSize := "Standard_D2_v2";
                      containerservice.AgentPoolProfile_DNSPrefix := Some "y";
                      containerservice.AgentPoolProfile_Fqdn := None |} ];
          containerservice.Properties_LinuxProfile :=
            Some {| containerservice.AdminUsername := Some "admin";
                    containerservice.SSH :=
                      Some {| containerservice.PublicKeys :=
                                Some [ {| containerservice.KeyData := Some "ssh-rsa AAAA" |} ] |} |};
          containerservice.Properties_DiagnosticsProfile :=
            Some {| containerservice.DiagnosticsProfile_VMDiagnostics :=
                      Some {| containerservice.Enabled := Some false;
                              containerservice.StorageURI := None |} |} |} |}.

Definition quota_exceeded : error := RemoteError "StatusCode=409 QuotaExceeded".

(** A group with one Azure file volume, [data], and two mounts: [data],
    which the group volume matches, and [logs], which nothing matches. *)
Definition example_group_volumes : list containerinstance.Volume :=
  [ {| containerinstance.Volume_Name := Some "data";
       containerinstance.AzureFile := Some
         {| containerinstance.ShareName := Some "share1";
            containerinstance.AzureFileVolume_ReadOnly := Some false;
            containerinstance.StorageAccountName := Some "account1";
            containerinstance.StorageAccountKey := None |} |} ].

Definition example_data_mount : containerinstance.VolumeMount :=
  {| containerinstance.VolumeMount_Name := Some "data";
     containerinstance.MountPath := Some "/mnt/data";
     containerinstance.VolumeMount_ReadOnly := Some false |}.

Definition example_logs_mount : containerinstance.VolumeMount :=
  {| containerinstance.VolumeMount_Name := Some "logs";
     containerinstance.MountPath := Some "/var/log";
     containerinstance.VolumeMount_ReadOnly := Some true |}.

(** ** A simulated container service remote

    It stores what create-or-update sends, assigns the ID and the FQDNs, and
    shows the given state labels on the successive Gets, Succeeded once the
    list is used up. *)

Record Simulated : Type := {
  created : option containerservice.ContainerService;
  gets : nat
}.

Definition assigned_master_fqdn : string := "x.westus.cloudapp.azure.com".
Definition assigned_agent_fqdn : string := "y.westus.cloudapp.azure.com".

Definition assigned (parameters : containerservice.ContainerService) (label : string)
    : containerservice.ContainerService :=
  {| containerservice.ContainerService_Response := Some 200;
     containerservice.ID := Some existing_service_id;
     containerservice.Name := containerservice.Name parameters;
     containerservice.Location := containerservice.Location parameters;
     containerservice.Tags := containerservice.Tags parameters;
     containerservice.ContainerService_Properties :=
       (fun properties =>
          {| containerservice.ProvisioningState := Some label;
             containerservice.OrchestratorProfile :=
               containerservice.OrchestratorProfile properties;
             containerservice.Properties_ServicePrincipalProfile :=
               containerservice.Properties_ServicePrincipalProfile properties;
             containerservice.Properties_MasterProfile :=
               (fun profile =>
                  {| containerservice.MasterProfile_Count :=
                       containerservice.MasterProfile_Count profile;
                     containerservice.MasterProfile_DNSPrefix :=
                       containerservice.MasterProfile_DNSPrefix profile;
                     containerservice.MasterProfile_Fqdn := Some assigned_master_fqdn |})
                <$> containerservice.Properties_MasterProfile properties;
             containerservice.AgentPoolProfiles :=
               fmap (M := list)
                 (fun profile =>
                    {| containerservice.AgentPoolProfile_Name :=
                         containerservice.AgentPoolProfile_Name profile;
                       containerservice.AgentPoolProfile_Count :=
                         containerservice.AgentPoolProfile_Count profile;
                       containerservice.VMSize := containerservice.VMSize profile;
                       containerservice.AgentPoolProfile_DNSPrefix :=
                         containerservice.AgentPoolProfile_DNSPrefix profile;
                       containerservice.AgentPoolProfile_Fqdn := Some assigned_agent_fqdn |})
                <$> containerservice.AgentPoolProfiles properties;
             containerservice.Properties_LinuxProfile :=
               containerservice.Properties_LinuxProfile properties;
             containerservice.Properties_DiagnosticsProfile :=
               containerservice.Properties_DiagnosticsProfile properties |})
         <$> containerservice.ContainerService_Properties parameters |}.

Definition simulated_services (labels : list string)
    : Remote containerservice.Call Simulated :=
  fun X e st =>
    match e in containerservice.Call X return X * Simulated with
    | containerservice.Get _ _ =>
        match created st with
        | Some parameters =>
            ((assigned parameters (default "Succeeded" (labels !! gets st)), None),
             {| created := created st; gets := Datatypes.S (gets st) |})
        | None => ((service_response 404 None, Some not_found), st)
        end
    | containerservice.CreateOrUpdate _ _ parameters =>
        ((future_response 201, None), {| created := Some parameters; gets := 0 |})
    | containerservice.Delete _ _ =>
        match created st with
        | Some _ => ((future_response 202, None), {| created := None; gets := gets st |})
        | None => ((future_response 404, Some not_found), st)
        end
    | containerservice.WaitForCompletionRef _ => (None, st)
    end.

(** ** Container groups to try flatten after expand on *)

(** A group like [example_group_data] with the given container blocks. *)
Definition group_of (containers : list ContainerGroup.ContainerConfig)
    : ContainerGroup.ResourceData :=
  {| ContainerGroup.Id := ContainerGroup.Id example_group_data;
     ContainerGroup.name := ContainerGroup.name example_group_data;
     ContainerGroup.location := ContainerGroup.location example_group_data;
     ContainerGroup.resource_group_name := ContainerGroup.resource_group_name example_group_data;
     ContainerGroup.ip_address_type := ContainerGroup.ip_address_type example_group_data;
     ContainerGroup.os_type := ContainerGroup.os_type example_group_data;
     ContainerGroup.image_registry_credential := [];
     ContainerGroup.tags := ∅;
     ContainerGroup.restart_policy := ContainerGroup.restart_policy example_group_data;
     ContainerGroup.ip_address := EmptyString;
     ContainerGroup.fqdn := EmptyString;
     ContainerGroup.dns_name_label := EmptyString;
     ContainerGroup.container := containers;
     ContainerGroup.Timeout := ContainerGroup.Timeout example_group_data |}.

Definition plain_container (name : string) (port : Z) (protocol : string)
    (volumes : list ContainerGroup.VolumeConfig) : ContainerGroup.ContainerConfig :=
  {| ContainerGroup.container_name := name;
     ContainerGroup.container_image := "nginx";
     ContainerGroup.container_cpu := 0.5%float;
     ContainerGroup.container_memory := 1.5%float;
     ContainerGroup.container_port := port;
     ContainerGroup.container_protocol := protocol;
     ContainerGroup.container_environment_variables := ∅;
     ContainerGroup.container_command := EmptyString;
     ContainerGroup.container_volume := volumes |}.

Definition plain_volume (name share : string) : ContainerGroup.VolumeConfig :=
  {| ContainerGroup.volume_name := name;
     ContainerGroup.volume_mount_path := "/mnt";
     ContainerGroup.volume_read_only := false;
     ContainerGroup.volume_share_name := share;
     ContainerGroup.volume_storage_account_name := "account1";
     ContainerGroup.volume_storage_account_key := "key1" |}.

(** Flatten of what expand built for the container blocks [containers]. *)
Definition flatten_expand (containers : list ContainerGroup.ContainerConfig)
    : option (list ContainerGroup.ContainerConfig) :=
  let d := group_of containers in
  fmap (M := list) ContainerGroup.stored_container
    <$> ContainerGroup.flattenContainerGroupContainers d
          (Some (ContainerGroup.expandContainerGroupContainers d).1.1)
          (Some (ContainerGroup.expandContainerGroupContainers d).1.2)
          (Some (ContainerGroup.expandContainerGroupContainers d).2).

(** ** Further vocabulary and remotes *)

(** The value an environment variable list holds for a name: the value of
    the last variable of that name. *)
Definition last_value (k : string) (input : list containerinstance.EnvironmentVariable)
    : option string :=
  last (omap (fun envVar =>
                if decide (containerinstance.EnvironmentVariable_Name envVar = Some k)
                then containerinstance.EnvironmentVariable_Value envVar else None)
             input).

(** The group port and the group volume that expand builds for a block. *)
Definition group_port_of (data : ContainerGroup.ContainerConfig) : containerinstance.Port :=
  {| containerinstance.Port_Protocol :=
       strings.ToUpper (ContainerGroup.container_protocol data);
     containerinstance.Port_Port := Some (int32 (ContainerGroup.container_port data)) |}.

Definition group_volume_of (v : ContainerGroup.VolumeConfig) : containerinstance.Volume :=
  {| containerinstance.Volume_Name := Some (ContainerGroup.volume_name v);
     containerinstance.AzureFile := Some
       {| containerinstance.ShareName := Some (ContainerGroup.volume_share_name v);
          containerinstance.AzureFileVolume_ReadOnly :=
            Some (ContainerGroup.volume_read_only v);
          containerinstance.StorageAccountName :=
            Some (ContainerGroup.volume_storage_account_name v);
          containerinstance.StorageAccountKey :=
            Some (ContainerGroup.volume_storage_account_key v) |} |}.

(** The container group the API returns for what Create sent: it assigns
    the ID, the IP address and the FQDN, and may or may not echo the
    storage account keys and the registry passwords. *)
Definition returned_group (id : string) (ip fqdn : option string)
    (echo_keys echo_passwords : bool) (parameters : containerinstance.ContainerGroup)
    : containerinstance.ContainerGroup :=
  {| containerinstance.ContainerGroup_Response := Some 200;
     containerinstance.ID := Some id;
     containerinstance.Name := containerinstance.Name parameters;
     containerinstance.Location := containerinstance.Location parameters;
     containerinstance.Tags := containerinstance.Tags parameters;
     containerinstance.ContainerGroup_ContainerGroupProperties :=
       (fun props =>
          {| containerinstance.ImageRegistryCredentials :=
               returned_credentials echo_passwords
                 (containerinstance.ImageRegistryCredentials props);
             containerinstance.Containers := containerinstance.Containers props;
             containerinstance.RestartPolicy := containerinstance.RestartPolicy props;
             containerinstance.ContainerGroupProperties_IPAddress :=
               (fun address =>
                  {| containerinstance.IPAddress_Ports :=
                       containerinstance.IPAddress_Ports address;
                     containerinstance.IPAddress_Type :=
                       containerinstance.IPAddress_Type address;
                     containerinstance.IP := ip;
                     containerinstance.DNSNameLabel :=
                       containerinstance.DNSNameLabel address;
                     containerinstance.Fqdn := fqdn |})
                 <$> containerinstance.ContainerGroupProperties_IPAddress props;
             containerinstance.OsType := containerinstance.OsType props;
             containerinstance.Volumes :=
               returned_volumes echo_keys <$> containerinstance.Volumes props |})
         <$> containerinstance.ContainerGroup_ContainerGroupProperties parameters |}.

(** A remote that keeps the container group it was last sent, as the API
    returns it, and answers Get with it. *)
Definition storing_groups (id : string) (ip fqdn : option string)
    : Remote containerinstance.Call (option containerinstance.ContainerGroup) :=
  fun X e stored =>
    match e in containerinstance.Call X
          return X * option containerinstance.ContainerGroup with
    | containerinstance.Get _ _ =>
        match stored with
        | Some group => ((group, None), stored)
        | None => ((group_response 404 None, Some not_found), stored)
        end
    | containerinstance.CreateOrUpdate _ _ parameters =>
        let group := returned_group id ip fqdn false false parameters in
        ((group, None), Some group)
    | containerinstance.Delete _ _ =>
        match stored with
        | Some _ => ((group_response 200 None, None), None)
        | None => ((group_response 404 None, Some not_found), None)
        end
    end.

(** The example group as the API returns it once created. *)
Definition example_stored_group : containerinstance.ContainerGroup :=
  returned_group existing_group_id (Some "10.0.0.4") (Some "g.westus.azurecontainer.io")
    false false
    (@ContainerGroup.containerGroupParameters example_externals example_group_data).

(** * Properties *)

(** ** Validation bounds *)

Lemma master_profile_count_capacities (v : Z) :
  default false (({[ 1 := true; 3 := true; 5 := true ]} : gmap Z bool) !! v) = true
  <-> v = 1 \/ v = 3 \/ v = 5.
Proof.
  split.
  - intros Hlookup.
    destruct (decide (v = 1)) as [|H1]; [by left|].
    destruct (decide (v = 3)) as [|H3]; [by right; left|].
    destruct (decide (v = 5)) as [|H5]; [by right; right|].
    by simplify_map_eq.
  - by intros [-> | [-> | ->]].
Qed.

Lemma orchestration_platform_capacities (s : string) :
  default false (({[ "DCOS" := true; "Kubernetes" := true; "Swarm" := true ]}
                   : gmap string bool) !! s) = true
  <-> s = "DCOS" \/ s = "Kubernetes" \/ s = "Swarm".
Proof.
  split.
  - intros Hlookup.
    destruct (decide (s = "DCOS")) as [|H1]; [by left|].
    destruct (decide (s = "Kubernetes")) as [|H2]; [by right; left|].
    destruct (decide (s = "Swarm")) as [|H3]; [by right; right|].
    by simplify_map_eq.
  - by intros [-> | [-> | ->]].
Qed.

(** C9. The master profile count is rejected exactly when it is not 1, 3 or
    5; the agent pool count exactly when it is at most 0 or above 100; the
    orchestration platform exactly when it is none of DCOS, Kubernetes and
    Swarm, compared byte for byte. *)
Theorem validation_bounds :
  (forall (v : Z) (k : string),
      (validateArmContainerServiceMasterProfileCount v k).2 <> []
      <-> ~ (v = 1 \/ v = 3 \/ v = 5)) /\
  (forall (v : Z) (k : string),
      (validateArmContainerServiceAgentPoolProfileCount v k).2 <> []
      <-> (v <= 0 \/ v > 100)) /\
  (forall (s : string) (k : string),
      (validateArmContainerServiceOrchestrationPlatform s k).2 <> []
      <-> ~ (s = "DCOS" \/ s = "Kubernetes" \/ s = "Swarm")).
Proof.
  split; [|split].
  - intros v k. unfold validateArmContainerServiceMasterProfileCount. cbn [snd].
    rewrite <- master_profile_count_capacities.
    destruct (default false _); cbn; split; intros Hx; done.
  - intros v k. unfold validateArmContainerServiceAgentPoolProfileCount. cbn [snd].
    destruct (100 <? v) eqn:Hhi; destruct (v <=? 0) eqn:Hlo; cbn;
      split; intros Hx; try done; lia.
  - intros s k. unfold validateArmContainerServiceOrchestrationPlatform. cbn [snd].
    rewrite <- orchestration_platform_capacities.
    destruct (default false _); cbn; split; intros Hx; done.
Qed.

(** ** Image registry credentials *)

(** C10. The i-th flattened credential carries a password exactly when the
    prior configuration has an entry at index i whose server equals the
    remote credential's server and whose password is set; the password is
    then the prior one.  In every other case the password key is left out. *)
Theorem registry_password_from_prior_config
    (d : ContainerGroup.ResourceData)
    (creds : list containerinstance.ImageRegistryCredential)
    (i : nat) (cred : containerinstance.ImageRegistryCredential) :
  creds !! i = Some cred ->
  exists flat,
    ContainerGroup.flattenContainerImageRegistryCredentials d (Some creds) !! i = Some flat /\
    ContainerGroup.flat_credential_server flat = containerinstance.Server cred /\
    ContainerGroup.flat_credential_username flat = containerinstance.Username cred /\
    (forall p,
        ContainerGroup.flat_credential_password flat = Some p <->
        exists old,
          ContainerGroup.image_registry_credential d !! i = Some old /\
          containerinstance.Server cred = Some (ContainerGroup.credential_server old) /\
          ContainerGroup.credential_password old = p /\
          p <> EmptyString) /\
    ((forall old, ContainerGroup.image_registry_credential d !! i = Some old ->
                  containerinstance.Server cred <> Some (ContainerGroup.credential_server old)) ->
     ContainerGroup.flat_credential_password flat = None).
Proof.
  intros Hcred.
  unfold ContainerGroup.flattenContainerImageRegistryCredentials.
  rewrite list_lookup_imap, Hcred. cbn [fmap option_fmap option_map].
  eexists; split; [reflexivity|]. cbn.
  split; [done|]. split; [done|].
  unfold ContainerGroup.GetOk_image_registry_credential_password.
  destruct (ContainerGroup.image_registry_credential d !! i) as [old|] eqn:Hold.
  - destruct (containerinstance.Server cred) as [server|] eqn:Hserver.
    + destruct (decide (server = ContainerGroup.credential_server old)) as [->|Hne].
      * cbn. case_bool_decide as Hpw.
        -- split.
           ++ intros p; split.
              ** intros [= <-]. by exists old.
              ** intros (old' & [= <-] & _ & <- & _). done.
           ++ intros Hno. by destruct (Hno old).
        -- split.
           ++ intros p; split; [done|].
              intros (old' & [= <-] & _ & <- & Hp). by destruct Hpw.
           ++ done.
      * split; [|done].
        intros p; split; [done|].
        intros (old' & [= <-] & [= ->] & _). done.
    + split; [|done].
      intros p; split; [done|]. intros (old' & _ & [=] & _).
  - split; [|done].
    intros p; split; [done|]. intros (old' & [=] & _).
Qed.

(** A remote credential for the server of the prior configuration: the prior
    password comes back. *)
Lemma registry_password_from_prior_config_witness :
  exists flat,
    ContainerGroup.flattenContainerImageRegistryCredentials example_group_data
      (Some [ {| containerinstance.Server := Some "hub.docker.com";
                 containerinstance.Username := Some "u";
                 containerinstance.Password := None |} ]) !! 0%nat = Some flat /\
    ContainerGroup.flat_credential_password flat = Some "pw".
Proof.
  destruct (registry_password_from_prior_config example_group_data
              [ {| containerinstance.Server := Some "hub.docker.com";
                   containerinstance.Username := Some "u";
                   containerinstance.Password := None |} ]
              0%nat _ eq_refl) as (flat & Hflat & _ & _ & Hpw & _).
  exists flat. split; [exact Hflat|].
  apply Hpw. eexists. split; [reflexivity|]. split; [reflexivity|]. split; [reflexivity|]. done.
Defined.

(** ** Volume mounts and group volumes *)

Lemma group_volume_search (vmName : string) (volumeConfig : ContainerGroup.FlatVolume)
    (containerGroupVolumes : list containerinstance.Volume) :
  Forall volume_complete containerGroupVolumes ->
  rangeM (fun volumeConfig cgv =>
            cgvName ← containerinstance.Volume_Name cgv;
            if decide (cgvName = vmName) then
              match containerinstance.AzureFile cgv with
              | Some azureFile =>
                  shareName ← containerinstance.ShareName azureFile;
                  storageAccountName ← containerinstance.StorageAccountName azureFile;
                  Some {| ContainerGroup.flat_volume_name :=
                            ContainerGroup.flat_volume_name volumeConfig;
                          ContainerGroup.flat_volume_mount_path :=
                            ContainerGroup.flat_volume_mount_path volumeConfig;
                          ContainerGroup.flat_volume_read_only :=
                            ContainerGroup.flat_volume_read_only volumeConfig;
                          ContainerGroup.flat_volume_share_name := Some shareName;
                          ContainerGroup.flat_volume_storage_account_name :=
                            Some storageAccountName;
                          ContainerGroup.flat_volume_storage_account_key :=
                            ContainerGroup.flat_volume_storage_account_key volumeConfig |}
              | None => Some volumeConfig
              end
            else Some volumeConfig)
         volumeConfig containerGroupVolumes
  = Some (from_option (with_share volumeConfig) volumeConfig
            (matching_share vmName containerGroupVolumes)).
Proof.
  unfold matching_share.
  intros Hcomplete. revert volumeConfig.
  induction Hcomplete as [|cgv rest [[cgvName HcgvName] Hfile] _ IH]; intros volumeConfig; [done|].
  cbn [rangeM omap list_omap]. rewrite HcgvName. cbn [mbind option_bind].
  destruct (decide (cgvName = vmName)) as [->|Hne].
  - rewrite decide_True by done.
    destruct (containerinstance.AzureFile cgv) as [azureFile|] eqn:HazureFile.
    + destruct (Hfile azureFile eq_refl) as [[shareName HshareName] [accountName HaccountName]].
      rewrite HshareName, HaccountName. cbn [mbind option_bind].
      rewrite IH, last_cons.
      destruct (last _) as [later|]; cbn; [done|].
      unfold with_share. by rewrite HshareName, HaccountName.
    + apply IH.
  - rewrite decide_False by congruence. apply IH.
Qed.

Lemma matching_share_unmatched (vmName : string)
    (containerGroupVolumes : list containerinstance.Volume) :
  (forall cgv, cgv ∈ containerGroupVolumes ->
               containerinstance.Volume_Name cgv <> Some vmName) ->
  matching_share vmName containerGroupVolumes = None.
Proof.
  unfold matching_share. intros Hnone.
  induction containerGroupVolumes as [|cgv rest IH]; [done|].
  cbn [omap list_omap].
  rewrite decide_False by (apply Hnone; left).
  apply IH. intros cgv' Hin. apply Hnone. by right.
Qed.

Lemma config_key_search (vmName : string) (volumeConfig : ContainerGroup.FlatVolume)
    (config : list ContainerGroup.VolumeConfig) :
  foldl (fun volumeConfig cv =>
           let rawName := ContainerGroup.volume_name cv in
           if decide (vmName = rawName) then
             {| ContainerGroup.flat_volume_name := ContainerGroup.flat_volume_name volumeConfig;
                ContainerGroup.flat_volume_mount_path :=
                  ContainerGroup.flat_volume_mount_path volumeConfig;
                ContainerGroup.flat_volume_read_only :=
                  ContainerGroup.flat_volume_read_only volumeConfig;
                ContainerGroup.flat_volume_share_name :=
                  ContainerGroup.flat_volume_share_name volumeConfig;
                ContainerGroup.flat_volume_storage_account_name :=
                  ContainerGroup.flat_volume_storage_account_name volumeConfig;
                ContainerGroup.flat_volume_storage_account_key :=
                  Some (ContainerGroup.volume_storage_account_key cv) |}
           else volumeConfig)
        volumeConfig config
  = with_key volumeConfig
      (match prior_key vmName config with
       | Some key => Some key
       | None => ContainerGroup.flat_volume_storage_account_key volumeConfig
       end).
Proof.
  unfold prior_key. revert volumeConfig.
  induction config as [|cv config IH]; intros volumeConfig; [by destruct volumeConfig|].
  cbn [foldl]. rewrite IH. rewrite filter_cons.
  destruct (decide (vmName = ContainerGroup.volume_name cv)) as [Heq|Hne].
  - rewrite last_cons. destruct (last _); done.
  - done.
Qed.

Lemma flattenVolumeMount_complete
    (containerGroupVolumes : list containerinstance.Volume)
    (containerVolumesConfig : option (list ContainerGroup.VolumeConfig))
    (vm : containerinstance.VolumeMount) (vmName vmMountPath : string) :
  containerinstance.VolumeMount_Name vm = Some vmName ->
  containerinstance.MountPath vm = Some vmMountPath ->
  Forall volume_complete containerGroupVolumes ->
  ContainerGroup.flattenVolumeMount containerGroupVolumes containerVolumesConfig vm
  = Some {| ContainerGroup.flat_volume_name := vmName;
            ContainerGroup.flat_volume_mount_path := vmMountPath;
            ContainerGroup.flat_volume_read_only := containerinstance.VolumeMount_ReadOnly vm;
            ContainerGroup.flat_volume_share_name :=
              matching_share vmName containerGroupVolumes ≫= containerinstance.ShareName;
            ContainerGroup.flat_volume_storage_account_name :=
              matching_share vmName containerGroupVolumes
                ≫= containerinstance.StorageAccountName;
            ContainerGroup.flat_volume_storage_account_key :=
              containerVolumesConfig ≫= prior_key vmName |}.
Proof.
  intros Hname Hpath Hcomplete. unfold ContainerGroup.flattenVolumeMount.
  rewrite Hname, Hpath. cbn [mbind option_bind].
  rewrite group_volume_search by done. cbn [mbind option_bind].
  destruct containerVolumesConfig as [config|]; cbn [mbind option_bind].
  - rewrite config_key_search.
    destruct (matching_share vmName containerGroupVolumes) as [azureFile|];
      destruct (prior_key vmName config); done.
  - destruct (matching_share vmName containerGroupVolumes) as [azureFile|]; done.
Qed.

(** C4, as the code has it.  For mounts and group volumes that carry their
    required strings, flatten returns one entry per volume mount, in order.
    The entry has the mount's name, path and read-only flag; its share name
    and storage account name are those of the last group volume whose name
    equals the mount's name exactly and that has an Azure file share.  A
    mount that no group volume matches still gets its entry, without share
    name and storage account name, and nothing fails. *)
Theorem volume_mounts_resolved_by_name
    (volumeMounts : list containerinstance.VolumeMount)
    (containerGroupVolumes : list containerinstance.Volume)
    (containerVolumesConfig : option (list ContainerGroup.VolumeConfig)) :
  Forall mount_complete volumeMounts ->
  Forall volume_complete containerGroupVolumes ->
  exists volumeConfigs,
    ContainerGroup.flattenContainerVolumes volumeMounts containerGroupVolumes
      containerVolumesConfig = Some volumeConfigs /\
    length volumeConfigs = length volumeMounts /\
    forall (i : nat) (vm : containerinstance.VolumeMount),
      volumeMounts !! i = Some vm ->
      exists volumeConfig vmName,
        volumeConfigs !! i = Some volumeConfig /\
        containerinstance.VolumeMount_Name vm = Some vmName /\
        ContainerGroup.flat_volume_name volumeConfig = vmName /\
        Some (ContainerGroup.flat_volume_mount_path volumeConfig)
          = containerinstance.MountPath vm /\
        ContainerGroup.flat_volume_read_only volumeConfig
          = containerinstance.VolumeMount_ReadOnly vm /\
        ContainerGroup.flat_volume_share_name volumeConfig
          = matching_share vmName containerGroupVolumes ≫= containerinstance.ShareName /\
        ContainerGroup.flat_volume_storage_account_name volumeConfig
          = matching_share vmName containerGroupVolumes
              ≫= containerinstance.StorageAccountName /\
        ((forall cgv, cgv ∈ containerGroupVolumes ->
                      containerinstance.Volume_Name cgv <> Some vmName) ->
         ContainerGroup.flat_volume_share_name volumeConfig = None /\
         ContainerGroup.flat_volume_storage_account_name volumeConfig = None).
Proof.
  intros Hmounts Hvolumes. unfold ContainerGroup.flattenContainerVolumes.
  assert (is_Some (mapM (ContainerGroup.flattenVolumeMount containerGroupVolumes
                           containerVolumesConfig) volumeMounts))
    as [volumeConfigs HvolumeConfigs].
  { apply mapM_is_Some_2. eapply Forall_impl; [exact Hmounts|].
    intros vm [[vmName HvmName] [vmMountPath HvmMountPath]]. unfold compose.
    by erewrite flattenVolumeMount_complete. }
  exists volumeConfigs. split; [done|].
  split; [symmetry; by eapply length_mapM|].
  intros i vm Hvm.
  apply mapM_Some_1 in HvolumeConfigs.
  destruct (Forall2_lookup_l _ _ _ _ _ HvolumeConfigs Hvm) as (volumeConfig & Hi & Hflat).
  destruct (proj1 (Forall_lookup _ _) Hmounts i vm Hvm)
    as [[vmName HvmName] [vmMountPath HvmMountPath]].
  rewrite (flattenVolumeMount_complete _ _ _ _ _ HvmName HvmMountPath Hvolumes) in Hflat.
  injection Hflat as <-.
  eexists; exists vmName. split; [exact Hi|]. cbn.
  repeat (split; [done|]).
  intros Hunmatched. by rewrite (matching_share_unmatched _ _ Hunmatched).
Qed.

(** The two example mounts against the example group volume. *)
Lemma volume_mounts_resolved_by_name_witness :
  Forall mount_complete [example_data_mount; example_logs_mount] /\
  Forall volume_complete example_group_volumes /\
  exists volumeConfigs,
    ContainerGroup.flattenContainerVolumes [example_data_mount; example_logs_mount]
      example_group_volumes None = Some volumeConfigs /\
    length volumeConfigs = 2%nat.
Proof.
  assert (Forall mount_complete [example_data_mount; example_logs_mount]) as Hmounts.
  { apply Forall_cons; split; [split; cbn; eauto|].
    apply Forall_singleton. split; cbn; eauto. }
  assert (Forall volume_complete example_group_volumes) as Hvolumes.
  { apply Forall_singleton. split; cbn; [eauto|].
    intros azureFile [= <-]; cbn; eauto. }
  split; [exact Hmounts|]. split; [exact Hvolumes|].
  destruct (volume_mounts_resolved_by_name
              [example_data_mount; example_logs_mount] example_group_volumes None
              Hmounts Hvolumes) as (volumeConfigs & Hflat & Hlength & _).
  exists volumeConfigs. split; [exact Hflat|exact Hlength].
Defined.

(** C4, the counterexample: the mount [logs] matches no group volume, and
    flatten still returns an entry for it. *)
Lemma unmatched_volume_mount_is_kept :
  Forall (fun cgv => containerinstance.Volume_Name cgv <> Some "logs") example_group_volumes /\
  ContainerGroup.flattenContainerVolumes [example_logs_mount] example_group_volumes None
  = Some [ {| ContainerGroup.flat_volume_name := "logs";
              ContainerGroup.flat_volume_mount_path := "/var/log";
              ContainerGroup.flat_volume_read_only := Some true;
              ContainerGroup.flat_volume_share_name := None;
              ContainerGroup.flat_volume_storage_account_name := None;
              ContainerGroup.flat_volume_storage_account_key := None |} ].
Proof.
  split; [|reflexivity].
  apply Forall_singleton. cbn. discriminate.
Qed.

(** ** Read, Create and Delete against an arbitrary remote *)

(** C5. When the Get of Read fails and the response is a 404, Read returns
    no error and sets the resource ID to the empty string; when the Get
    fails otherwise, Read returns an error: the client's own error for the
    container group, that error wrapped in a message for the container
    service.  No other call is made. *)
Theorem read_of_missing_object `{Externals}
    (dg : ContainerGroup.ResourceData) (idg : ResourceID)
    {Sg : Type} (groups : Remote containerinstance.Call Sg) (sg sg' : Sg)
    (respg : containerinstance.ContainerGroup) (eg : error)
    (ds : ContainerService.ResourceData) (ids : ResourceID)
    {Ss : Type} (services : Remote containerservice.Call Ss) (ss ss' : Ss)
    (resps : containerservice.ContainerService) (es : error) :
  parseAzureResourceID (ContainerGroup.Id dg) = inl idg ->
  groups _ (containerinstance.Get (ResourceGroup idg)
              (index_string (Path idg) "containerGroups")) sg
    = ((respg, Some eg), sg') ->
  parseAzureResourceID (ContainerService.Id ds) = inl ids ->
  services _ (containerservice.Get (ResourceGroup ids)
                (index_string (Path ids) "containerServices")) ss
    = ((resps, Some es), ss') ->
  run groups (ContainerGroup.resourceArmContainerGroupRead dg) sg
    = {| result :=
           Some (if ResponseWasNotFound (containerinstance.ContainerGroup_Response respg)
                 then (ContainerGroup.SetId dg EmptyString, None)
                 else (dg, Some eg));
         final := sg';
         calls := [existT _ (containerinstance.Get (ResourceGroup idg)
                               (index_string (Path idg) "containerGroups"))] |} /\
  run services (ContainerService.resourceArmContainerServiceRead ds) ss
    = {| result :=
           Some (if ResponseWasNotFound (containerservice.ContainerService_Response resps)
                 then (ContainerService.SetId ds EmptyString, None)
                 else (ds, Some (Errorf "Error making Read request on Azure Container Service %s: %s"
                                   [ArgString (index_string (Path ids) "containerServices");
                                    ArgError es])));
         final := ss';
         calls := [existT _ (containerservice.Get (ResourceGroup ids)
                               (index_string (Path ids) "containerServices"))] |}.
Proof.
  intros Hidg Hgroups Hids Hservices. split.
  - unfold ContainerGroup.resourceArmContainerGroupRead. rewrite Hidg.
    cbn. rewrite Hgroups. cbn.
    by destruct (ResponseWasNotFound _).
  - unfold ContainerService.resourceArmContainerServiceRead. rewrite Hids.
    cbn. rewrite Hservices. cbn.
    by destruct (ResponseWasNotFound _).
Qed.

(** C6. Create starts with a Get of the name in its resource group.  When
    the object read has an ID, Create returns an error and has made no
    other call, so no create-or-update; the error is the import-as-exists
    error whenever the Get did not itself fail with something other than
    "not found".  The container service makes this check for a new
    resource. *)
Theorem create_refuses_existing_object `{Externals}
    (dg : ContainerGroup.ResourceData)
    {Sg : Type} (groups : Remote containerinstance.Call Sg) (sg sg' : Sg)
    (respg : containerinstance.ContainerGroup) (errg : option error) (idg : string)
    (timeoutKey : ContainerService.ResourceData -> schema.TimeoutKey)
    (ds : ContainerService.ResourceData)
    {Ss : Type} (services : Remote containerservice.Call Ss) (ss ss' : Ss)
    (resps : containerservice.ContainerService) (errs : option error) (ids : string) :
  groups _ (containerinstance.Get (ContainerGroup.resource_group_name dg)
              (ContainerGroup.name dg)) sg = ((respg, errg), sg') ->
  containerinstance.ID respg = Some idg ->
  ContainerService.IsNewResource ds = true ->
  services _ (containerservice.Get (ContainerService.resource_group_name ds)
                (ContainerService.name ds)) ss = ((resps, errs), ss') ->
  containerservice.ID resps = Some ids ->
  (exists e,
      run groups (ContainerGroup.resourceArmContainerGroupCreate dg) sg
        = {| result := Some (dg, Some e);
             final := sg';
             calls := [existT _ (containerinstance.Get
                                   (ContainerGroup.resource_group_name dg)
                                   (ContainerGroup.name dg))] |} /\
      (errg = None \/
       ResponseWasNotFound (containerinstance.ContainerGroup_Response respg) = true ->
       e = ImportAsExistsError "azurerm_container_group" idg)) /\
  (exists e,
      run services (ContainerService.resourceArmContainerServiceCreateUpdate timeoutKey ds) ss
        = {| result := Some (ds, Some e);
             final := ss';
             calls := [existT _ (containerservice.Get
                                   (ContainerService.resource_group_name ds)
                                   (ContainerService.name ds))] |} /\
      (errs = None \/
       ResponseWasNotFound (containerservice.ContainerService_Response resps) = true ->
       e = ImportAsExistsError "azurerm_container_service" ids)).
Proof.
  intros Hgroups Hidg Hnew Hservices Hids. split.
  - unfold ContainerGroup.resourceArmContainerGroupCreate.
    cbn. rewrite Hgroups. cbn. rewrite Hidg.
    destruct errg as [e|]; cbn.
    + destruct (ResponseWasNotFound _) eqn:Hnf; cbn.
      * eexists; split; [reflexivity|]. done.
      * eexists; split; [reflexivity|]. by intros [|].
    + eexists; split; [reflexivity|]. done.
  - unfold ContainerService.resourceArmContainerServiceCreateUpdate,
      ContainerService.checkForExisting.
    rewrite Hnew. cbn. rewrite Hservices. cbn. rewrite Hids.
    destruct errs as [e|]; cbn.
    + destruct (ResponseWasNotFound _) eqn:Hnf; cbn.
      * eexists; split; [reflexivity|]. done.
      * eexists; split; [reflexivity|]. by intros [|].
    + eexists; split; [reflexivity|]. done.
Qed.

(** C7. After the check found nothing: an error of the create-or-update
    call is what Create returns, unchanged; and when create-or-update and
    the Get after it succeed but the object read has no ID, Create returns
    the "Cannot read ... ID" error.  In both cases the resource data come
    back as they were, so no ID is stored. *)
Theorem create_failure_modes `{Externals}
    (dg : ContainerGroup.ResourceData)
    {Sg : Type} (groups : Remote containerinstance.Call Sg) (sg0 sg1 sg2 sg3 : Sg)
    (respg createdg readg : containerinstance.ContainerGroup)
    (errg createErrg readErrg : option error)
    (timeoutKey : ContainerService.ResourceData -> schema.TimeoutKey)
    (ds : ContainerService.ResourceData) (parameters : containerservice.ContainerService)
    {Ss : Type} (services : Remote containerservice.Call Ss) (ss0 ss1 ss2 ss3 : Ss)
    (resps reads : containerservice.ContainerService) (future : containerservice.Future)
    (errs createErrs readErrs : option error) :
  let getg := containerinstance.Get (ContainerGroup.resource_group_name dg)
                (ContainerGroup.name dg) in
  let createg := containerinstance.CreateOrUpdate (ContainerGroup.resource_group_name dg)
                   (ContainerGroup.name dg) (ContainerGroup.containerGroupParameters dg) in
  let gets := containerservice.Get (ContainerService.resource_group_name ds)
                (ContainerService.name ds) in
  let creates := containerservice.CreateOrUpdate (ContainerService.resource_group_name ds)
                   (ContainerService.name ds) parameters in
  groups _ getg sg0 = ((respg, errg), sg1) ->
  containerinstance.ID respg = None ->
  (errg = None \/
   ResponseWasNotFound (containerinstance.ContainerGroup_Response respg) = true) ->
  groups _ createg sg1 = ((createdg, createErrg), sg2) ->
  groups _ getg sg2 = ((readg, readErrg), sg3) ->
  ContainerService.IsNewResource ds = true ->
  ContainerService.containerServiceParameters ds = Some parameters ->
  services _ gets ss0 = ((resps, errs), ss1) ->
  containerservice.ID resps = None ->
  (errs = None \/
   ResponseWasNotFound (containerservice.ContainerService_Response resps) = true) ->
  services _ creates ss1 = ((future, createErrs), ss2) ->
  services _ gets ss2 = ((reads, readErrs), ss3) ->
  ((forall e, createErrg = Some e ->
      run groups (ContainerGroup.resourceArmContainerGroupCreate dg) sg0
        = {| result := Some (dg, Some e); final := sg2;
             calls := [existT _ getg; existT _ createg] |}) /\
   (createErrg = None -> readErrg = None -> containerinstance.ID readg = None ->
      run groups (ContainerGroup.resourceArmContainerGroupCreate dg) sg0
        = {| result :=
               Some (dg, Some (Errorf "Cannot read container group %s (resource group %s) ID"
                                 [ArgString (ContainerGroup.name dg);
                                  ArgString (ContainerGroup.resource_group_name dg)]));
             final := sg3;
             calls := [existT _ getg; existT _ createg; existT _ getg] |})) /\
  ((forall e, createErrs = Some e ->
      run services (ContainerService.resourceArmContainerServiceCreateUpdate timeoutKey ds) ss0
        = {| result := Some (ds, Some e); final := ss2;
             calls := [existT _ gets; existT _ creates] |}) /\
   (createErrs = None -> readErrs = None -> containerservice.ID reads = None ->
      run services (ContainerService.resourceArmContainerServiceCreateUpdate timeoutKey ds) ss0
        = {| result :=
               Some (ds, Some (Errorf "Cannot read Container Service %q (resource group %q) ID"
                                 [ArgString (ContainerService.name ds);
                                  ArgString (ContainerService.resource_group_name ds)]));
             final := ss3;
             calls := [existT _ gets; existT _ creates; existT _ gets] |})).
Proof.
  intros getg createg gets creates
    Hgetg Hnog Hokg Hcreateg Hreadg Hnew Hparameters Hgets Hnos Hoks Hcreates Hreads.
  assert (bool_decide (errg ≠ None)
          && negb (ResponseWasNotFound (containerinstance.ContainerGroup_Response respg))
          = false) as Hcheckg.
  { destruct Hokg as [-> | ->]; [done|]. by rewrite andb_false_r. }
  assert (bool_decide (errs ≠ None)
          && negb (ResponseWasNotFound (containerservice.ContainerService_Response resps))
          = false) as Hchecks.
  { destruct Hoks as [-> | ->]; [done|]. by rewrite andb_false_r. }
  split; split.
  - intros e ->. unfold ContainerGroup.resourceArmContainerGroupCreate.
    cbn. fold getg. rewrite Hgetg. cbn. rewrite Hcheckg, Hnog. cbn.
    fold createg. rewrite Hcreateg. done.
  - intros -> -> HnoID. unfold ContainerGroup.resourceArmContainerGroupCreate.
    cbn. fold getg. rewrite Hgetg. cbn. rewrite Hcheckg, Hnog. cbn.
    fold createg. rewrite Hcreateg. cbn. fold getg. rewrite Hreadg. cbn.
    rewrite HnoID. done.
  - intros e ->. unfold ContainerService.resourceArmContainerServiceCreateUpdate,
      ContainerService.checkForExisting.
    rewrite Hnew, Hparameters. cbn. fold gets. rewrite Hgets. cbn.
    rewrite Hchecks, Hnos. cbn. fold creates. rewrite Hcreates. done.
  - intros -> -> HnoID. unfold ContainerService.resourceArmContainerServiceCreateUpdate,
      ContainerService.checkForExisting.
    rewrite Hnew, Hparameters. cbn. fold gets. rewrite Hgets. cbn.
    rewrite Hchecks, Hnos. cbn. fold creates. rewrite Hcreates. cbn.
    fold gets. rewrite Hreads. cbn. rewrite HnoID. done.
Qed.

(** C2, at the container service.  When the Delete call fails and its
    response is a 404, the container group Delete returns no error, and the
    container service Delete returns the "Error deleting" error: it has no
    branch for "not found". *)
Theorem delete_of_missing_object `{Externals}
    (dg : ContainerGroup.ResourceData) (idg : ResourceID)
    {Sg : Type} (groups : Remote containerinstance.Call Sg) (sg sg' : Sg)
    (respg : containerinstance.ContainerGroup) (eg : error)
    (ds : ContainerService.ResourceData) (ids : ResourceID)
    {Ss : Type} (services : Remote containerservice.Call Ss) (ss ss' : Ss)
    (future : containerservice.Future) (es : error) :
  parseAzureResourceID (ContainerGroup.Id dg) = inl idg ->
  groups _ (containerinstance.Delete (ResourceGroup idg)
              (index_string (Path idg) "containerGroups")) sg
    = ((respg, Some eg), sg') ->
  ResponseWasNotFound (containerinstance.ContainerGroup_Response respg) = true ->
  parseAzureResourceID (ContainerService.Id ds) = inl ids ->
  services _ (containerservice.Delete (ResourceGroup ids)
                (index_string (Path ids) "containerServices")) ss
    = ((future, Some es), ss') ->
  ResponseWasNotFound (containerservice.Future_Response future) = true ->
  result (run groups (ContainerGroup.resourceArmContainerGroupDelete dg) sg)
    = Some (dg, None) /\
  result (run services (ContainerService.resourceArmContainerServiceDelete ds) ss)
    = Some (ds, Some (Errorf "Error deleting Container Service %q (Resource Group %q): %+v"
                        [ArgString (index_string (Path ids) "containerServices");
                         ArgString (ResourceGroup ids); ArgError es])).
Proof.
  intros Hidg Hgroups Hnfg Hids Hservices Hnfs. split.
  - unfold ContainerGroup.resourceArmContainerGroupDelete. rewrite Hidg.
    cbn. rewrite Hgroups. cbn. by rewrite Hnfg.
  - unfold ContainerService.resourceArmContainerServiceDelete. rewrite Hids.
    cbn. rewrite Hservices. done.
Qed.

(** Read against remotes that answer Get with a 404. *)
Lemma read_of_missing_object_witness :
  result (run (answering_groups (group_response 404 None, Some not_found)
                 (group_response 200 None, None) (group_response 200 None, None))
              (@ContainerGroup.resourceArmContainerGroupRead example_externals
                 example_group_data) 0%nat)
    = Some (ContainerGroup.SetId example_group_data EmptyString, None) /\
  result (run (answering_services (service_response 404 None, Some not_found)
                 (future_response 200, None) (future_response 200, None) None)
              (@ContainerService.resourceArmContainerServiceRead example_externals
                 example_service_data) 0%nat)
    = Some (ContainerService.SetId example_service_data EmptyString, None).
Proof.
  destruct (@read_of_missing_object example_externals
              example_group_data {| ResourceGroup := "rg";
                   Path := {[ "containerGroups" := "g"; "containerServices" := "a" ]} |}
              nat (answering_groups (group_response 404 None, Some not_found)
                     (group_response 200 None, None) (group_response 200 None, None))
              0%nat 1%nat (group_response 404 None) not_found
              example_service_data {| ResourceGroup := "rg";
                   Path := {[ "containerGroups" := "g"; "containerServices" := "a" ]} |}
              nat (answering_services (service_response 404 None, Some not_found)
                     (future_response 200, None) (future_response 200, None) None)
              0%nat 1%nat (service_response 404 None) not_found
              eq_refl eq_refl eq_refl eq_refl) as [Hgroup Hservice].
  split.
  - rewrite Hgroup. reflexivity.
  - rewrite Hservice. reflexivity.
Defined.

(** Create against remotes that already hold the object. *)
Lemma create_refuses_existing_object_witness :
  result (run (answering_groups (group_response 200 (Some existing_group_id), None)
                 (group_response 200 None, None) (group_response 200 None, None))
              (@ContainerGroup.resourceArmContainerGroupCreate example_externals
                 example_group_data) 0%nat)
    = Some (example_group_data,
            Some (ImportAsExistsError "azurerm_container_group" existing_group_id)) /\
  result (run (answering_services (service_response 200 (Some existing_service_id), None)
                 (future_response 200, None) (future_response 200, None) None)
              (@ContainerService.resourceArmContainerServiceCreateUpdate example_externals
                 (fun _ => schema.TimeoutCreate) example_service_data) 0%nat)
    = Some (example_service_data,
            Some (ImportAsExistsError "azurerm_container_service" existing_service_id)).
Proof.
  destruct (@create_refuses_existing_object example_externals
              example_group_data
              nat (answering_groups (group_response 200 (Some existing_group_id), None)
                     (group_response 200 None, None) (group_response 200 None, None))
              0%nat 1%nat (group_response 200 (Some existing_group_id)) None
              existing_group_id
              (fun _ => schema.TimeoutCreate) example_service_data
              nat (answering_services (service_response 200 (Some existing_service_id), None)
                     (future_response 200, None) (future_response 200, None) None)
              0%nat 1%nat (service_response 200 (Some existing_service_id)) None
              existing_service_id
              eq_refl eq_refl eq_refl eq_refl eq_refl)
    as [(eg & Hgroup & Heg) (es & Hservice & Hes)].
  split.
  - rewrite Hgroup. cbn. by rewrite Heg by (by left).
  - rewrite Hservice. cbn. by rewrite Hes by (by left).
Defined.

Lemma example_service_parameters_sent :
  @ContainerService.containerServiceParameters example_externals example_service_data
  = Some example_service_parameters.
Proof. vm_compute. reflexivity. Qed.

(** Create against remotes that reject create-or-update, and against remotes
    that return objects without ID. *)
Lemma create_failure_modes_witness :
  (result (run (answering_groups (group_response 404 None, Some not_found)
                  (group_response 409 None, Some quota_exceeded)
                  (group_response 200 None, None))
               (@ContainerGroup.resourceArmContainerGroupCreate example_externals
                  example_group_data) 0%nat)
     = Some (example_group_data, Some quota_exceeded) /\
   result (run (answering_groups (group_response 200 None, None)
                  (group_response 200 None, None)
                  (group_response 200 None, None))
               (@ContainerGroup.resourceArmContainerGroupCreate example_externals
                  example_group_data) 0%nat)
     = Some (example_group_data,
             Some (Errorf "Cannot read container group %s (resource group %s) ID"
                     [ArgString "g"; ArgString "rg"]))) /\
  (result (run (answering_services (service_response 404 None, Some not_found)
                  (future_response 409, Some quota_exceeded)
                  (future_response 200, None) None)
               (@ContainerService.resourceArmContainerServiceCreateUpdate example_externals
                  (fun _ => schema.TimeoutCreate) example_service_data) 0%nat)
     = Some (example_service_data, Some quota_exceeded) /\
   result (run (answering_services (service_response 200 None, None)
                  (future_response 200, None)
                  (future_response 200, None) None)
               (@ContainerService.resourceArmContainerServiceCreateUpdate example_externals
                  (fun _ => schema.TimeoutCreate) example_service_data) 0%nat)
     = Some (example_service_data,
             Some (Errorf "Cannot read Container Service %q (resource group %q) ID"
                     [ArgString "a"; ArgString "rg"]))).
Proof.
  pose proof (@create_failure_modes example_externals
                example_group_data
                nat (answering_groups (group_response 404 None, Some not_found)
                       (group_response 409 None, Some quota_exceeded)
                       (group_response 200 None, None))
                0%nat 1%nat 2%nat 3%nat
                (group_response 404 None) (group_response 409 None) (group_response 404 None)
                (Some not_found) (Some quota_exceeded) (Some not_found)
                (fun _ => schema.TimeoutCreate) example_service_data example_service_parameters
                nat (answering_services (service_response 404 None, Some not_found)
                       (future_response 409, Some quota_exceeded)
                       (future_response 200, None) None)
                0%nat 1%nat 2%nat 3%nat
                (service_response 404 None) (service_response 404 None) (future_response 409)
                (Some not_found) (Some quota_exceeded) (Some not_found)
                eq_refl eq_refl (or_intror eq_refl) eq_refl eq_refl
                eq_refl example_service_parameters_sent
                eq_refl eq_refl (or_intror eq_refl) eq_refl eq_refl)
    as [[Hgroup_rejected _] [Hservice_rejected _]].
  pose proof (@create_failure_modes example_externals
                example_group_data
                nat (answering_groups (group_response 200 None, None)
                       (group_response 200 None, None)
                       (group_response 200 None, None))
                0%nat 1%nat 2%nat 3%nat
                (group_response 200 None) (group_response 200 None) (group_response 200 None)
                None None None
                (fun _ => schema.TimeoutCreate) example_service_data example_service_parameters
                nat (answering_services (service_response 200 None, None)
                       (future_response 200, None)
                       (future_response 200, None) None)
                0%nat 1%nat 2%nat 3%nat
                (service_response 200 None) (service_response 200 None) (future_response 200)
                None None None
                eq_refl eq_refl (or_introl eq_refl) eq_refl eq_refl
                eq_refl example_service_parameters_sent
                eq_refl eq_refl (or_introl eq_refl) eq_refl eq_refl)
    as [[_ Hgroup_unread] [_ Hservice_unread]].
  split; split.
  - by rewrite (Hgroup_rejected _ eq_refl).
  - by rewrite (Hgroup_unread eq_refl eq_refl eq_refl).
  - by rewrite (Hservice_rejected _ eq_refl).
  - by rewrite (Hservice_unread eq_refl eq_refl eq_refl).
Defined.

(** Delete against remotes that answer Delete with a 404. *)
Lemma delete_of_missing_object_witness :
  result (run (answering_groups (group_response 404 None, Some not_found)
                 (group_response 200 None, None)
                 (group_response 404 None, Some not_found))
              (@ContainerGroup.resourceArmContainerGroupDelete example_externals
                 example_group_data) 0%nat)
    = Some (example_group_data, None) /\
  result (run (answering_services (service_response 404 None, Some not_found)
                 (future_response 200, None)
                 (future_response 404, Some not_found) None)
              (@ContainerService.resourceArmContainerServiceDelete example_externals
                 example_service_data) 0%nat)
    = Some (example_service_data,
            Some (Errorf "Error deleting Container Service %q (Resource Group %q): %+v"
                    [ArgString "a"; ArgString "rg"; ArgError not_found])).
Proof.
  exact (@delete_of_missing_object example_externals
           example_group_data
           {| ResourceGroup := "rg";
              Path := {[ "containerGroups" := "g"; "containerServices" := "a" ]} |}
           nat (answering_groups (group_response 404 None, Some not_found)
                  (group_response 200 None, None)
                  (group_response 404 None, Some not_found))
           0%nat 1%nat (group_response 404 None) not_found
           example_service_data
           {| ResourceGroup := "rg";
              Path := {[ "containerGroups" := "g"; "containerServices" := "a" ]} |}
           nat (answering_services (service_response 404 None, Some not_found)
                  (future_response 200, None)
                  (future_response 404, Some not_found) None)
           0%nat 1%nat (future_response 404) not_found
           eq_refl eq_refl eq_refl eq_refl eq_refl eq_refl).
Defined.

(** ** Waiting for the container service *)

Section polling.
Context {S : Type} (services : Remote containerservice.Call S).
Context (resGroup name : string) (timeout : Z).

Let get := containerservice.Get resGroup name.
Let conf := ContainerService.stateConf resGroup name timeout.
Let label_after (s : S) (k : nat) : option string :=
  observed_label (answer_after services get s k).

Lemma state_after_succ (s : S) (k : nat) :
  state_after services get s (Datatypes.S k)
  = (services _ get (state_after services get s k)).2.
Proof. revert s. induction k as [|k IH]; intros s; [done|]. cbn. by rewrite <- IH. Qed.

(** One read that shows a label. *)
Lemma refresh_label (s : S) (label : string) :
  label_after s 0 = Some label ->
  run services (resource.Refresh conf) s
  = {| result := Some (Some (services _ get s).1.1, label, None);
       final := (services _ get s).2;
       calls := [existT _ get] |}.
Proof.
  unfold label_after, observed_label, answer_after, get. cbn [state_after].
  intros Hlabel.
  destruct (services _ (containerservice.Get resGroup name) s) as [[res e] s'] eqn:Hget.
  cbn in Hlabel. destruct e as [e|]; [done|].
  destruct (containerservice.ContainerService_Properties res) as [properties|] eqn:Hproperties;
    [|done].
  cbn in Hlabel. cbn. rewrite Hget. cbn. rewrite Hproperties. cbn. by rewrite Hlabel.
Qed.

Lemma run_bind {E : Type -> Type} {A B S' : Type} (remote : Remote E S')
    (p : Prog E A) (f : A -> Prog E B) (s : S') :
  run remote (p ≫= f) s
  = match result (run remote p s) with
    | Some a =>
        let r := run remote (f a) (final (run remote p s)) in
        {| result := result r; final := final r;
           calls := calls (run remote p s) ++ calls r |}
    | None =>
        {| result := None; final := final (run remote p s);
           calls := calls (run remote p s) |}
    end.
Proof.
  unfold mbind, Prog_bind.
  revert s. induction p as [a| |X e k IH]; intros s.
  - cbn. by destruct (run remote (f a) s).
  - done.
  - cbn. rewrite IH. by destruct (result (run remote (k _) _)).
Qed.

(** After [k] reads that showed pending labels the run goes on as a run of
    the remaining reads, [15 k] seconds later. *)
Lemma poll_pending_prefix (k remaining : nat) (s : S) (elapsed : Z) :
  (forall i, (i < k)%nat ->
     exists label, label_after s i = Some label /\ label ∈ ["Updating"; "Creating"]) ->
  run services (resource.poll conf (k + remaining) elapsed) s
  = let r := run services (resource.poll conf remaining (elapsed + 15 * Z.of_nat k))
               (state_after services get s k) in
    {| result := result r; final := final r;
       calls := replicate k (existT _ get) ++ calls r |}.
Proof.
  revert s elapsed. induction k as [|k IH]; intros s elapsed Hpending.
  - cbn. rewrite Z.add_0_r. by destruct (run _ _ _).
  - destruct (Hpending 0%nat ltac:(lia)) as (label & Hlabel & Hin).
    change (Datatypes.S k + remaining)%nat with (Datatypes.S (k + remaining)).
    cbn [resource.poll]. rewrite run_bind, (refresh_label _ _ Hlabel). cbn [result final calls].
    cbn zeta. cbn [resource.conf_Target resource.conf_Pending conf ContainerService.stateConf
                     resource.MinTimeout].
    rewrite bool_decide_eq_false_2, bool_decide_eq_true_2; [|done|].
    + rewrite IH.
      * cbn. replace (elapsed + 15 + 15 * Z.of_nat k) with (elapsed + 15 * Z.of_nat (Datatypes.S k))
          by lia. done.
      * intros i Hi. apply (Hpending (Datatypes.S i)). lia.
    + intros Htarget. apply list_elem_of_singleton in Htarget as ->.
      apply elem_of_cons in Hin as [[=]|Hin]. by apply list_elem_of_singleton in Hin.
Qed.

End polling.

Lemma reads_before_deadline_in_time (timeout : Z) (k : nat) :
  (k < resource.readsBeforeDeadline timeout 15)%nat -> 15 * Z.of_nat k < timeout.
Proof.
  unfold resource.readsBeforeDeadline. intros Hk.
  assert (Z.of_nat k < (timeout + 15 - 1) `div` 15) as Hlt by lia.
  pose proof (Z.mul_div_le (timeout + 15 - 1) 15 ltac:(lia)). lia.
Qed.

(** The read that ends a run: after [k] pending reads, a label in the
    target set ends it as Succeeded, a label in neither set as Failed. *)
Lemma poll_ends {S : Type} (services : Remote containerservice.Call S)
    (resGroup name : string) (timeout : Z) (k remaining : nat) (s : S) (label : string) :
  (forall i, (i < k)%nat ->
     exists l, observed_label (answer_after services (containerservice.Get resGroup name) s i)
               = Some l /\ l ∈ ["Updating"; "Creating"]) ->
  observed_label (answer_after services (containerservice.Get resGroup name) s k) = Some label ->
  label ∉ ["Updating"; "Creating"] ->
  run services
      (resource.poll (ContainerService.stateConf resGroup name timeout)
         (k + Datatypes.S remaining) 0) s
  = {| result :=
         Some (if bool_decide (label = "Succeeded")
               then {| resource.state := resource.Succeeded; resource.err := None;
                       resource.waited := 15 * Z.of_nat k |}
               else {| resource.state := resource.Failed;
                       resource.err := Some (UnexpectedStateError label);
                       resource.waited := 15 * Z.of_nat k |});
       final := state_after services (containerservice.Get resGroup name) s (Datatypes.S k);
       calls := replicate (Datatypes.S k) (existT _ (containerservice.Get resGroup name)) |}.
Proof.
  intros Hpending Hlabel Hnot_pending.
  rewrite poll_pending_prefix by done. cbn zeta.
  cbn [resource.poll]. rewrite run_bind.
  rewrite (refresh_label services resGroup name timeout _ label) by exact Hlabel.
  cbn [result final calls]. cbn zeta.
  cbn [resource.conf_Target resource.conf_Pending ContainerService.stateConf].
  rewrite state_after_succ.
  replace (replicate (Datatypes.S k) (existT _ (containerservice.Get resGroup name)))
    with (replicate k (existT (containerservice.ContainerService * option error)%type
                         (containerservice.Get resGroup name))
          ++ [existT _ (containerservice.Get resGroup name)])
    by (by rewrite <- replicate_cons_app).
  case_bool_decide as Htarget.
  - apply list_elem_of_singleton in Htarget as ->.
    rewrite bool_decide_eq_true_2 by done. done.
  - rewrite (bool_decide_eq_false_2 (label ∈ _)) by done.
    rewrite bool_decide_eq_false_2; [done|].
    intros ->. apply Htarget. by apply list_elem_of_singleton.
Qed.

(** C3. With the pending set Updating, Creating and the target set
    Succeeded of the container service: when every read before the deadline
    shows a pending label, the run ends as TimedOut with the timeout error,
    having waited the whole timeout; and when, after [k] pending reads, a
    read before the deadline shows a label outside both sets, the run ends
    at that read as Failed with the unexpected-state error, after [k + 1]
    reads and [15 k] seconds, which is less than the timeout. *)
Theorem await_terminal_state_outcomes {S : Type}
    (services : Remote containerservice.Call S) (s : S)
    (resGroup name : string) (timeout : Z) :
  let get := containerservice.Get resGroup name in
  let reads := resource.readsBeforeDeadline timeout 15 in
  let await := resource.AwaitTerminalState (ContainerService.stateConf resGroup name timeout) in
  let pending_until (k : nat) :=
    forall i, (i < k)%nat ->
      exists l, observed_label (answer_after services get s i) = Some l /\
                l ∈ ["Updating"; "Creating"] in
  (pending_until reads ->
   run services await s
   = {| result := Some {| resource.state := resource.TimedOut;
                          resource.err := Some TimeoutError;
                          resource.waited := timeout |};
        final := state_after services get s reads;
        calls := replicate reads (existT _ get) |}) /\
  (forall (k : nat) (label : string),
      (k < reads)%nat ->
      pending_until k ->
      observed_label (answer_after services get s k) = Some label ->
      label ∉ ["Updating"; "Creating"] ->
      label ∉ ["Succeeded"] ->
      run services await s
      = {| result := Some {| resource.state := resource.Failed;
                             resource.err := Some (UnexpectedStateError label);
                             resource.waited := 15 * Z.of_nat k |};
           final := state_after services get s (Datatypes.S k);
           calls := replicate (Datatypes.S k) (existT _ get) |} /\
      15 * Z.of_nat k < timeout).
Proof.
  intros get reads await pending_until. split.
  - intros Hpending. unfold await, resource.AwaitTerminalState.
    cbn [resource.conf_Timeout resource.MinTimeout ContainerService.stateConf].
    fold reads. rewrite <- (Nat.add_0_r reads) at 1.
    rewrite poll_pending_prefix by exact Hpending.
    cbn. by rewrite app_nil_r.
  - intros k label Hk Hpending Hlabel Hnot_pending Hnot_target.
    split; [|by apply reads_before_deadline_in_time].
    unfold await, resource.AwaitTerminalState.
    cbn [resource.conf_Timeout resource.MinTimeout ContainerService.stateConf].
    fold reads. replace reads with (k + Datatypes.S (reads - k - 1))%nat by lia.
    rewrite (poll_ends services resGroup name timeout k _ s label) by done.
    rewrite bool_decide_eq_false_2; [done|].
    intros ->. apply Hnot_target. by apply list_elem_of_singleton.
Qed.

(** A wait of 30 seconds on a service that stays pending, and a wait on a
    service that reports Failed at the second read. *)
Lemma await_terminal_state_outcomes_witness :
  result (run (simulated_services ["Creating"; "Updating"; "Creating"])
            (resource.AwaitTerminalState (ContainerService.stateConf "rg" "a" 30))
            {| created := Some example_service_parameters; gets := 0 |})
    = Some {| resource.state := resource.TimedOut;
              resource.err := Some TimeoutError;
              resource.waited := 30 |} /\
  result (run (simulated_services ["Creating"; "Failed"; "Succeeded"])
            (resource.AwaitTerminalState (ContainerService.stateConf "rg" "a" 3600))
            {| created := Some example_service_parameters; gets := 0 |})
    = Some {| resource.state := resource.Failed;
              resource.err := Some (UnexpectedStateError "Failed");
              resource.waited := 15 |}.
Proof.
  split.
  - destruct (await_terminal_state_outcomes
                (simulated_services ["Creating"; "Updating"; "Creating"])
                {| created := Some example_service_parameters; gets := 0 |}
                "rg" "a" 30) as [Htimed_out _].
    rewrite Htimed_out; [reflexivity|].
    intros i Hi.
    destruct i as [|[|i]];
      [exists "Creating"|exists "Updating"|exfalso; vm_compute in Hi; lia];
      (split; [reflexivity|label_listed]).
  - destruct (await_terminal_state_outcomes
                (simulated_services ["Creating"; "Failed"; "Succeeded"])
                {| created := Some example_service_parameters; gets := 0 |}
                "rg" "a" 3600) as [_ Hfailed].
    destruct (Hfailed 1%nat "Failed") as [Hrun _].
    + vm_compute. lia.
    + intros i Hi. assert (i = 0%nat) as -> by lia.
      exists "Creating". split; [reflexivity|label_listed].
    + reflexivity.
    + label_unlisted.
    + label_unlisted.
    + rewrite Hrun. reflexivity.
Defined.

(** ** The scenario: count 1, dns_prefix x *)

Lemma set_of_one {A : Type} (f : A -> Z) (item : A) :
  schema.List (schema.Add (schema.NewSet f) item) = [item].
Proof.
  unfold schema.List, schema.Add, schema.NewSet. cbn.
  rewrite lookup_empty. cbn. rewrite insert_empty, map_to_list_singleton. done.
Qed.

Lemma three_reads_before_deadline (timeout : Z) :
  30 < timeout -> (3 <= resource.readsBeforeDeadline timeout 15)%nat.
Proof.
  unfold resource.readsBeforeDeadline. intros Htimeout.
  assert (3 <= (timeout + 15 - 1) `div` 15); [|lia].
  apply Z.div_le_lower_bound; lia.
Qed.

(** C8. For a master profile with count 1 and dns_prefix x: expand gives
    Count 1 and DNSPrefix x (and no FQDN); a wait whose reads show Creating,
    Creating, Succeeded ends as Succeeded, with no error, at the third read;
    and flatten of the remote profile with the FQDN the server assigned
    gives the one-item set with count 1, dns_prefix x and that FQDN. *)
Theorem scenario_count_one_dns_x `{Externals}
    (d : ContainerService.ResourceData) (fqdn0 fqdn : string)
    {S : Type} (services : Remote containerservice.Call S) (s : S)
    (resGroup name : string) (timeout : Z) :
  let get := containerservice.Get resGroup name in
  ContainerService.master_profile d
    = schema.Add (schema.NewSet ContainerService.resourceAzureRMContainerServiceMasterProfileHash)
        {| ContainerService.master_count := 1;
           ContainerService.master_dns_prefix := "x";
           ContainerService.master_fqdn := fqdn0 |} ->
  30 < timeout ->
  observed_label (answer_after services get s 0) = Some "Creating" ->
  observed_label (answer_after services get s 1) = Some "Creating" ->
  observed_label (answer_after services get s 2) = Some "Succeeded" ->
  ContainerService.expandAzureRmContainerServiceMasterProfile d
    = Some {| containerservice.MasterProfile_Count := Some 1;
              containerservice.MasterProfile_DNSPrefix := Some "x";
              containerservice.MasterProfile_Fqdn := None |} /\
  result (run services
            (resource.AwaitTerminalState (ContainerService.stateConf resGroup name timeout)) s)
    = Some {| resource.state := resource.Succeeded;
              resource.err := None;
              resource.waited := 30 |} /\
  exists masterProfiles,
    ContainerService.flattenAzureRmContainerServiceMasterProfile
      {| containerservice.MasterProfile_Count := Some 1;
         containerservice.MasterProfile_DNSPrefix := Some "x";
         containerservice.MasterProfile_Fqdn := Some fqdn |} = Some masterProfiles /\
    schema.List masterProfiles
      = [ {| ContainerService.master_count := 1;
             ContainerService.master_dns_prefix := "x";
             ContainerService.master_fqdn := fqdn |} ].
Proof.
  intros get Hmaster Htimeout Hfirst Hsecond Hthird. split; [|split].
  - unfold ContainerService.expandAzureRmContainerServiceMasterProfile.
    by rewrite Hmaster, set_of_one.
  - unfold resource.AwaitTerminalState.
    cbn [resource.conf_Timeout resource.MinTimeout ContainerService.stateConf].
    pose proof (three_reads_before_deadline timeout Htimeout) as Hreads.
    replace (resource.readsBeforeDeadline timeout 15)
      with (2 + Datatypes.S (resource.readsBeforeDeadline timeout 15 - 3))%nat by lia.
    rewrite (poll_ends services resGroup name timeout 2 _ s "Succeeded").
    + done.
    + intros i Hi. exists "Creating". split; [|label_listed].
      destruct i as [|[|i]]; [exact Hfirst|exact Hsecond|lia].
    + exact Hthird.
    + label_unlisted.
  - eexists. split; [reflexivity|]. apply set_of_one.
Qed.

(** The scenario on the example service data and the simulated remote. *)
Lemma scenario_count_one_dns_x_witness :
  ContainerService.expandAzureRmContainerServiceMasterProfile example_service_data
    = Some {| containerservice.MasterProfile_Count := Some 1;
              containerservice.MasterProfile_DNSPrefix := Some "x";
              containerservice.MasterProfile_Fqdn := None |} /\
  result (run (simulated_services ["Creating"; "Creating"; "Succeeded"])
            (resource.AwaitTerminalState (ContainerService.stateConf "rg" "a" 3600))
            {| created := Some example_service_parameters; gets := 0 |})
    = Some {| resource.state := resource.Succeeded;
              resource.err := None;
              resource.waited := 30 |} /\
  exists masterProfiles,
    @ContainerService.flattenAzureRmContainerServiceMasterProfile example_externals
      {| containerservice.MasterProfile_Count := Some 1;
         containerservice.MasterProfile_DNSPrefix := Some "x";
         containerservice.MasterProfile_Fqdn := Some assigned_master_fqdn |}
    = Some masterProfiles /\
    schema.List masterProfiles
      = [ {| ContainerService.master_count := 1;
             ContainerService.master_dns_prefix := "x";
             ContainerService.master_fqdn := assigned_master_fqdn |} ].
Proof.
  apply (@scenario_count_one_dns_x example_externals example_service_data
           EmptyString assigned_master_fqdn
           Simulated (simulated_services ["Creating"; "Creating"; "Succeeded"])
           {| created := Some example_service_parameters; gets := 0 |}
           "rg" "a" 3600);
    [reflexivity | lia | reflexivity | reflexivity | reflexivity].
Defined.

(** The whole scenario on the simulated remote: Create checks that nothing
    exists, sends the parameters, reads the object back, waits through
    Creating, Creating, Succeeded and reads it again; the resource data then
    hold the assigned ID and a master profile with count 1, dns_prefix x
    and the assigned FQDN. *)
Example scenario_create_and_read :
  let r := run (simulated_services ["Creating"; "Creating"; "Creating"; "Succeeded"])
             (@ContainerService.resourceArmContainerServiceCreateUpdate example_externals
                (fun _ => schema.TimeoutCreate)
                (ContainerService.SetId example_service_data EmptyString))
             {| created := None; gets := 0 |} in
  length (calls r) = 7%nat /\
  exists d',
    result r = Some (d', None) /\
    ContainerService.Id d' = existing_service_id /\
    schema.List (ContainerService.master_profile d')
      = [ {| ContainerService.master_count := 1;
             ContainerService.master_dns_prefix := "x";
             ContainerService.master_fqdn := assigned_master_fqdn |} ].
Proof.
  cbv zeta. split; [by vm_compute|].
  eexists. split; [vm_compute; reflexivity|]. split; by vm_compute.
Qed.

(** ** Expand, then flatten *)

(** *** Strings *)

Lemma Split_nonempty (s : string) : strings.Split s <> [].
Proof.
  induction s as [|c r IH]; cbn; [done|].
  destruct (Ascii.eqb c " "); [done|]. by destruct (strings.Split r).
Qed.

Lemma Join_cons (x : string) (l : list string) :
  l <> [] -> strings.Join (x :: l) = x +:+ " " +:+ strings.Join l.
Proof. by destruct l. Qed.

(** The command line survives [strings.Split] followed by [strings.Join]. *)
Lemma Join_Split (s : string) : strings.Join (strings.Split s) = s.
Proof.
  induction s as [|c r IH]; [done|].
  cbn [strings.Split].
  destruct (Ascii.eqb c " ") eqn:Hspace.
  - apply Ascii.eqb_eq in Hspace as ->.
    rewrite Join_cons by apply Split_nonempty. by rewrite IH.
  - pose proof (Split_nonempty r) as Hne.
    destruct (strings.Split r) as [|h t]; [done|].
    destruct t as [|h' t].
    + cbn in *. by rewrite IH.
    + rewrite Join_cons by done. rewrite Join_cons in IH by done.
      cbn. by rewrite <- IH.
Qed.

Lemma lower_upper_ascii (c : ascii) :
  strings.lower_ascii (strings.upper_ascii c) = strings.lower_ascii c.
Proof. destruct c as [[] [] [] [] [] [] [] []]; reflexivity. Qed.

(** Upper-casing is invisible to a comparison that ignores case, the one
    the schema makes for [protocol] ([ignoreCaseDiffSuppressFunc]). *)
Lemma ToLower_ToUpper (s : string) :
  strings.ToLower (strings.ToUpper s) = strings.ToLower s.
Proof.
  induction s as [|c r IH]; [done|].
  cbn. by rewrite lower_upper_ascii, IH.
Qed.

Lemma ToUpper_empty (s : string) : strings.ToUpper s = EmptyString <-> s = EmptyString.
Proof. by destruct s. Qed.

(** *** Environment variables *)

Lemma foldl_insert_lookup (l : list (string * string)) (acc : gmap string string) (k : string) :
  NoDup l.*1 ->
  foldl (fun (output : gmap string string) kv => <[kv.1 := kv.2]> output) acc l !! k
  = match (list_to_map l : gmap string string) !! k with
    | Some v => Some v
    | None => acc !! k
    end.
Proof.
  revert acc. induction l as [|[k0 v0] l IH]; intros acc Hnodup; [done|].
  apply NoDup_cons in Hnodup as [Hfresh Hnodup].
  cbn [foldl]. rewrite IH by done. cbn [list_to_map foldr fst snd].
  destruct (decide (k = k0)) as [->|Hne].
  - rewrite (not_elem_of_list_to_map_1 _ _ Hfresh). by rewrite !lookup_insert_eq.
  - rewrite !lookup_insert_ne by done. done.
Qed.

Lemma flatten_expanded_environment (input : gmap string string) :
  ContainerGroup.flattenContainerEnvironmentVariables
    (ContainerGroup.expandContainerEnvironmentVariables input) = Some input.
Proof.
  unfold ContainerGroup.flattenContainerEnvironmentVariables,
    ContainerGroup.expandContainerEnvironmentVariables.
  assert (forall (l : list (string * string)) (acc : gmap string string),
             rangeM (fun (output : gmap string string) envVar =>
                       k ← containerinstance.EnvironmentVariable_Name envVar;
                       v ← containerinstance.EnvironmentVariable_Value envVar;
                       Some (<[k := v]> output))
                    acc
                    ((fun kv => {| containerinstance.EnvironmentVariable_Name := Some kv.1;
                                   containerinstance.EnvironmentVariable_Value := Some kv.2 |})
                       <$> l)
             = Some (foldl (fun (output : gmap string string) kv => <[kv.1 := kv.2]> output)
                       acc l)) as Hloop.
  { induction l as [|kv l IH]; intros acc; [done|]. cbn. apply IH. }
  rewrite Hloop. f_equal. apply map_eq. intros k.
  rewrite foldl_insert_lookup by apply NoDup_fst_map_to_list.
  rewrite list_to_map_to_list, lookup_empty. by destruct (input !! k).
Qed.

(** *** The protocol of a port *)

Lemma protocol_search (containerPort : Z) (target : string)
    (groupPorts : list containerinstance.Port) (initial : string) :
  Forall (fun cgPort =>
            exists p, containerinstance.Port_Port cgPort = Some p /\
                      (p = containerPort -> containerinstance.Port_Protocol cgPort = target))
         groupPorts ->
  exists protocol,
    rangeM (fun protocol cgPort =>
              cgPortPort ← containerinstance.Port_Port cgPort;
              if decide (cgPortPort = containerPort)
              then Some (containerinstance.Port_Protocol cgPort)
              else Some protocol)
           initial groupPorts = Some protocol /\
    (protocol = target \/
     protocol = initial /\
     Forall (fun cgPort => containerinstance.Port_Port cgPort <> Some containerPort) groupPorts).
Proof.
  intros Hports. revert initial.
  induction Hports as [|cgPort rest (p & Hp & Hprotocol) _ IH]; intros initial.
  - exists initial. split; [done|]. right. by split.
  - cbn [rangeM]. rewrite Hp. cbn [mbind option_bind].
    destruct (decide (p = containerPort)) as [Heq|Hne].
    + cbn [mbind option_bind].
      destruct (IH (containerinstance.Port_Protocol cgPort)) as (protocol & -> & Hcases).
      exists protocol. split; [done|]. left.
      destruct Hcases as [->|[-> _]]; [done|]. by apply Hprotocol.
    + cbn [mbind option_bind].
      destruct (IH initial) as (protocol & -> & Hcases).
      exists protocol. split; [done|].
      destruct Hcases as [->|[-> Hnone]]; [by left|]. right. split; [done|].
      apply Forall_cons. split; [|done]. rewrite Hp. congruence.
Qed.

(** *** The three lists of [expandContainerGroupContainers] *)

Lemma expandContainerGroupContainers_lists (d : ContainerGroup.ResourceData) :
  ContainerGroup.expandContainerGroupContainers d
  = ((fun data => (ContainerGroup.expandContainer data).1.1) <$> ContainerGroup.container d,
     ContainerGroup.container d ≫= (fun data => (ContainerGroup.expandContainer data).1.2),
     ContainerGroup.container d ≫= (fun data => (ContainerGroup.expandContainer data).2)).
Proof.
  unfold ContainerGroup.expandContainerGroupContainers.
  generalize (ContainerGroup.container d). intros containersConfig.
  assert (forall (containers : list containerinstance.Container)
                 (groupPorts : list containerinstance.Port)
                 (groupVolumes : list containerinstance.Volume),
             foldl (fun acc containerConfig =>
                      let '(containers, containerGroupPorts, containerGroupVolumes) := acc in
                      let '(container, groupPorts, groupVolumes) :=
                        ContainerGroup.expandContainer containerConfig in
                      (containers ++ [container],
                       containerGroupPorts ++ groupPorts,
                       containerGroupVolumes ++ groupVolumes))
                   (containers, groupPorts, groupVolumes) containersConfig
             = (containers ++ ((fun data => (ContainerGroup.expandContainer data).1.1)
                                 <$> containersConfig),
                groupPorts ++ (containersConfig
                                 ≫= (fun data => (ContainerGroup.expandContainer data).1.2)),
                groupVolumes ++ (containersConfig
                                   ≫= (fun data => (ContainerGroup.expandContainer data).2))))
    as Hloop.
  { induction containersConfig as [|data rest IH]; intros containers groupPorts groupVolumes.
    - cbn. by rewrite !app_nil_r.
    - cbn [foldl].
      destruct (ContainerGroup.expandContainer data) as [[container ports] volumes] eqn:Hdata.
      rewrite IH. cbn [fmap list_fmap mbind list_bind]. rewrite Hdata. cbn [fst snd].
      by rewrite <- !app_assoc. }
  apply Hloop.
Qed.

(** *** One container *)

Lemma int32_of_port (port : Z) : 1 <= port <= 65535 -> int32 port = port.
Proof.
  intros Hport. unfold int32.
  rewrite Z.mod_small by lia. lia.
Qed.

Lemma flatten_expanded_volumes
    (groupVolumes : list containerinstance.Volume)
    (config : option (list ContainerGroup.VolumeConfig))
    (volumes : list ContainerGroup.VolumeConfig) :
  Forall volume_complete groupVolumes ->
  Forall (share_resolved groupVolumes) volumes ->
  exists flat,
    ContainerGroup.flattenContainerVolumes
      ((fun volumeConfig =>
          {| containerinstance.VolumeMount_Name := Some (ContainerGroup.volume_name volumeConfig);
             containerinstance.MountPath := Some (ContainerGroup.volume_mount_path volumeConfig);
             containerinstance.VolumeMount_ReadOnly :=
               Some (ContainerGroup.volume_read_only volumeConfig) |}) <$> volumes)
      groupVolumes config = Some flat /\
    without_key <$> (ContainerGroup.stored_volume <$> flat) = without_key <$> volumes.
Proof.
  intros Hcomplete Hresolved. unfold ContainerGroup.flattenContainerVolumes.
  induction Hresolved as [|v volumes (azureFile & Hmatch & Hshare & Haccount) _
                            (flat & Hflat & Hstored)].
  - by exists [].
  - cbn [fmap list_fmap mapM].
    erewrite flattenVolumeMount_complete; [|reflexivity|reflexivity|done].
    cbn [mbind option_bind]. change (mapM ?f (list_fmap _ _ ?g ?l)) with (mapM f (g <$> l)).
    rewrite Hflat. cbn [mbind option_bind mret option_ret].
    eexists. split; [reflexivity|].
    cbn [fmap list_fmap]. f_equal; [|exact Hstored].
    rewrite Hmatch. cbn [mbind option_bind]. rewrite Hshare, Haccount.
    by destruct v.
Qed.

Lemma flatten_expanded_container (d : ContainerGroup.ResourceData)
    (data : ContainerGroup.ContainerConfig)
    (groupPorts : list containerinstance.Port)
    (groupVolumes : list containerinstance.Volume) :
  1 <= ContainerGroup.container_port data <= 65535 ->
  Forall (fun cgPort =>
            exists p, containerinstance.Port_Port cgPort = Some p /\
                      (p = ContainerGroup.container_port data ->
                       containerinstance.Port_Protocol cgPort
                       = strings.ToUpper (ContainerGroup.container_protocol data)))
         groupPorts ->
  Exists (fun cgPort =>
            containerinstance.Port_Port cgPort = Some (ContainerGroup.container_port data))
         groupPorts ->
  Forall volume_complete groupVolumes ->
  Forall (share_resolved groupVolumes) (ContainerGroup.container_volume data) ->
  exists flat,
    ContainerGroup.flattenContainer d (ContainerGroup.expandContainer data).1.1
      (Some groupPorts) (Some groupVolumes) = Some flat /\
    without_keys (ContainerGroup.stored_container flat) = without_keys (upper_protocol data).
Proof.
  intros Hport Hports Hown Hcomplete Hresolved.
  unfold ContainerGroup.flattenContainer, ContainerGroup.expandContainer.
  rewrite (decide_True (P := ContainerGroup.container_port data ≠ 0)) by lia.
  rewrite int32_of_port by done.
  cbn [fst snd containerinstance.Container_Name containerinstance.Container_ContainerProperties
       containerinstance.Image containerinstance.Resources containerinstance.Requests
       containerinstance.CPU containerinstance.MemoryInGB containerinstance.Ports
       containerinstance.ContainerPort_Port containerinstance.EnvironmentVariables
       containerinstance.Command containerinstance.VolumeMounts mbind option_bind].
  destruct (protocol_search _ _ _ EmptyString Hports) as (protocol & -> & Hprotocol).
  assert (protocol = strings.ToUpper (ContainerGroup.container_protocol data)) as ->.
  { destruct Hprotocol as [->|[_ Hnone]]; [done|].
    apply Exists_exists in Hown as (cgPort & Hin & Hown).
    by destruct (proj1 (Forall_forall _ _) Hnone cgPort Hin). }
  cbn [mbind option_bind fst snd].
  assert ((if decide (0 < length (ContainerGroup.expandContainerEnvironmentVariables
                                    (ContainerGroup.container_environment_variables data)))%nat
           then Some <$> ContainerGroup.flattenContainerEnvironmentVariables
                           (ContainerGroup.expandContainerEnvironmentVariables
                              (ContainerGroup.container_environment_variables data))
           else Some None)
          = Some (if decide (ContainerGroup.container_environment_variables data = ∅)
                  then None
                  else Some (ContainerGroup.container_environment_variables data))) as ->.
  { rewrite flatten_expanded_environment.
    unfold ContainerGroup.expandContainerEnvironmentVariables. rewrite length_fmap.
    destruct (decide (ContainerGroup.container_environment_variables data = ∅)) as [->|Hne].
    - by rewrite map_to_list_empty.
    - rewrite decide_True; [done|].
      destruct (map_to_list _) eqn:Hlist; [|cbn; lia].
      by apply map_to_list_empty_iff in Hlist. }
  cbn [mbind option_bind].
  assert (exists volume,
             match (ContainerGroup.expandContainerVolumes
                      (ContainerGroup.container_volume data)).1 with
             | Some volumeMounts =>
                 Some <$> ContainerGroup.flattenContainerVolumes volumeMounts groupVolumes
                            (foldl (fun containerVolumesConfig data0 =>
                                      if decide (ContainerGroup.container_name data0
                                                 = ContainerGroup.container_name data)
                                      then Some (ContainerGroup.container_volume data0)
                                      else containerVolumesConfig)
                                   None (ContainerGroup.container d))
             | None => Some None
             end = Some volume /\
             without_key <$> (ContainerGroup.stored_volume <$> default [] volume)
             = without_key <$> ContainerGroup.container_volume data)
    as (volume & -> & Hvolume).
  { unfold ContainerGroup.expandContainerVolumes.
    destruct (decide (length (ContainerGroup.container_volume data) = 0%nat)) as [Hnil|Hcons].
    - apply nil_length_inv in Hnil. rewrite Hnil. by exists None.
    - cbn [fst].
      destruct (flatten_expanded_volumes groupVolumes
                  (foldl (fun containerVolumesConfig data0 =>
                            if decide (ContainerGroup.container_name data0
                                       = ContainerGroup.container_name data)
                            then Some (ContainerGroup.container_volume data0)
                            else containerVolumesConfig)
                         None (ContainerGroup.container d))
                  _ Hcomplete Hresolved) as (flat & -> & Hflat).
      by exists (Some flat). }
  cbn [mbind option_bind].
  eexists. split; [reflexivity|].
  unfold without_keys, upper_protocol, ContainerGroup.stored_container.
  cbn [ContainerGroup.flat_container_name ContainerGroup.flat_container_image
       ContainerGroup.flat_container_cpu ContainerGroup.flat_container_memory
       ContainerGroup.flat_container_port ContainerGroup.flat_container_protocol
       ContainerGroup.flat_container_environment_variables
       ContainerGroup.flat_container_command ContainerGroup.flat_container_volume
       ContainerGroup.container_name ContainerGroup.container_image
       ContainerGroup.container_cpu ContainerGroup.container_memory
       ContainerGroup.container_port ContainerGroup.container_protocol
       ContainerGroup.container_environment_variables
       ContainerGroup.container_command ContainerGroup.container_volume default].
  rewrite Hvolume. f_equal.
  - destruct (decide (strings.ToUpper _ ≠ EmptyString)) as [|Hempty]; [done|].
    cbn. by destruct (decide (strings.ToUpper (ContainerGroup.container_protocol data)
                              = EmptyString)) as [->|].
  - by destruct (decide (ContainerGroup.container_environment_variables data = ∅)) as [->|].
  - destruct (decide (ContainerGroup.container_command data ≠ EmptyString)) as [|Hempty];
      cbn; [apply Join_Split|].
    by destruct (decide (ContainerGroup.container_command data = EmptyString)) as [->|].
Qed.

(** *** The whole container list *)

Lemma expanded_group_volumes (echo_keys : bool) (d : ContainerGroup.ResourceData)
    (cgv : containerinstance.Volume) :
  cgv ∈ returned_volumes echo_keys (ContainerGroup.expandContainerGroupContainers d).2 <->
  exists data v,
    data ∈ ContainerGroup.container d /\
    v ∈ ContainerGroup.container_volume data /\
    cgv = (if echo_keys then fun x => x else without_storage_key)
            {| containerinstance.Volume_Name := Some (ContainerGroup.volume_name v);
               containerinstance.AzureFile := Some
                 {| containerinstance.ShareName := Some (ContainerGroup.volume_share_name v);
                    containerinstance.AzureFileVolume_ReadOnly :=
                      Some (ContainerGroup.volume_read_only v);
                    containerinstance.StorageAccountName :=
                      Some (ContainerGroup.volume_storage_account_name v);
                    containerinstance.StorageAccountKey :=
                      Some (ContainerGroup.volume_storage_account_key v) |} |}.
Proof.
  rewrite expandContainerGroupContainers_lists. cbn [snd].
  assert (forall cgv',
             cgv' ∈ ContainerGroup.container d
                      ≫= (fun data => (ContainerGroup.expandContainer data).2) <->
             exists data v,
               data ∈ ContainerGroup.container d /\
               v ∈ ContainerGroup.container_volume data /\
               cgv' = {| containerinstance.Volume_Name := Some (ContainerGroup.volume_name v);
                         containerinstance.AzureFile := Some
                           {| containerinstance.ShareName :=
                                Some (ContainerGroup.volume_share_name v);
                              containerinstance.AzureFileVolume_ReadOnly :=
                                Some (ContainerGroup.volume_read_only v);
                              containerinstance.StorageAccountName :=
                                Some (ContainerGroup.volume_storage_account_name v);
                              containerinstance.StorageAccountKey :=
                                Some (ContainerGroup.volume_storage_account_key v) |} |})
    as Horigin.
  { intros cgv'. rewrite list_elem_of_bind. split.
    - intros (data & Hcgv & Hdata). exists data.
      unfold ContainerGroup.expandContainer, ContainerGroup.expandContainerVolumes in Hcgv.
      cbn [snd] in Hcgv.
      destruct (decide (length (ContainerGroup.container_volume data) = 0%nat));
        cbn in Hcgv; [by apply elem_of_nil in Hcgv|].
      apply list_elem_of_fmap in Hcgv as (v & -> & Hv). by exists v.
    - intros (data & v & Hdata & Hv & ->). exists data. split; [|done].
      unfold ContainerGroup.expandContainer, ContainerGroup.expandContainerVolumes.
      cbn [snd].
      destruct (decide (length (ContainerGroup.container_volume data) = 0%nat)) as [Hnil|].
      + apply nil_length_inv in Hnil. rewrite Hnil in Hv. by apply elem_of_nil in Hv.
      + cbn. apply list_elem_of_fmap. by exists v. }
  unfold returned_volumes. destruct echo_keys.
  - apply Horigin.
  - rewrite list_elem_of_fmap. split.
    + intros (cgv' & -> & Hin). apply Horigin in Hin as (data & v & Hdata & Hv & ->).
      by exists data, v.
    + intros (data & v & Hdata & Hv & ->). eexists. split; [reflexivity|].
      apply Horigin. by exists data, v.
Qed.

Lemma expanded_group_volume_from (echo_keys : bool) (v : ContainerGroup.VolumeConfig) :
  volume_from v
    ((if echo_keys then fun x => x else without_storage_key)
       {| containerinstance.Volume_Name := Some (ContainerGroup.volume_name v);
          containerinstance.AzureFile := Some
            {| containerinstance.ShareName := Some (ContainerGroup.volume_share_name v);
               containerinstance.AzureFileVolume_ReadOnly :=
                 Some (ContainerGroup.volume_read_only v);
               containerinstance.StorageAccountName :=
                 Some (ContainerGroup.volume_storage_account_name v);
               containerinstance.StorageAccountKey :=
                 Some (ContainerGroup.volume_storage_account_key v) |} |}).
Proof. destruct echo_keys; (split; [done|]); eexists; by split. Qed.

Lemma matching_share_resolved (v : ContainerGroup.VolumeConfig)
    (groupVolumes : list containerinstance.Volume) :
  (forall cgv,
      cgv ∈ groupVolumes ->
      containerinstance.Volume_Name cgv = Some (ContainerGroup.volume_name v) ->
      volume_from v cgv) ->
  (exists cgv, cgv ∈ groupVolumes /\ volume_from v cgv) ->
  share_resolved groupVolumes v.
Proof.
  intros Hall (own & Hown_in & Hown_name & ownFile & Hown_file & _).
  unfold share_resolved, matching_share.
  destruct (last (omap _ groupVolumes)) as [azureFile|] eqn:Hlast.
  - exists azureFile. split; [done|].
    apply last_Some_elem_of, list_elem_of_omap in Hlast as (cgv & Hin & Hsel).
    destruct (decide (containerinstance.Volume_Name cgv = _)) as [Hname|]; [|done].
    destruct (Hall cgv Hin Hname) as (_ & azureFile' & Hfile' & Hshare & Haccount).
    by simplify_eq.
  - apply last_None in Hlast.
    assert (ownFile ∈ omap (fun cgv =>
                              if decide (containerinstance.Volume_Name cgv
                                         = Some (ContainerGroup.volume_name v))
                              then containerinstance.AzureFile cgv else None)
                           groupVolumes) as Hin.
    { apply list_elem_of_omap. exists own. split; [done|]. by rewrite decide_True. }
    rewrite Hlast in Hin. by apply elem_of_nil in Hin.
Qed.

Lemma expanded_group_ports (d : ContainerGroup.ResourceData) (cgPort : containerinstance.Port) :
  ports_set d ->
  cgPort ∈ (ContainerGroup.expandContainerGroupContainers d).1.2 <->
  exists data,
    data ∈ ContainerGroup.container d /\
    cgPort = {| containerinstance.Port_Protocol :=
                  strings.ToUpper (ContainerGroup.container_protocol data);
                containerinstance.Port_Port := Some (ContainerGroup.container_port data) |}.
Proof.
  intros Hports. rewrite expandContainerGroupContainers_lists. cbn [fst snd].
  rewrite list_elem_of_bind.
  assert (forall data,
             data ∈ ContainerGroup.container d ->
             (ContainerGroup.expandContainer data).1.2
             = [ {| containerinstance.Port_Protocol :=
                      strings.ToUpper (ContainerGroup.container_protocol data);
                    containerinstance.Port_Port :=
                      Some (ContainerGroup.container_port data) |} ]) as Hone.
  { intros data Hdata.
    pose proof (proj1 (Forall_forall _ _) Hports data Hdata) as Hport. cbn beta in Hport.
    unfold ContainerGroup.expandContainer. cbn [fst snd].
    rewrite (decide_True (P := ContainerGroup.container_port data ≠ 0)) by lia.
    by rewrite int32_of_port. }
  split.
  - intros (data & Hin & Hdata). exists data. split; [done|].
    rewrite (Hone data Hdata) in Hin. by apply list_elem_of_singleton in Hin.
  - intros (data & Hdata & ->). exists data. split; [|done].
    rewrite (Hone data Hdata). by apply list_elem_of_singleton.
Qed.

Lemma mapM_fmap_related {A B C : Type} (f : B -> option C) (g : A -> B)
    (R : C -> A -> Prop) (l : list A) :
  Forall (fun x => exists y, f (g x) = Some y /\ R y x) l ->
  exists k, mapM f (g <$> l) = Some k /\ Forall2 R k l.
Proof.
  induction 1 as [|x l (y & Hy & HR) _ (k & Hk & Hrel)].
  - by exists [].
  - exists (y :: k). split; [|by constructor].
    cbn [fmap list_fmap mapM]. rewrite Hy. cbn [mbind option_bind].
    change (mapM f (list_fmap _ _ g l)) with (mapM f (g <$> l)). by rewrite Hk.
Qed.

(** Flatten of what expand built from the container blocks of [d], with
    the prior configuration [d] at hand, stores the blocks of [d] again:
    the protocol in upper case, the storage account keys set aside. *)
Lemma flatten_expanded_containers (d : ContainerGroup.ResourceData) (echo_keys : bool) :
  ports_set d -> ports_agree d -> volumes_agree d ->
  exists flat,
    ContainerGroup.flattenContainerGroupContainers d
      (Some (ContainerGroup.expandContainerGroupContainers d).1.1)
      (Some (ContainerGroup.expandContainerGroupContainers d).1.2)
      (Some (returned_volumes echo_keys (ContainerGroup.expandContainerGroupContainers d).2))
    = Some flat /\
    without_keys <$> (ContainerGroup.stored_container <$> flat)
    = without_keys <$> (upper_protocol <$> ContainerGroup.container d).
Proof.
  intros Hports Hagree Hvolumes.
  unfold ContainerGroup.flattenContainerGroupContainers. cbn [mbind option_bind].
  set (groupPorts := (ContainerGroup.expandContainerGroupContainers d).1.2).
  set (groupVolumes :=
         returned_volumes echo_keys (ContainerGroup.expandContainerGroupContainers d).2).
  rewrite expandContainerGroupContainers_lists. cbn [fst].
  assert (Forall volume_complete groupVolumes) as Hcomplete.
  { apply Forall_forall. intros cgv Hcgv.
    apply expanded_group_volumes in Hcgv as (data & v & _ & _ & ->).
    destruct (expanded_group_volume_from echo_keys v) as (Hname & azureFile & Hfile & Hshare & Haccount).
    split; [by rewrite Hname|].
    intros azureFile' HazureFile'. rewrite Hfile in HazureFile'. simplify_eq.
    by rewrite Hshare, Haccount. }
  destruct (mapM_fmap_related
              (fun container =>
                 ContainerGroup.flattenContainer d container (Some groupPorts) (Some groupVolumes))
              (fun data => (ContainerGroup.expandContainer data).1.1)
              (fun flat data =>
                 without_keys (ContainerGroup.stored_container flat)
                 = without_keys (upper_protocol data))
              (ContainerGroup.container d)) as (flat & Hflat & Hrelated).
  { apply Forall_forall. intros data Hdata.
    apply flatten_expanded_container.
    - exact (proj1 (Forall_forall _ _) Hports data Hdata).
    - apply Forall_forall. intros cgPort HcgPort.
      apply expanded_group_ports in HcgPort as (data' & Hdata' & ->); [|done].
      eexists. split; [reflexivity|]. cbn. intros Hsame. by apply Hagree.
    - apply Exists_exists. eexists. split.
      + apply expanded_group_ports; [done|]. by exists data.
      + done.
    - exact Hcomplete.
    - apply Forall_forall. intros v Hv. apply matching_share_resolved.
      + intros cgv Hcgv Hname.
        apply expanded_group_volumes in Hcgv as (data' & v' & Hdata' & Hv' & ->).
        destruct (expanded_group_volume_from echo_keys v')
          as (Hname' & azureFile & Hfile & Hshare & Haccount).
        rewrite Hname' in Hname. injection Hname as Hname.
        destruct (Hvolumes data' data v' v Hdata' Hdata Hv' Hv Hname) as [Hshares Haccounts].
        split; [by rewrite Hname', Hname|].
        exists azureFile. by rewrite Hfile, Hshare, Haccount, Hshares, Haccounts.
      + eexists. split; [|apply (expanded_group_volume_from echo_keys v)].
        apply expanded_group_volumes. by exists data, v. }
  exists flat. split; [exact Hflat|].
  clear Hflat. induction Hrelated as [|fc data flat rest Hfc _ IH]; [done|].
  cbn [fmap list_fmap]. f_equal; [exact Hfc|exact IH].
Qed.

(** *** Image registry credentials *)

Lemma flatten_expanded_credentials (d : ContainerGroup.ResourceData) (echo_passwords : bool) :
  ContainerGroup.stored_credential
    <$> ContainerGroup.flattenContainerImageRegistryCredentials d
          (returned_credentials echo_passwords
             (ContainerGroup.expandContainerImageRegistryCredentials d))
  = ContainerGroup.image_registry_credential d.
Proof.
  unfold ContainerGroup.expandContainerImageRegistryCredentials.
  destruct (decide (length (ContainerGroup.image_registry_credential d) = 0%nat)) as [Hnil|_].
  - apply nil_length_inv in Hnil. rewrite Hnil. by destruct echo_passwords.
  - apply list_eq. intros i.
    assert (forall creds,
               (forall credConfig,
                   ContainerGroup.image_registry_credential d !! i = Some credConfig ->
                   exists cred,
                     creds !! i = Some cred /\
                     containerinstance.Server cred
                       = Some (ContainerGroup.credential_server credConfig) /\
                     containerinstance.Username cred
                       = Some (ContainerGroup.credential_username credConfig)) ->
               length creds = length (ContainerGroup.image_registry_credential d) ->
               (ContainerGroup.stored_credential
                  <$> ContainerGroup.flattenContainerImageRegistryCredentials d (Some creds)) !! i
               = ContainerGroup.image_registry_credential d !! i) as Hlookup.
    { intros creds Hsame Hlength.
      unfold ContainerGroup.flattenContainerImageRegistryCredentials,
        ContainerGroup.GetOk_image_registry_credential_password.
      rewrite list_lookup_fmap, list_lookup_imap.
      destruct (ContainerGroup.image_registry_credential d !! i) as [credConfig|] eqn:Hconfig.
      - destruct (Hsame credConfig eq_refl) as (cred & -> & Hserver & Husername).
        cbn. rewrite Hserver, Husername, decide_True by done. cbn.
        unfold ContainerGroup.stored_credential. cbn.
        case_bool_decide as Hpassword; cbn; destruct credConfig as [server username password];
          cbn in *; [done|].
        f_equal. f_equal. by destruct (decide (password = EmptyString)) as [->|].
      - apply lookup_ge_None in Hconfig.
        rewrite (proj2 (lookup_ge_None creds i)) by lia. done. }
    destruct echo_passwords; cbn [returned_credentials fmap option_fmap option_map];
      apply Hlookup; rewrite ?length_fmap; try done;
      intros credConfig HcredConfig; rewrite ?list_lookup_fmap, HcredConfig;
      eexists; (split; [reflexivity|]); done.
Qed.

(** *** The container service profiles *)

Lemma set_of_one_size {A : Type} (f : A -> Z) (item : A) :
  schema.Len (schema.Add (schema.NewSet f) item) = 1%nat.
Proof.
  unfold schema.Len, schema.Add, schema.NewSet. cbn.
  rewrite lookup_empty. cbn. rewrite insert_empty. apply map_size_singleton.
Qed.

Lemma stored_set_of_one {A B : Type} (hash : B -> Z) (stored : A -> B) (f : A -> Z) (item : A) :
  ContainerService.stored_set hash stored (schema.Add (schema.NewSet f) item)
  = schema.Add (schema.NewSet hash) (stored item).
Proof. unfold ContainerService.stored_set. by rewrite set_of_one. Qed.

Section service_profiles.
Context `{Externals}.
Context (d : ContainerService.ResourceData).

Lemma flatten_expanded_master_profile (config : ContainerService.MasterProfileConfig)
    (fqdn : string) :
  ContainerService.master_profile d
    = schema.Add (schema.NewSet ContainerService.resourceAzureRMContainerServiceMasterProfileHash)
        config ->
  1 <= ContainerService.master_count config <= 65535 ->
  exists profile,
    ContainerService.expandAzureRmContainerServiceMasterProfile d = Some profile /\
    ContainerService.flattenAzureRmContainerServiceMasterProfile profile = None /\
    ContainerService.flattenAzureRmContainerServiceMasterProfile
      (returned_master_profile fqdn profile)
    = Some (schema.Add
              (schema.NewSet ContainerService.resourceAzureRMContainerServiceMasterProfileHash)
              {| ContainerService.master_count := ContainerService.master_count config;
                 ContainerService.master_dns_prefix := ContainerService.master_dns_prefix config;
                 ContainerService.master_fqdn := fqdn |}).
Proof.
  intros Hset Hcount.
  unfold ContainerService.expandAzureRmContainerServiceMasterProfile.
  rewrite Hset, set_of_one. cbn [head mbind option_bind].
  eexists. split; [reflexivity|]. split; [done|].
  unfold ContainerService.flattenAzureRmContainerServiceMasterProfile. cbn.
  by rewrite int32_of_port.
Qed.

Lemma flatten_expanded_linux_profile (config : ContainerService.LinuxProfileConfig)
    (key : ContainerService.SSHKeyConfig) :
  ContainerService.linux_profile d
    = schema.Add (schema.NewSet ContainerService.resourceAzureRMContainerServiceLinuxProfilesHash)
        config ->
  ContainerService.ssh_key config
    = schema.Add
        (schema.NewSet ContainerService.resourceAzureRMContainerServiceLinuxProfilesSSHKeysHash)
        key ->
  exists profile,
    ContainerService.expandAzureRmContainerServiceLinuxProfile d = Some profile /\
    ContainerService.flattenAzureRmContainerServiceLinuxProfile profile
    = Some (ContainerService.linux_profile d).
Proof.
  intros Hset Hkeys.
  unfold ContainerService.expandAzureRmContainerServiceLinuxProfile.
  rewrite Hset, set_of_one. cbn [head mbind option_bind].
  rewrite Hkeys, set_of_one. cbn [head mbind option_bind].
  eexists. split; [reflexivity|].
  unfold ContainerService.flattenAzureRmContainerServiceLinuxProfile. cbn.
  destruct config as [adminUsername sshKeys], key as [keyData]. cbn in *. by rewrite Hkeys.
Qed.

Lemma flatten_expanded_agent_pool_profile (config : ContainerService.AgentPoolProfileConfig)
    (fqdn : string) :
  ContainerService.agent_pool_profile d
    = schema.Add
        (schema.NewSet ContainerService.resourceAzureRMContainerServiceAgentPoolProfilesHash)
        config ->
  1 <= ContainerService.agent_count config <= 100 ->
  exists profiles,
    ContainerService.expandAzureRmContainerServiceAgentProfiles d = Some profiles /\
    ContainerService.flattenAzureRmContainerServiceAgentPoolProfiles
      (Some (returned_agent_pool_profile fqdn <$> profiles))
    = Some (schema.Add
              (schema.NewSet
                 ContainerService.resourceAzureRMContainerServiceAgentPoolProfilesHash)
              {| ContainerService.agent_name := ContainerService.agent_name config;
                 ContainerService.agent_count := ContainerService.agent_count config;
                 ContainerService.agent_dns_prefix := ContainerService.agent_dns_prefix config;
                 ContainerService.agent_fqdn := fqdn;
                 ContainerService.agent_vm_size := ContainerService.agent_vm_size config |}).
Proof.
  intros Hset Hcount.
  unfold ContainerService.expandAzureRmContainerServiceAgentProfiles.
  rewrite Hset, set_of_one. cbn [head mbind option_bind].
  eexists. split; [reflexivity|].
  unfold ContainerService.flattenAzureRmContainerServiceAgentPoolProfiles. cbn.
  by rewrite int32_of_port by lia.
Qed.

Lemma flatten_expanded_diagnostics_profile
    (config : ContainerService.DiagnosticsProfileConfig) (storageURI : option string) :
  ContainerService.diagnostics_profile d
    = schema.Add
        (schema.NewSet ContainerService.resourceAzureRMContainerServiceDiagnosticProfilesHash)
        config ->
  exists profile flat,
    ContainerService.expandAzureRmContainerServiceDiagnostics d = Some profile /\
    ContainerService.flattenAzureRmContainerServiceDiagnosticsProfile
      (Some (returned_diagnostics_profile storageURI profile)) = Some flat /\
    ContainerService.stored_set
      ContainerService.resourceAzureRMContainerServiceDiagnosticProfilesHash
      ContainerService.stored_diagnostics_profile flat
    = schema.Add
        (schema.NewSet ContainerService.resourceAzureRMContainerServiceDiagnosticProfilesHash)
        {| ContainerService.enabled := ContainerService.enabled config;
           ContainerService.storage_uri := default EmptyString storageURI |}.
Proof.
  intros Hset.
  unfold ContainerService.expandAzureRmContainerServiceDiagnostics.
  rewrite Hset, set_of_one. cbn [head mbind option_bind].
  eexists. eexists. split; [reflexivity|].
  unfold ContainerService.flattenAzureRmContainerServiceDiagnosticsProfile. cbn.
  split; [reflexivity|]. by rewrite stored_set_of_one.
Qed.

(** The service principal is optional.  What Read stores for it is the
    block of [d] when the API echoes the secret, and that block with an
    empty secret when it does not. *)
Lemma flatten_expanded_service_principal (echo_secret : bool) :
  (ContainerService.service_principal d
   = schema.NewSet ContainerService.resourceAzureRMContainerServiceServicePrincipalProfileHash ->
   ContainerService.expandAzureRmContainerServiceServicePrincipal d = Some None /\
   ContainerService.flattenAzureRmContainerServiceServicePrincipalProfile None = Some None) /\
  (forall config,
      ContainerService.service_principal d
      = schema.Add
          (schema.NewSet
             ContainerService.resourceAzureRMContainerServiceServicePrincipalProfileHash)
          config ->
      exists profile flat,
        ContainerService.expandAzureRmContainerServiceServicePrincipal d = Some (Some profile) /\
        ContainerService.flattenAzureRmContainerServiceServicePrincipalProfile
          (Some (returned_service_principal echo_secret profile)) = Some (Some flat) /\
        ContainerService.stored_set
          ContainerService.resourceAzureRMContainerServiceServicePrincipalProfileHash
          ContainerService.stored_service_principal flat
        = schema.Add
            (schema.NewSet
               ContainerService.resourceAzureRMContainerServiceServicePrincipalProfileHash)
            {| ContainerService.client_id := ContainerService.client_id config;
               ContainerService.client_secret :=
                 if echo_secret then ContainerService.client_secret config
                 else EmptyString |}).
Proof.
  split.
  - intros Hset. split; [|done].
    unfold ContainerService.expandAzureRmContainerServiceServicePrincipal.
    rewrite Hset. unfold schema.Len, schema.NewSet. cbn. by rewrite map_size_empty.
  - intros config Hset.
    unfold ContainerService.expandAzureRmContainerServiceServicePrincipal.
    rewrite Hset, set_of_one_size, set_of_one. cbn.
    eexists. eexists. split; [reflexivity|].
    split; [reflexivity|]. rewrite stored_set_of_one.
    unfold ContainerService.stored_service_principal. cbn. by destruct echo_secret.
Qed.

End service_profiles.

(** *** Flatten after expand *)

(** C1, as the code has it.  For a container group whose containers all
    declare a port between 1 and 65535, agree on the protocol of a shared
    port and on the share behind a shared volume name: flatten of what
    expand built, read with the configuration at hand, stores every
    container block again with its protocol in upper case (equal to the
    configured one when case is ignored) and its storage account keys set
    aside, and stores the registry credentials unchanged.  For a container
    service with one master, Linux, agent pool and diagnostics block: flatten
    of what expand built, once the server has assigned the FQDNs and the
    storage URI, gives those blocks again with the assigned values; the
    service principal comes back as configured, with an empty secret when
    the API does not echo it. *)
Theorem flatten_after_expand `{Externals}
    (dg : ContainerGroup.ResourceData) (echo_keys echo_passwords : bool)
    (ds : ContainerService.ResourceData)
    (master : ContainerService.MasterProfileConfig)
    (linux : ContainerService.LinuxProfileConfig) (key : ContainerService.SSHKeyConfig)
    (agent : ContainerService.AgentPoolProfileConfig)
    (diagnostics : ContainerService.DiagnosticsProfileConfig)
    (masterFqdn agentFqdn : string) (storageURI : option string) (echo_secret : bool) :
  ports_set dg ->
  ports_agree dg ->
  volumes_agree dg ->
  ContainerService.master_profile ds
    = schema.Add (schema.NewSet ContainerService.resourceAzureRMContainerServiceMasterProfileHash)
        master ->
  (ContainerService.master_count master = 1 \/ ContainerService.master_count master = 3 \/
   ContainerService.master_count master = 5) ->
  ContainerService.linux_profile ds
    = schema.Add (schema.NewSet ContainerService.resourceAzureRMContainerServiceLinuxProfilesHash)
        linux ->
  ContainerService.ssh_key linux
    = schema.Add
        (schema.NewSet ContainerService.resourceAzureRMContainerServiceLinuxProfilesSSHKeysHash)
        key ->
  ContainerService.agent_pool_profile ds
    = schema.Add
        (schema.NewSet ContainerService.resourceAzureRMContainerServiceAgentPoolProfilesHash)
        agent ->
  1 <= ContainerService.agent_count agent <= 100 ->
  ContainerService.diagnostics_profile ds
    = schema.Add
        (schema.NewSet ContainerService.resourceAzureRMContainerServiceDiagnosticProfilesHash)
        diagnostics ->
  (* the container group *)
  ((exists flat,
       ContainerGroup.flattenContainerGroupContainers dg
         (Some (ContainerGroup.expandContainerGroupContainers dg).1.1)
         (Some (ContainerGroup.expandContainerGroupContainers dg).1.2)
         (Some (returned_volumes echo_keys (ContainerGroup.expandContainerGroupContainers dg).2))
       = Some flat /\
       without_keys <$> (ContainerGroup.stored_container <$> flat)
       = without_keys <$> (upper_protocol <$> ContainerGroup.container dg)) /\
   (forall data,
       strings.ToLower (ContainerGroup.container_protocol (upper_protocol data))
       = strings.ToLower (ContainerGroup.container_protocol data)) /\
   ContainerGroup.stored_credential
     <$> ContainerGroup.flattenContainerImageRegistryCredentials dg
           (returned_credentials echo_passwords
              (ContainerGroup.expandContainerImageRegistryCredentials dg))
   = ContainerGroup.image_registry_credential dg) /\
  (* the container service *)
  ((exists profile,
       ContainerService.expandAzureRmContainerServiceMasterProfile ds = Some profile /\
       ContainerService.flattenAzureRmContainerServiceMasterProfile
         (returned_master_profile masterFqdn profile)
       = Some (schema.Add
                 (schema.NewSet
                    ContainerService.resourceAzureRMContainerServiceMasterProfileHash)
                 {| ContainerService.master_count := ContainerService.master_count master;
                    ContainerService.master_dns_prefix :=
                      ContainerService.master_dns_prefix master;
                    ContainerService.master_fqdn := masterFqdn |})) /\
   (exists profile,
       ContainerService.expandAzureRmContainerServiceLinuxProfile ds = Some profile /\
       ContainerService.flattenAzureRmContainerServiceLinuxProfile profile
       = Some (ContainerService.linux_profile ds)) /\
   (exists profiles,
       ContainerService.expandAzureRmContainerServiceAgentProfiles ds = Some profiles /\
       ContainerService.flattenAzureRmContainerServiceAgentPoolProfiles
         (Some (returned_agent_pool_profile agentFqdn <$> profiles))
       = Some (schema.Add
                 (schema.NewSet
                    ContainerService.resourceAzureRMContainerServiceAgentPoolProfilesHash)
                 {| ContainerService.agent_name := ContainerService.agent_name agent;
                    ContainerService.agent_count := ContainerService.agent_count agent;
                    ContainerService.agent_dns_prefix := ContainerService.agent_dns_prefix agent;
                    ContainerService.agent_fqdn := agentFqdn;
                    ContainerService.agent_vm_size := ContainerService.agent_vm_size agent |})) /\
   (exists profile flat,
       ContainerService.expandAzureRmContainerServiceDiagnostics ds = Some profile /\
       ContainerService.flattenAzureRmContainerServiceDiagnosticsProfile
         (Some (returned_diagnostics_profile storageURI profile)) = Some flat /\
       ContainerService.stored_set
         ContainerService.resourceAzureRMContainerServiceDiagnosticProfilesHash
         ContainerService.stored_diagnostics_profile flat
       = schema.Add
           (schema.NewSet
              ContainerService.resourceAzureRMContainerServiceDiagnosticProfilesHash)
           {| ContainerService.enabled := ContainerService.enabled diagnostics;
              ContainerService.storage_uri := default EmptyString storageURI |}) /\
   (ContainerService.service_principal ds
    = schema.NewSet ContainerService.resourceAzureRMContainerServiceServicePrincipalProfileHash ->
    ContainerService.expandAzureRmContainerServiceServicePrincipal ds = Some None /\
    ContainerService.flattenAzureRmContainerServiceServicePrincipalProfile None = Some None) /\
   (forall config,
       ContainerService.service_principal ds
       = schema.Add
           (schema.NewSet
              ContainerService.resourceAzureRMContainerServiceServicePrincipalProfileHash)
           config ->
       exists profile flat,
         ContainerService.expandAzureRmContainerServiceServicePrincipal ds
         = Some (Some profile) /\
         ContainerService.flattenAzureRmContainerServiceServicePrincipalProfile
           (Some (returned_service_principal echo_secret profile)) = Some (Some flat) /\
         ContainerService.stored_set
           ContainerService.resourceAzureRMContainerServiceServicePrincipalProfileHash
           ContainerService.stored_service_principal flat
         = schema.Add
             (schema.NewSet
                ContainerService.resourceAzureRMContainerServiceServicePrincipalProfileHash)
             {| ContainerService.client_id := ContainerService.client_id config;
                ContainerService.client_secret :=
                  if echo_secret then ContainerService.client_secret config
                  else EmptyString |})).
Proof.
  intros Hports Hagree Hvolumes Hmaster Hmaster_count Hlinux Hkey Hagent Hagent_count
    Hdiagnostics.
  split; [split; [|split]|repeat split].
  - by apply flatten_expanded_containers.
  - intros data. apply ToLower_ToUpper.
  - apply flatten_expanded_credentials.
  - destruct (flatten_expanded_master_profile ds master masterFqdn Hmaster)
      as (profile & Hexpand & _ & Hflatten); [lia|].
    by exists profile.
  - by eapply flatten_expanded_linux_profile.
  - by apply flatten_expanded_agent_pool_profile.
  - by apply flatten_expanded_diagnostics_profile.
  - by apply (flatten_expanded_service_principal ds echo_secret).
  - by apply (flatten_expanded_service_principal ds echo_secret).
Qed.

(** C1, the counterexample: a group with one container on port 80 with
    protocol tcp, a value of the schema.  Flatten of what expand built
    stores the protocol TCP: the protocol field of the document is not
    reproduced. *)
Lemma flatten_after_expand_changes_protocol :
  ContainerGroup.container_protocol <$> ContainerGroup.container example_group_data = ["tcp"] /\
  exists flat,
    ContainerGroup.flattenContainerGroupContainers example_group_data
      (Some (ContainerGroup.expandContainerGroupContainers example_group_data).1.1)
      (Some (ContainerGroup.expandContainerGroupContainers example_group_data).1.2)
      (Some (ContainerGroup.expandContainerGroupContainers example_group_data).2)
    = Some flat /\
    ContainerGroup.container_protocol <$> (ContainerGroup.stored_container <$> flat) = ["TCP"] /\
    ContainerGroup.stored_container <$> flat <> ContainerGroup.container example_group_data.
Proof.
  split; [reflexivity|].
  destruct (ContainerGroup.flattenContainerGroupContainers example_group_data
              (Some (ContainerGroup.expandContainerGroupContainers example_group_data).1.1)
              (Some (ContainerGroup.expandContainerGroupContainers example_group_data).1.2)
              (Some (ContainerGroup.expandContainerGroupContainers example_group_data).2))
    as [flat|] eqn:Hflat; [|by vm_compute in Hflat].
  exists flat. split; [reflexivity|].
  assert (ContainerGroup.container_protocol <$> (ContainerGroup.stored_container <$> flat)
          = ["TCP"]) as Hprotocol.
  { vm_compute in Hflat. by injection Hflat as <-. }
  split; [exact Hprotocol|].
  intros Hsame. rewrite Hsame in Hprotocol. discriminate Hprotocol.
Qed.

Lemma example_group_ports_set : ports_set example_group_data.
Proof. apply Forall_singleton. cbn. lia. Qed.

Lemma example_group_ports_agree : ports_agree example_group_data.
Proof.
  intros data1 data2 Hdata1 Hdata2 _.
  apply list_elem_of_singleton in Hdata1, Hdata2. by subst.
Qed.

Lemma example_group_volumes_agree : volumes_agree example_group_data.
Proof.
  intros data1 data2 v1 v2 Hdata1 Hdata2 Hv1 Hv2 _.
  apply list_elem_of_singleton in Hdata1, Hdata2. subst.
  apply list_elem_of_singleton in Hv1, Hv2. by subst.
Qed.

(** The example group, keys not echoed, and the example service. *)
Lemma flatten_after_expand_witness :
  (exists flat,
      ContainerGroup.flattenContainerGroupContainers example_group_data
        (Some (ContainerGroup.expandContainerGroupContainers example_group_data).1.1)
        (Some (ContainerGroup.expandContainerGroupContainers example_group_data).1.2)
        (Some (returned_volumes false
                 (ContainerGroup.expandContainerGroupContainers example_group_data).2))
      = Some flat /\
      without_keys <$> (ContainerGroup.stored_container <$> flat)
      = without_keys <$> (upper_protocol <$> ContainerGroup.container example_group_data)) /\
  (exists profile,
      ContainerService.expandAzureRmContainerServiceMasterProfile example_service_data
      = Some profile /\
      @ContainerService.flattenAzureRmContainerServiceMasterProfile example_externals
        (returned_master_profile assigned_master_fqdn profile)
      = Some (schema.Add
                (schema.NewSet
                   (@ContainerService.resourceAzureRMContainerServiceMasterProfileHash
                      example_externals))
                {| ContainerService.master_count := 1;
                   ContainerService.master_dns_prefix := "x";
                   ContainerService.master_fqdn := assigned_master_fqdn |})).
Proof.
  destruct (@flatten_after_expand example_externals
              example_group_data false false
              example_service_data
              {| ContainerService.master_count := 1;
                 ContainerService.master_dns_prefix := "x";
                 ContainerService.master_fqdn := "" |}
              {| ContainerService.admin_username := "admin";
                 ContainerService.ssh_key :=
                   schema.Add
                     (schema.NewSet
                        (@ContainerService.resourceAzureRMContainerServiceLinuxProfilesSSHKeysHash
                           example_externals))
                     {| ContainerService.key_data := "ssh-rsa AAAA" |} |}
              {| ContainerService.key_data := "ssh-rsa AAAA" |}
              {| ContainerService.agent_name := "pool";
                 ContainerService.agent_count := 2;
                 ContainerService.agent_dns_prefix := "y";
                 ContainerService.agent_fqdn := "";
                 ContainerService.agent_vm_size := "Standard_D2_v2" |}
              {| ContainerService.enabled := false; ContainerService.storage_uri := "" |}
              assigned_master_fqdn assigned_agent_fqdn None false
              example_group_ports_set example_group_ports_agree example_group_volumes_agree
              eq_refl (or_introl eq_refl) eq_refl eq_refl eq_refl
              (conj (proj1 (Z.leb_le 1 2) eq_refl) (proj1 (Z.leb_le 2 100) eq_refl))
              eq_refl)
    as [[Hgroup _] [Hmaster _]].
  split; [exact Hgroup|exact Hmaster].
Defined.

(** *** Why the conditions are there *)

(** A container without a port: expand leaves [Ports] nil and flatten
    dereferences it. *)
Example flatten_without_port_panics :
  flatten_expand [plain_container "web" 0 EmptyString []] = None.
Proof. reflexivity. Qed.

(** Two containers on port 80, one tcp and one udp: flatten finds the
    protocol by port number and gives both the last one. *)
Example shared_port_takes_last_protocol :
  fmap (M := list) ContainerGroup.container_protocol
    <$> flatten_expand [plain_container "a" 80 "tcp" []; plain_container "b" 80 "udp" []]
  = Some ["UDP"; "UDP"].
Proof. by vm_compute. Qed.

(** Two containers with a volume of the same name on different shares:
    flatten finds the share by volume name and gives both the last one. *)
Example shared_volume_name_takes_last_share :
  fmap (M := list)
    (fun data => ContainerGroup.volume_share_name <$> ContainerGroup.container_volume data)
    <$> flatten_expand [plain_container "a" 80 "tcp" [plain_volume "data" "share1"];
                        plain_container "b" 81 "tcp" [plain_volume "data" "share2"]]
  = Some [["share2"]; ["share2"]].
Proof. by vm_compute. Qed.

(** The master profile that expand builds has no FQDN, and flatten
    dereferences it: flatten applies to what the server returns. *)
Example flatten_master_profile_needs_fqdn :
  ContainerService.expandAzureRmContainerServiceMasterProfile example_service_data
    ≫= @ContainerService.flattenAzureRmContainerServiceMasterProfile example_externals
  = None.
Proof. by vm_compute. Qed.

(** * Further properties of the two files *)

(** ** Environment variables *)

Lemma flatten_environment_loop (input : list containerinstance.EnvironmentVariable)
    (acc output : gmap string string) (k : string) :
  rangeM (fun (output : gmap string string) envVar =>
            k ← containerinstance.EnvironmentVariable_Name envVar;
            v ← containerinstance.EnvironmentVariable_Value envVar;
            Some (<[k := v]> output))
         acc input = Some output ->
  output !! k = match last_value k input with
                | Some v => Some v
                | None => acc !! k
                end.
Proof.
  unfold last_value. revert acc.
  induction input as [|envVar input IH]; intros acc Hloop.
  - cbn in Hloop. by injection Hloop as <-.
  - cbn [rangeM] in Hloop.
    destruct (containerinstance.EnvironmentVariable_Name envVar) as [name|] eqn:Hname;
      [|done].
    destruct (containerinstance.EnvironmentVariable_Value envVar) as [value|] eqn:Hvalue;
      [|done].
    cbn [mbind option_bind] in Hloop. rewrite (IH _ Hloop).
    cbn [omap list_omap]. rewrite Hname, Hvalue.
    destruct (decide (Some name = Some k)) as [[= ->]|Hne].
    + rewrite last_cons. destruct (last _); [done|]. by rewrite lookup_insert_eq.
    + destruct (last _); [done|]. rewrite lookup_insert_ne; [done|congruence].
Qed.

Lemma flatten_environment_loop_None (input : list containerinstance.EnvironmentVariable)
    (acc : gmap string string) :
  rangeM (fun (output : gmap string string) envVar =>
            k ← containerinstance.EnvironmentVariable_Name envVar;
            v ← containerinstance.EnvironmentVariable_Value envVar;
            Some (<[k := v]> output))
         acc input = None <->
  Exists (fun envVar =>
            containerinstance.EnvironmentVariable_Name envVar = None \/
            containerinstance.EnvironmentVariable_Value envVar = None) input.
Proof.
  revert acc. induction input as [|envVar input IH]; intros acc.
  - cbn. split; [done|]. intros Hex. by apply Exists_nil in Hex.
  - cbn [rangeM]. rewrite Exists_cons.
    destruct (containerinstance.EnvironmentVariable_Name envVar) as [name|];
      [|cbn; split; [by left; left|done]].
    destruct (containerinstance.EnvironmentVariable_Value envVar) as [value|];
      [|cbn; split; [by left; right|done]].
    cbn [mbind option_bind]. rewrite IH. split; [by right|].
    by intros [[|]|].
Qed.

(** X1. [flattenContainerEnvironmentVariables] panics exactly when some
    variable of the list has a nil name or a nil value. *)
Theorem flatten_environment_panics_on_nil
    (input : list containerinstance.EnvironmentVariable) :
  ContainerGroup.flattenContainerEnvironmentVariables input = None <->
  Exists (fun envVar =>
            containerinstance.EnvironmentVariable_Name envVar = None \/
            containerinstance.EnvironmentVariable_Value envVar = None) input.
Proof. apply flatten_environment_loop_None. Qed.

(** X2. When [flattenContainerEnvironmentVariables] returns a map, the map
    holds for every name the value of the last variable of that name, and
    nothing for a name no variable has. *)
Theorem flatten_environment_last_wins
    (input : list containerinstance.EnvironmentVariable)
    (output : gmap string string) (k : string) :
  ContainerGroup.flattenContainerEnvironmentVariables input = Some output ->
  output !! k = last_value k input.
Proof.
  intros Hflat. rewrite (flatten_environment_loop _ _ _ k Hflat), lookup_empty.
  by destruct (last_value k input).
Qed.

(** Two variables named MODE: the second one is the one kept. *)
Lemma flatten_environment_last_wins_witness :
  ContainerGroup.flattenContainerEnvironmentVariables
    [ {| containerinstance.EnvironmentVariable_Name := Some "MODE";
         containerinstance.EnvironmentVariable_Value := Some "dev" |};
      {| containerinstance.EnvironmentVariable_Name := Some "MODE";
         containerinstance.EnvironmentVariable_Value := Some "prod" |} ]
  = Some ({[ "MODE" := "prod" ]} : gmap string string) /\
  ({[ "MODE" := "prod" ]} : gmap string string) !! "MODE" = Some "prod".
Proof.
  assert (ContainerGroup.flattenContainerEnvironmentVariables
            [ {| containerinstance.EnvironmentVariable_Name := Some "MODE";
                 containerinstance.EnvironmentVariable_Value := Some "dev" |};
              {| containerinstance.EnvironmentVariable_Name := Some "MODE";
                 containerinstance.EnvironmentVariable_Value := Some "prod" |} ]
          = Some ({[ "MODE" := "prod" ]} : gmap string string)) as Hflat.
  { by vm_compute. }
  split; [exact Hflat|].
  rewrite (flatten_environment_last_wins _ _ "MODE" Hflat). reflexivity.
Defined.

Lemma expanded_environment_value (k : string) (l : list (string * string)) :
  NoDup l.*1 ->
  omap (fun envVar =>
          if decide (containerinstance.EnvironmentVariable_Name envVar = Some k)
          then containerinstance.EnvironmentVariable_Value envVar else None)
       ((fun kv => {| containerinstance.EnvironmentVariable_Name := Some kv.1;
                      containerinstance.EnvironmentVariable_Value := Some kv.2 |}) <$> l)
  = option_list ((list_to_map l : gmap string string) !! k).
Proof.
  induction l as [|[k0 v0] l IH]; intros Hnodup; [done|].
  apply NoDup_cons in Hnodup as [Hfresh Hnodup].
  cbn [fmap list_fmap omap list_omap list_to_map foldr fst snd
       containerinstance.EnvironmentVariable_Name containerinstance.EnvironmentVariable_Value].
  change (list_omap _ _ ?f (list_fmap _ _ ?g l)) with (omap f (g <$> l)).
  rewrite IH by done.
  destruct (decide (Some k0 = Some k)) as [[= ->]|Hne].
  - rewrite lookup_insert_eq, (not_elem_of_list_to_map_1 _ _ Hfresh). done.
  - rewrite lookup_insert_ne; [done|congruence].
Qed.

(** X3. Go ranges over a map in no fixed order: whatever the order in which
    [expandContainerEnvironmentVariables] lists the variables of a map,
    [flattenContainerEnvironmentVariables] gives the map back. *)
Theorem environment_survives_any_order (input : gmap string string)
    (envVars : list containerinstance.EnvironmentVariable) :
  envVars ≡ₚ ContainerGroup.expandContainerEnvironmentVariables input ->
  ContainerGroup.flattenContainerEnvironmentVariables envVars = Some input.
Proof.
  intros Hperm.
  destruct (ContainerGroup.flattenContainerEnvironmentVariables envVars) as [output|] eqn:Hflat.
  - f_equal. apply map_eq. intros k.
    rewrite (flatten_environment_loop _ _ _ k Hflat), lookup_empty. unfold last_value.
    assert (omap (fun envVar =>
                    if decide (containerinstance.EnvironmentVariable_Name envVar = Some k)
                    then containerinstance.EnvironmentVariable_Value envVar else None)
                 envVars = option_list (input !! k)) as ->.
    { pose proof (omap_Permutation
                    (fun envVar =>
                       if decide (containerinstance.EnvironmentVariable_Name envVar = Some k)
                       then containerinstance.EnvironmentVariable_Value envVar else None)
                    _ _ Hperm) as Hselected.
      unfold ContainerGroup.expandContainerEnvironmentVariables in Hselected.
      rewrite expanded_environment_value in Hselected by apply NoDup_fst_map_to_list.
      rewrite list_to_map_to_list in Hselected.
      destruct (input !! k); cbn in *.
      - by apply Permutation_singleton_r.
      - by apply Permutation_nil_r. }
    by destruct (input !! k).
  - apply flatten_environment_loop_None, Exists_exists in Hflat as (envVar & Hin & Hnil).
    rewrite Hperm in Hin. unfold ContainerGroup.expandContainerEnvironmentVariables in Hin.
    apply list_elem_of_fmap in Hin as (kv & -> & _). by destruct Hnil.
Qed.

(** The two variables of a map, listed in the order opposite to the one
    expand happens to use. *)
Lemma environment_survives_any_order_witness :
  ContainerGroup.flattenContainerEnvironmentVariables
    (reverse (ContainerGroup.expandContainerEnvironmentVariables
                {[ "MODE" := "prod"; "PORT" := "80" ]}))
  = Some ({[ "MODE" := "prod"; "PORT" := "80" ]} : gmap string string).
Proof.
  apply (environment_survives_any_order {[ "MODE" := "prod"; "PORT" := "80" ]}).
  apply reverse_Permutation.
Defined.

(** ** Loops *)

Lemma rangeM_fmap {A B C : Type} (body : B -> A -> option B) (g : C -> A)
    (acc : B) (items : list C) :
  rangeM body acc (g <$> items) = rangeM (fun acc x => body acc (g x)) acc items.
Proof.
  revert acc. induction items as [|x items IH]; intros acc; [done|].
  cbn. destruct (body acc (g x)); [apply IH|done].
Qed.

Lemma rangeM_ext {A B : Type} (body1 body2 : B -> A -> option B)
    (acc : B) (items : list A) :
  (forall acc x, body1 acc x = body2 acc x) ->
  rangeM body1 acc items = rangeM body2 acc items.
Proof.
  intros Hext. revert acc. induction items as [|x items IH]; intros acc; [done|].
  cbn. rewrite Hext. destruct (body2 acc x); [apply IH|done].
Qed.

Lemma rangeM_invariant {A B : Type} (P : B -> Prop) (body : B -> A -> option B)
    (acc result : B) (items : list A) :
  P acc ->
  (forall acc x acc', P acc -> body acc x = Some acc' -> P acc') ->
  rangeM body acc items = Some result ->
  P result.
Proof.
  intros Hacc Hstep. revert acc Hacc.
  induction items as [|x items IH]; intros acc Hacc Hloop.
  - cbn in Hloop. by injection Hloop as <-.
  - cbn in Hloop. destruct (body acc x) as [acc'|] eqn:Hbody; [|done].
    eapply IH; [|exact Hloop]. by eapply Hstep.
Qed.

(** ** What flatten reads of the remote object *)

Lemma flattenVolumeMount_without_storage_key
    (containerGroupVolumes : list containerinstance.Volume)
    (containerVolumesConfig : option (list ContainerGroup.VolumeConfig))
    (vm : containerinstance.VolumeMount) :
  ContainerGroup.flattenVolumeMount (without_storage_key <$> containerGroupVolumes)
    containerVolumesConfig vm
  = ContainerGroup.flattenVolumeMount containerGroupVolumes containerVolumesConfig vm.
Proof.
  unfold ContainerGroup.flattenVolumeMount.
  apply option_bind_ext; [intros vmName|done].
  apply option_bind_ext; [intros vmMountPath|done].
  apply option_bind_ext; [done|].
  rewrite rangeM_fmap. apply rangeM_ext. intros volumeConfig cgv.
  unfold without_storage_key. cbn.
  apply option_bind_ext; [intros cgvName|done].
  destruct (decide (cgvName = vmName)); [|done].
  by destruct (containerinstance.AzureFile cgv).
Qed.

Lemma flattenContainer_volumes_ext (d : ContainerGroup.ResourceData)
    (container : containerinstance.Container)
    (containerGroupPorts : option (list containerinstance.Port))
    (groupVolumes1 groupVolumes2 : list containerinstance.Volume) :
  (forall volumeMounts config,
      ContainerGroup.flattenContainerVolumes volumeMounts groupVolumes1 config
      = ContainerGroup.flattenContainerVolumes volumeMounts groupVolumes2 config) ->
  ContainerGroup.flattenContainer d container containerGroupPorts (Some groupVolumes1)
  = ContainerGroup.flattenContainer d container containerGroupPorts (Some groupVolumes2).
Proof.
  intros Hvolumes. unfold ContainerGroup.flattenContainer.
  apply option_bind_ext; [intros containerName|done].
  apply option_bind_ext; [intros properties|done].
  apply option_bind_ext; [intros containerImage|done].
  apply option_bind_ext; [intros requests|done].
  apply option_bind_ext; [intros containerPorts|done].
  apply option_bind_ext; [intros portAndProtocol|done].
  apply option_bind_ext; [intros environmentVariables|done].
  apply option_bind_ext; [done|].
  destruct (containerinstance.VolumeMounts properties); [|done].
  by rewrite Hvolumes.
Qed.

(** X4. Flatten never reads the storage account key of the remote group
    volumes: with the keys removed from them it returns the same, and
    panics on the same inputs.  (The source: "skip storage_account_key, is
    always nil".) *)
Theorem flatten_ignores_remote_storage_key (d : ContainerGroup.ResourceData)
    (containers : option (list containerinstance.Container))
    (containerGroupPorts : option (list containerinstance.Port))
    (containerGroupVolumes : list containerinstance.Volume) :
  ContainerGroup.flattenContainerGroupContainers d containers containerGroupPorts
    (Some (without_storage_key <$> containerGroupVolumes))
  = ContainerGroup.flattenContainerGroupContainers d containers containerGroupPorts
      (Some containerGroupVolumes).
Proof.
  unfold ContainerGroup.flattenContainerGroupContainers.
  apply option_bind_ext; [intros containerList|done].
  apply mapM_ext. intros container. apply flattenContainer_volumes_ext.
  intros volumeMounts config. unfold ContainerGroup.flattenContainerVolumes.
  apply mapM_ext. intros vm. apply flattenVolumeMount_without_storage_key.
Qed.

(** X5. [flattenContainerImageRegistryCredentials] never reads the password
    of the remote credentials: with the passwords removed from them it
    returns the same. *)
Theorem flatten_ignores_remote_password (d : ContainerGroup.ResourceData)
    (credsPtr : option (list containerinstance.ImageRegistryCredential)) :
  ContainerGroup.flattenContainerImageRegistryCredentials d
    (returned_credentials false credsPtr)
  = ContainerGroup.flattenContainerImageRegistryCredentials d credsPtr.
Proof.
  destruct credsPtr as [creds|]; [|done].
  unfold ContainerGroup.flattenContainerImageRegistryCredentials, returned_credentials.
  cbn [fmap option_fmap option_map].
  apply list_eq. intros i.
  rewrite !list_lookup_imap, list_lookup_fmap.
  by destruct (creds !! i).
Qed.

(** ** What flatten keeps of a remote container *)

Lemma protocol_search_origin (containerPort : Z)
    (groupPorts : list containerinstance.Port) (initial protocol : string) :
  rangeM (fun protocol cgPort =>
            cgPortPort ← containerinstance.Port_Port cgPort;
            if decide (cgPortPort = containerPort)
            then Some (containerinstance.Port_Protocol cgPort)
            else Some protocol)
         initial groupPorts = Some protocol ->
  protocol = initial \/
  exists cgPort, cgPort ∈ groupPorts /\
                 containerinstance.Port_Port cgPort = Some containerPort /\
                 containerinstance.Port_Protocol cgPort = protocol.
Proof.
  revert initial. induction groupPorts as [|cgPort rest IH]; intros initial Hloop.
  - cbn in Hloop. injection Hloop as <-. by left.
  - cbn [rangeM] in Hloop.
    destruct (containerinstance.Port_Port cgPort) as [p|] eqn:Hp; [|done].
    cbn [mbind option_bind] in Hloop.
    destruct (decide (p = containerPort)) as [->|Hne]; cbn [mbind option_bind] in Hloop.
    + destruct (IH _ Hloop) as [->|(cgPort' & Hin & Hport & Hprotocol)].
      * right. exists cgPort. split; [left|done].
      * right. exists cgPort'. split; [by right|done].
    + destruct (IH _ Hloop) as [->|(cgPort' & Hin & Hport & Hprotocol)]; [by left|].
      right. exists cgPort'. split; [by right|done].
Qed.

Lemma flatten_environment_nonempty (envVar : containerinstance.EnvironmentVariable)
    (envVars : list containerinstance.EnvironmentVariable) (output : gmap string string) :
  ContainerGroup.flattenContainerEnvironmentVariables (envVar :: envVars) = Some output ->
  output <> ∅.
Proof.
  intros Hflat Hempty. subst output.
  destruct (containerinstance.EnvironmentVariable_Name envVar) as [k|] eqn:Hk;
    [|by unfold ContainerGroup.flattenContainerEnvironmentVariables in Hflat;
        cbn in Hflat; rewrite Hk in Hflat].
  pose proof (flatten_environment_loop _ _ _ k Hflat) as Hlookup.
  rewrite !lookup_empty in Hlookup. unfold last_value in Hlookup.
  cbn [omap list_omap] in Hlookup. rewrite Hk, decide_True in Hlookup by done.
  destruct (containerinstance.EnvironmentVariable_Value envVar) as [v|] eqn:Hv;
    [|by unfold ContainerGroup.flattenContainerEnvironmentVariables in Hflat;
        cbn in Hflat; rewrite Hk, Hv in Hflat].
  rewrite last_cons in Hlookup. by destruct (last _).
Qed.

Lemma flattenContainer_Some (d : ContainerGroup.ResourceData)
    (container : containerinstance.Container)
    (containerGroupPorts : option (list containerinstance.Port))
    (containerGroupVolumes : option (list containerinstance.Volume))
    (flat : ContainerGroup.FlatContainer) :
  ContainerGroup.flattenContainer d container containerGroupPorts containerGroupVolumes
    = Some flat ->
  exists properties containerPorts,
    containerinstance.Container_Name container
      = Some (ContainerGroup.flat_container_name flat) /\
    containerinstance.Container_ContainerProperties container = Some properties /\
    containerinstance.Image properties = Some (ContainerGroup.flat_container_image flat) /\
    containerinstance.Ports properties = Some containerPorts /\
    ContainerGroup.flat_container_port flat
      = head containerPorts ≫= containerinstance.ContainerPort_Port /\
    (forall protocol,
        ContainerGroup.flat_container_protocol flat = Some protocol ->
        protocol <> EmptyString /\
        exists port cgPorts cgPort,
          ContainerGroup.flat_container_port flat = Some port /\
          containerGroupPorts = Some cgPorts /\
          cgPort ∈ cgPorts /\
          containerinstance.Port_Port cgPort = Some port /\
          containerinstance.Port_Protocol cgPort = protocol) /\
    ContainerGroup.flat_container_command flat
      = strings.Join <$> containerinstance.Command properties /\
    (ContainerGroup.flat_container_environment_variables flat <> Some ∅) /\
    (forall volumes,
        ContainerGroup.flat_container_volume flat = Some volumes ->
        exists groupVolumes volumeMounts,
          containerGroupVolumes = Some groupVolumes /\
          containerinstance.VolumeMounts properties = Some volumeMounts /\
          ContainerGroup.flattenContainerVolumes volumeMounts groupVolumes
            (foldl (fun containerVolumesConfig data =>
                      if decide (ContainerGroup.container_name data
                                 = ContainerGroup.flat_container_name flat)
                      then Some (ContainerGroup.container_volume data)
                      else containerVolumesConfig)
                   None (ContainerGroup.container d))
          = Some volumes).
Proof.
  unfold ContainerGroup.flattenContainer. intros Hflat.
  apply bind_Some in Hflat as (containerName & HcontainerName & Hflat).
  apply bind_Some in Hflat as (properties & Hproperties & Hflat).
  apply bind_Some in Hflat as (containerImage & HcontainerImage & Hflat).
  apply bind_Some in Hflat as (requests & Hrequests & Hflat).
  apply bind_Some in Hflat as (containerPorts & HcontainerPorts & Hflat).
  apply bind_Some in Hflat as (portAndProtocol & HportAndProtocol & Hflat).
  apply bind_Some in Hflat as (environmentVariables & HenvironmentVariables & Hflat).
  apply bind_Some in Hflat as (volume & Hvolume & Hflat).
  injection Hflat as <-. cbn.
  exists properties, containerPorts.
  repeat (split; [done|]).
  split; [|split; [|split; [done|split]]].
  - destruct containerPorts as [|first rest]; [by injection HportAndProtocol as <-|].
    apply bind_Some in HportAndProtocol as (containerPort & HcontainerPort & Hrest).
    apply bind_Some in Hrest as (protocol & _ & Hrest).
    injection Hrest as <-. done.
  - intros protocol Hprotocol.
    destruct containerPorts as [|first rest];
      [injection HportAndProtocol as <-; done|].
    apply bind_Some in HportAndProtocol as (containerPort & HcontainerPort & Hrest).
    apply bind_Some in Hrest as (found & Hsearch & Hrest).
    injection Hrest as <-. cbn in Hprotocol.
    destruct (decide (found ≠ EmptyString)) as [Hfound|]; [|done].
    injection Hprotocol as <-. split; [done|].
    destruct containerGroupPorts as [cgPorts|]; [|by injection Hsearch as <-].
    destruct (protocol_search_origin _ _ _ _ Hsearch)
      as [->|(cgPort & Hin & Hport & Hproto)]; [done|].
    by exists containerPort, cgPorts, cgPort.
  - destruct (containerinstance.EnvironmentVariables properties) as [envVars|];
      [|by injection HenvironmentVariables as <-].
    destruct (decide (0 < length envVars)%nat) as [Hlength|];
      [|by injection HenvironmentVariables as <-].
    apply fmap_Some in HenvironmentVariables as (output & Houtput & ->).
    intros [= ->].
    destruct envVars as [|envVar envVars]; [cbn in Hlength; lia|].
    by apply (flatten_environment_nonempty _ _ _ Houtput).
  - intros volumes ->.
    destruct containerGroupVolumes as [groupVolumes|]; [|done].
    destruct (containerinstance.VolumeMounts properties) as [volumeMounts|]; [|done].
    apply fmap_Some in Hvolume as (volumes' & Hvolumes' & [= ->]).
    by exists groupVolumes, volumeMounts.
Qed.

(** X6. When [flattenContainerGroupContainers] returns, it returns one
    map per remote container, in the order of the remote list, each with
    the name and the image of its container. *)
Theorem flatten_keeps_containers_in_order (d : ContainerGroup.ResourceData)
    (containers : list containerinstance.Container)
    (containerGroupPorts : option (list containerinstance.Port))
    (containerGroupVolumes : option (list containerinstance.Volume))
    (containerConfigs : list ContainerGroup.FlatContainer) :
  ContainerGroup.flattenContainerGroupContainers d (Some containers)
    containerGroupPorts containerGroupVolumes = Some containerConfigs ->
  length containerConfigs = length containers /\
  forall (i : nat) (container : containerinstance.Container),
    containers !! i = Some container ->
    exists containerConfig,
      containerConfigs !! i = Some containerConfig /\
      containerinstance.Container_Name container
        = Some (ContainerGroup.flat_container_name containerConfig) /\
      containerinstance.Container_ContainerProperties container ≫= containerinstance.Image
        = Some (ContainerGroup.flat_container_image containerConfig).
Proof.
  unfold ContainerGroup.flattenContainerGroupContainers. cbn [mbind option_bind].
  intros Hflat. split; [symmetry; by eapply length_mapM|].
  intros i container Hcontainer.
  apply mapM_Some_1 in Hflat.
  destruct (Forall2_lookup_l _ _ _ _ _ Hflat Hcontainer) as (containerConfig & Hi & Hone).
  exists containerConfig. split; [done|].
  apply flattenContainer_Some in Hone
    as (properties & containerPorts & Hname & Hproperties & Himage & _).
  split; [done|]. by rewrite Hproperties.
Qed.

(** The one remote container that expand builds for the example group. *)
Lemma flatten_keeps_containers_in_order_witness :
  exists containerConfigs,
    ContainerGroup.flattenContainerGroupContainers example_group_data
      (Some (ContainerGroup.expandContainerGroupContainers example_group_data).1.1)
      (Some (ContainerGroup.expandContainerGroupContainers example_group_data).1.2)
      (Some (ContainerGroup.expandContainerGroupContainers example_group_data).2)
    = Some containerConfigs /\
    length containerConfigs = 1%nat.
Proof.
  destruct (ContainerGroup.flattenContainerGroupContainers example_group_data
              (Some (ContainerGroup.expandContainerGroupContainers example_group_data).1.1)
              (Some (ContainerGroup.expandContainerGroupContainers example_group_data).1.2)
              (Some (ContainerGroup.expandContainerGroupContainers example_group_data).2))
    as [containerConfigs|] eqn:Hflat; [|by vm_compute in Hflat].
  exists containerConfigs. split; [reflexivity|].
  exact (proj1 (flatten_keeps_containers_in_order _ _ _ _ _ Hflat)).
Defined.

(** X7. Of the ports of a remote container flatten keeps the first one
    only.  A protocol is set only together with a port, is never the empty
    string, and is the protocol of a group port with that port number. *)
Theorem flatten_keeps_first_port (d : ContainerGroup.ResourceData)
    (container : containerinstance.Container)
    (containerGroupPorts : option (list containerinstance.Port))
    (containerGroupVolumes : option (list containerinstance.Volume))
    (containerConfig : ContainerGroup.FlatContainer) :
  ContainerGroup.flattenContainer d container containerGroupPorts containerGroupVolumes
    = Some containerConfig ->
  ContainerGroup.flat_container_port containerConfig
    = (properties ← containerinstance.Container_ContainerProperties container;
       containerPorts ← containerinstance.Ports properties;
       first ← head containerPorts;
       containerinstance.ContainerPort_Port first) /\
  forall protocol,
    ContainerGroup.flat_container_protocol containerConfig = Some protocol ->
    protocol <> EmptyString /\
    exists port cgPorts cgPort,
      ContainerGroup.flat_container_port containerConfig = Some port /\
      containerGroupPorts = Some cgPorts /\
      cgPort ∈ cgPorts /\
      containerinstance.Port_Port cgPort = Some port /\
      containerinstance.Port_Protocol cgPort = protocol.
Proof.
  intros Hflat.
  apply flattenContainer_Some in Hflat
    as (properties & containerPorts & _ & Hproperties & _ & Hports & Hport & Hprotocol & _).
  split; [|exact Hprotocol].
  by rewrite Hproperties, Hport; cbn; rewrite Hports.
Qed.

(** A remote container with the ports 80 and 443, and a group that lists
    443 as TCP only: the port kept is 80 and no protocol is found for it. *)
Lemma flatten_keeps_first_port_witness :
  exists containerConfig,
    ContainerGroup.flattenContainer example_group_data
      {| containerinstance.Container_Name := Some "web";
         containerinstance.Container_ContainerProperties := Some
           {| containerinstance.Image := Some "nginx";
              containerinstance.Command := None;
              containerinstance.Ports := Some
                [ {| containerinstance.ContainerPort_Port := Some 80 |};
                  {| containerinstance.ContainerPort_Port := Some 443 |} ];
              containerinstance.EnvironmentVariables := None;
              containerinstance.Resources := None;
              containerinstance.VolumeMounts := None |} |}
      (Some [ {| containerinstance.Port_Protocol := "TCP";
                 containerinstance.Port_Port := Some 443 |} ])
      None = Some containerConfig /\
    ContainerGroup.flat_container_port containerConfig = Some 80 /\
    ContainerGroup.flat_container_protocol containerConfig = None.
Proof.
  destruct (ContainerGroup.flattenContainer example_group_data
      {| containerinstance.Container_Name := Some "web";
         containerinstance.Container_ContainerProperties := Some
           {| containerinstance.Image := Some "nginx";
              containerinstance.Command := None;
              containerinstance.Ports := Some
                [ {| containerinstance.ContainerPort_Port := Some 80 |};
                  {| containerinstance.ContainerPort_Port := Some 443 |} ];
              containerinstance.EnvironmentVariables := None;
              containerinstance.Resources := None;
              containerinstance.VolumeMounts := None |} |}
      (Some [ {| containerinstance.Port_Protocol := "TCP";
                 containerinstance.Port_Port := Some 443 |} ])
      None) as [containerConfig|] eqn:Hflat; [|by vm_compute in Hflat].
  exists containerConfig. split; [reflexivity|].
  destruct (flatten_keeps_first_port _ _ _ _ _ Hflat) as [Hport _].
  split; [by rewrite Hport|].
  vm_compute in Hflat. by injection Hflat as <-.
Defined.

Lemma prior_volumes_search (name : string)
    (acc : option (list ContainerGroup.VolumeConfig))
    (blocks : list ContainerGroup.ContainerConfig) :
  foldl (fun containerVolumesConfig data =>
           if decide (ContainerGroup.container_name data = name)
           then Some (ContainerGroup.container_volume data)
           else containerVolumesConfig)
        acc blocks
  = match last (filter (fun data => ContainerGroup.container_name data = name) blocks) with
    | Some data => Some (ContainerGroup.container_volume data)
    | None => acc
    end.
Proof.
  revert acc. induction blocks as [|data blocks IH]; intros acc; [done|].
  cbn [foldl]. rewrite IH, filter_cons.
  destruct (decide (ContainerGroup.container_name data = name)); [|done].
  rewrite last_cons. by destruct (last _).
Qed.

Lemma flattenVolumeMount_key
    (containerGroupVolumes : list containerinstance.Volume)
    (containerVolumesConfig : option (list ContainerGroup.VolumeConfig))
    (vm : containerinstance.VolumeMount) (volumeConfig : ContainerGroup.FlatVolume) :
  ContainerGroup.flattenVolumeMount containerGroupVolumes containerVolumesConfig vm
    = Some volumeConfig ->
  ContainerGroup.flat_volume_storage_account_key volumeConfig
  = containerVolumesConfig ≫= prior_key (ContainerGroup.flat_volume_name volumeConfig).
Proof.
  unfold ContainerGroup.flattenVolumeMount. intros Hflat.
  apply bind_Some in Hflat as (vmName & _ & Hflat).
  apply bind_Some in Hflat as (vmMountPath & _ & Hflat).
  apply bind_Some in Hflat as (found & Hfound & Hflat).
  injection Hflat as <-.
  assert (ContainerGroup.flat_volume_name found = vmName /\
          ContainerGroup.flat_volume_storage_account_key found = None) as [Hname Hkey].
  { revert Hfound.
    apply (rangeM_invariant
             (fun volumeConfig =>
                ContainerGroup.flat_volume_name volumeConfig = vmName /\
                ContainerGroup.flat_volume_storage_account_key volumeConfig = None));
      [done|].
    intros acc cgv acc' [Hname Hkey] Hbody.
    apply bind_Some in Hbody as (cgvName & _ & Hbody).
    destruct (decide (cgvName = vmName)); [|by injection Hbody as <-].
    destruct (containerinstance.AzureFile cgv); [|by injection Hbody as <-].
    apply bind_Some in Hbody as (shareName & _ & Hbody).
    apply bind_Some in Hbody as (storageAccountName & _ & Hbody).
    by injection Hbody as <-. }
  destruct containerVolumesConfig as [config|]; cbn [mbind option_bind].
  - rewrite config_key_search. cbn. rewrite Hname, Hkey. by destruct (prior_key vmName config).
  - by rewrite Hkey.
Qed.

(** X8. The storage account key of a flattened volume is never taken from
    the remote object: it is the key that the prior configuration holds, in
    the last container block named like the remote container, for the last
    volume block named like the mount.  Without such blocks the flattened
    volume has no key. *)
Theorem storage_key_comes_from_prior_config (d : ContainerGroup.ResourceData)
    (container : containerinstance.Container)
    (containerGroupPorts : option (list containerinstance.Port))
    (containerGroupVolumes : option (list containerinstance.Volume))
    (containerConfig : ContainerGroup.FlatContainer)
    (volumes : list ContainerGroup.FlatVolume) :
  ContainerGroup.flattenContainer d container containerGroupPorts containerGroupVolumes
    = Some containerConfig ->
  ContainerGroup.flat_container_volume containerConfig = Some volumes ->
  Forall (fun volumeConfig =>
            ContainerGroup.flat_volume_storage_account_key volumeConfig
            = last (filter (fun data =>
                              ContainerGroup.container_name data
                              = ContainerGroup.flat_container_name containerConfig)
                           (ContainerGroup.container d))
                ≫= fun data =>
                     prior_key (ContainerGroup.flat_volume_name volumeConfig)
                       (ContainerGroup.container_volume data))
         volumes.
Proof.
  intros Hflat Hvolumes.
  apply flattenContainer_Some in Hflat as (properties & containerPorts & Hrest).
  destruct Hrest as (_ & _ & _ & _ & _ & _ & _ & _ & Hvolume).
  destruct (Hvolume volumes Hvolumes) as (groupVolumes & volumeMounts & _ & _ & Hflat).
  rewrite prior_volumes_search in Hflat.
  unfold ContainerGroup.flattenContainerVolumes in Hflat.
  apply mapM_Some_1 in Hflat.
  apply Forall_forall. intros volumeConfig Hin.
  apply list_elem_of_lookup in Hin as (i & Hi).
  destruct (Forall2_lookup_r _ _ _ _ _ Hflat Hi) as (vm & _ & Hone).
  rewrite (flattenVolumeMount_key _ _ _ _ Hone).
  by destruct (last _).
Qed.

(** The example group read back from what expand built: the key [key1] of
    the prior configuration comes back. *)
Lemma storage_key_comes_from_prior_config_witness :
  exists containerConfig volumes,
    ContainerGroup.flattenContainer example_group_data
      (default {| containerinstance.Container_Name := None;
                  containerinstance.Container_ContainerProperties := None |}
         (head (ContainerGroup.expandContainerGroupContainers example_group_data).1.1))
      (Some (ContainerGroup.expandContainerGroupContainers example_group_data).1.2)
      (Some (without_storage_key
               <$> (ContainerGroup.expandContainerGroupContainers example_group_data).2))
    = Some containerConfig /\
    ContainerGroup.flat_container_volume containerConfig = Some volumes /\
    ContainerGroup.flat_volume_storage_account_key <$> volumes = [Some "key1"].
Proof.
  destruct (ContainerGroup.flattenContainer example_group_data
      (default {| containerinstance.Container_Name := None;
                  containerinstance.Container_ContainerProperties := None |}
         (head (ContainerGroup.expandContainerGroupContainers example_group_data).1.1))
      (Some (ContainerGroup.expandContainerGroupContainers example_group_data).1.2)
      (Some (without_storage_key
               <$> (ContainerGroup.expandContainerGroupContainers example_group_data).2)))
    as [containerConfig|] eqn:Hflat; [|by vm_compute in Hflat].
  destruct (ContainerGroup.flat_container_volume containerConfig) as [volumes|] eqn:Hvolumes;
    [|by vm_compute in Hflat; injection Hflat as <-].
  exists containerConfig, volumes. split; [reflexivity|]. split; [exact Hvolumes|].
  pose proof (storage_key_comes_from_prior_config _ _ _ _ _ _ Hflat Hvolumes) as Hkeys.
  vm_compute in Hflat. injection Hflat as <-. injection Hvolumes as <-.
  apply Forall_inv in Hkeys.
  exact (f_equal (fun key => [key]) Hkeys).
Defined.

(** ** What expand sends *)

(** X9. [expandContainerGroupContainers] returns one container per block,
    in order and under the block's name; one group port for every block
    with a non-zero port, in order, with the protocol in upper case; and
    the group volumes of all volume blocks, in order, each with its storage
    account key.  A block without port or without volumes contributes
    nothing to the group lists. *)
Theorem expand_lists_follow_blocks (d : ContainerGroup.ResourceData) :
  containerinstance.Container_Name <$> (ContainerGroup.expandContainerGroupContainers d).1.1
    = (fun data => Some (ContainerGroup.container_name data)) <$> ContainerGroup.container d /\
  (ContainerGroup.expandContainerGroupContainers d).1.2
    = group_port_of
        <$> filter (fun data => ContainerGroup.container_port data ≠ 0)
                   (ContainerGroup.container d) /\
  (ContainerGroup.expandContainerGroupContainers d).2
    = ContainerGroup.container d
        ≫= (fun data => group_volume_of <$> ContainerGroup.container_volume data).
Proof.
  rewrite expandContainerGroupContainers_lists. cbn [fst snd].
  generalize (ContainerGroup.container d). intros blocks.
  split; [|split].
  - rewrite <- list_fmap_compose. by apply list_fmap_ext.
  - induction blocks as [|data blocks IH]; [done|].
    cbn [mbind list_bind]. rewrite filter_cons.
    change (list_bind _ _ ?f blocks) with (blocks ≫= f). rewrite IH.
    unfold ContainerGroup.expandContainer at 1. cbn [fst snd].
    by destruct (decide (ContainerGroup.container_port data ≠ 0)).
  - induction blocks as [|data blocks IH]; [done|].
    cbn [mbind list_bind].
    change (list_bind _ _ ?f blocks) with (blocks ≫= f). rewrite IH.
    f_equal. unfold ContainerGroup.expandContainer, ContainerGroup.expandContainerVolumes.
    cbn [snd].
    destruct (decide (length (ContainerGroup.container_volume data) = 0%nat)) as [Hnil|];
      [|done].
    apply nil_length_inv in Hnil. by rewrite Hnil.
Qed.

(** X10. A count that the validation function of the schema accepts is
    sent unchanged: the conversion to [int32] in expand does not alter a
    validated master count or agent pool count. *)
Theorem validated_counts_are_sent_unchanged `{Externals}
    (d : ContainerService.ResourceData)
    (master : ContainerService.MasterProfileConfig)
    (agent : ContainerService.AgentPoolProfileConfig) (k : string) :
  ContainerService.master_profile d
    = schema.Add (schema.NewSet ContainerService.resourceAzureRMContainerServiceMasterProfileHash)
        master ->
  ContainerService.agent_pool_profile d
    = schema.Add
        (schema.NewSet ContainerService.resourceAzureRMContainerServiceAgentPoolProfilesHash)
        agent ->
  (validateArmContainerServiceMasterProfileCount (ContainerService.master_count master) k).2
    = [] ->
  (validateArmContainerServiceAgentPoolProfileCount (ContainerService.agent_count agent) k).2
    = [] ->
  containerservice.MasterProfile_Count
    <$> ContainerService.expandAzureRmContainerServiceMasterProfile d
    = Some (Some (ContainerService.master_count master)) /\
  fmap (M := list) containerservice.AgentPoolProfile_Count
    <$> ContainerService.expandAzureRmContainerServiceAgentProfiles d
    = Some [Some (ContainerService.agent_count agent)].
Proof.
  intros Hmaster Hagent Hmaster_valid Hagent_valid.
  assert (1 <= ContainerService.master_count master <= 65535) as Hmaster_count.
  { unfold validateArmContainerServiceMasterProfileCount in Hmaster_valid.
    cbn [snd] in Hmaster_valid.
    destruct (default false _) eqn:Hlookup; [|done].
    apply master_profile_count_capacities in Hlookup. lia. }
  assert (1 <= ContainerService.agent_count agent <= 65535) as Hagent_count.
  { unfold validateArmContainerServiceAgentPoolProfileCount in Hagent_valid.
    cbn [snd] in Hagent_valid.
    destruct (100 <? ContainerService.agent_count agent) eqn:Hhi; [done|].
    destruct (ContainerService.agent_count agent <=? 0) eqn:Hlo; [done|]. lia. }
  unfold ContainerService.expandAzureRmContainerServiceMasterProfile,
    ContainerService.expandAzureRmContainerServiceAgentProfiles.
  rewrite Hmaster, Hagent, !set_of_one. cbn.
  by rewrite !int32_of_port.
Qed.

(** The example service: master count 1, agent pool count 2. *)
Lemma validated_counts_are_sent_unchanged_witness :
  containerservice.MasterProfile_Count
    <$> ContainerService.expandAzureRmContainerServiceMasterProfile example_service_data
    = Some (Some 1) /\
  fmap (M := list) containerservice.AgentPoolProfile_Count
    <$> ContainerService.expandAzureRmContainerServiceAgentProfiles example_service_data
    = Some [Some 2].
Proof.
  exact (@validated_counts_are_sent_unchanged example_externals example_service_data
           {| ContainerService.master_count := 1;
              ContainerService.master_dns_prefix := "x";
              ContainerService.master_fqdn := "" |}
           {| ContainerService.agent_name := "pool";
              ContainerService.agent_count := 2;
              ContainerService.agent_dns_prefix := "y";
              ContainerService.agent_fqdn := "";
              ContainerService.agent_vm_size := "Standard_D2_v2" |}
           "count" eq_refl eq_refl eq_refl eq_refl).
Defined.

(** ** Read and Delete *)

(** X11. When the resource ID does not parse, Read and Delete of both
    resources return the parse error without calling the remote at all and
    leave the resource data as they are. *)
Theorem unparsable_id_stops_read_and_delete `{Externals}
    (dg : ContainerGroup.ResourceData) (errg : error)
    {Sg : Type} (groups : Remote containerinstance.Call Sg) (sg : Sg)
    (ds : ContainerService.ResourceData) (errs : error)
    {Ss : Type} (services : Remote containerservice.Call Ss) (ss : Ss) :
  parseAzureResourceID (ContainerGroup.Id dg) = inr errg ->
  parseAzureResourceID (ContainerService.Id ds) = inr errs ->
  run groups (ContainerGroup.resourceArmContainerGroupRead dg) sg
    = {| result := Some (dg, Some errg); final := sg; calls := [] |} /\
  run groups (ContainerGroup.resourceArmContainerGroupDelete dg) sg
    = {| result := Some (dg, Some errg); final := sg; calls := [] |} /\
  run services (ContainerService.resourceArmContainerServiceRead ds) ss
    = {| result := Some (ds, Some errs); final := ss; calls := [] |} /\
  run services (ContainerService.resourceArmContainerServiceDelete ds) ss
    = {| result := Some (ds, Some errs); final := ss; calls := [] |}.
Proof.
  intros Hg Hs.
  unfold ContainerGroup.resourceArmContainerGroupRead,
    ContainerGroup.resourceArmContainerGroupDelete,
    ContainerService.resourceArmContainerServiceRead,
    ContainerService.resourceArmContainerServiceDelete.
  by rewrite Hg, Hs.
Qed.

(** The example resources with an empty ID, which the stand-in parser
    refuses. *)
Lemma unparsable_id_stops_read_and_delete_witness :
  calls (run (answering_groups (group_response 200 None, None)
                (group_response 200 None, None) (group_response 200 None, None))
           (@ContainerGroup.resourceArmContainerGroupDelete example_externals
              (ContainerGroup.SetId example_group_data EmptyString)) 0%nat) = [] /\
  calls (run (answering_services (service_response 200 None, None)
                (future_response 200, None) (future_response 200, None) None)
           (@ContainerService.resourceArmContainerServiceDelete example_externals
              (ContainerService.SetId example_service_data EmptyString)) 0%nat) = [].
Proof.
  destruct (@unparsable_id_stops_read_and_delete example_externals
              (ContainerGroup.SetId example_group_data EmptyString)
              (Errorf "Cannot parse Azure ID: %s" [ArgString EmptyString])
              nat (answering_groups (group_response 200 None, None)
                     (group_response 200 None, None) (group_response 200 None, None))
              0%nat
              (ContainerService.SetId example_service_data EmptyString)
              (Errorf "Cannot parse Azure ID: %s" [ArgString EmptyString])
              nat (answering_services (service_response 200 None, None)
                     (future_response 200, None) (future_response 200, None) None)
              0%nat eq_refl eq_refl) as (_ & Hgroup & _ & Hservice).
  split; [by rewrite Hgroup|by rewrite Hservice].
Defined.

(** X12. Delete never changes the resource data and never panics, whatever
    the remote answers.  The container group Delete makes at most the one
    Delete call; the container service Delete makes at most the Delete call
    and the wait for its future. *)
Theorem delete_leaves_resource_data `{Externals}
    (dg : ContainerGroup.ResourceData)
    {Sg : Type} (groups : Remote containerinstance.Call Sg) (sg : Sg)
    (ds : ContainerService.ResourceData)
    {Ss : Type} (services : Remote containerservice.Call Ss) (ss : Ss) :
  (exists e resGroup name,
      result (run groups (ContainerGroup.resourceArmContainerGroupDelete dg) sg)
        = Some (dg, e) /\
      (calls (run groups (ContainerGroup.resourceArmContainerGroupDelete dg) sg) = [] \/
       calls (run groups (ContainerGroup.resourceArmContainerGroupDelete dg) sg)
         = [existT _ (containerinstance.Delete resGroup name)])) /\
  (exists e resGroup name future,
      result (run services (ContainerService.resourceArmContainerServiceDelete ds) ss)
        = Some (ds, e) /\
      (calls (run services (ContainerService.resourceArmContainerServiceDelete ds) ss) = [] \/
       calls (run services (ContainerService.resourceArmContainerServiceDelete ds) ss)
         = [existT _ (containerservice.Delete resGroup name)] \/
       calls (run services (ContainerService.resourceArmContainerServiceDelete ds) ss)
         = [existT _ (containerservice.Delete resGroup name);
            existT _ (containerservice.WaitForCompletionRef future)])).
Proof.
  split.
  - unfold ContainerGroup.resourceArmContainerGroupDelete.
    destruct (parseAzureResourceID (ContainerGroup.Id dg)) as [id|err].
    + cbn.
      destruct (groups _ (containerinstance.Delete (ResourceGroup id)
                            (index_string (Path id) "containerGroups")) sg)
        as [[resp [err|]] sg'] eqn:Hdelete; cbn.
      * destruct (ResponseWasNotFound _); cbn; eexists _, _, _; split; [done|by right| |];
          [done|by right].
      * eexists _, _, _. split; [done|by right].
    + exists (Some err), EmptyString, EmptyString. split; [done|by left].
  - unfold ContainerService.resourceArmContainerServiceDelete.
    destruct (parseAzureResourceID (ContainerService.Id ds)) as [id|err].
    + cbn.
      destruct (services _ (containerservice.Delete (ResourceGroup id)
                              (index_string (Path id) "containerServices")) ss)
        as [[future [err|]] ss'] eqn:Hdelete; cbn.
      * eexists _, _, _, future. split; [done|]. right. by left.
      * destruct (services _ (containerservice.WaitForCompletionRef future) ss')
          as [[err|] ss''] eqn:Hwait; cbn;
          eexists _, _, _, _; (split; [done|]); right; by right.
    + exists (Some err), EmptyString, EmptyString, (future_response 0).
      split; [done|by left].
Qed.

(** X13. When the Delete call of the container service succeeds, Delete
    waits for the future it returned and returns the outcome of that wait
    unchanged: nil when the wait succeeds, its error otherwise. *)
Theorem service_delete_waits_for_completion `{Externals}
    (ds : ContainerService.ResourceData) (ids : ResourceID)
    {Ss : Type} (services : Remote containerservice.Call Ss) (ss ss' ss'' : Ss)
    (future : containerservice.Future) (waitErr : option error) :
  parseAzureResourceID (ContainerService.Id ds) = inl ids ->
  services _ (containerservice.Delete (ResourceGroup ids)
                (index_string (Path ids) "containerServices")) ss
    = ((future, None), ss') ->
  services _ (containerservice.WaitForCompletionRef future) ss' = (waitErr, ss'') ->
  run services (ContainerService.resourceArmContainerServiceDelete ds) ss
    = {| result := Some (ds, waitErr);
         final := ss'';
         calls := [existT _ (containerservice.Delete (ResourceGroup ids)
                               (index_string (Path ids) "containerServices"));
                   existT _ (containerservice.WaitForCompletionRef future)] |}.
Proof.
  intros Hids Hdelete Hwait.
  unfold ContainerService.resourceArmContainerServiceDelete. rewrite Hids.
  cbn. rewrite Hdelete. cbn. rewrite Hwait. cbn. by destruct waitErr.
Qed.

(** Delete of the example service on the simulated remote that holds it:
    the object is gone afterwards. *)
Lemma service_delete_waits_for_completion_witness :
  run (simulated_services [])
    (@ContainerService.resourceArmContainerServiceDelete example_externals
       example_service_data)
    {| created := Some example_service_parameters; gets := 0 |}
  = {| result := Some (example_service_data, None);
       final := {| created := None; gets := 0 |};
       calls := [existT _ (containerservice.Delete "rg" "a");
                 existT _ (containerservice.WaitForCompletionRef (future_response 202))] |}.
Proof.
  exact (@service_delete_waits_for_completion example_externals example_service_data
           {| ResourceGroup := "rg";
              Path := {[ "containerGroups" := "g"; "containerServices" := "a" ]} |}
           Simulated (simulated_services [])
           {| created := Some example_service_parameters; gets := 0 |}
           {| created := None; gets := 0 |} {| created := None; gets := 0 |}
           (future_response 202) None eq_refl eq_refl eq_refl).
Defined.

(** ** The calls Create makes *)

Lemma group_read_calls `{Externals} (d : ContainerGroup.ResourceData)
    {S : Type} (groups : Remote containerinstance.Call S) (s : S) :
  calls (run groups (ContainerGroup.resourceArmContainerGroupRead d) s) = [] \/
  exists resGroup name,
    calls (run groups (ContainerGroup.resourceArmContainerGroupRead d) s)
    = [existT _ (containerinstance.Get resGroup name)].
Proof.
  unfold ContainerGroup.resourceArmContainerGroupRead.
  destruct (parseAzureResourceID (ContainerGroup.Id d)) as [id|err]; [|by left].
  right. exists (ResourceGroup id), (index_string (Path id) "containerGroups").
  cbn.
  destruct (groups _ (containerinstance.Get (ResourceGroup id)
                        (index_string (Path id) "containerGroups")) s)
    as [[resp [err|]] s']; cbn.
  - by destruct (ResponseWasNotFound _).
  - destruct (containerinstance.ContainerGroup_ContainerGroupProperties resp) as [props|];
      [|done].
    cbn. destruct (containerinstance.ContainerGroupProperties_IPAddress props) as [address|];
      [|done].
    cbn. by destruct (ContainerGroup.flattenContainerGroupContainers _ _ _ _).
Qed.

(** X14. Whatever the remote answers, the container group Create starts
    with the Get of its name, sends create-or-update at most once, with the
    parameters built from the resource data and only after that Get, and
    makes at most two more Gets: the read-back and the one of Read.  It
    never calls Delete. *)
Theorem group_create_call_sequence `{Externals}
    (d : ContainerGroup.ResourceData)
    {S : Type} (groups : Remote containerinstance.Call S) (s : S) :
  let get := existT (P := containerinstance.Call) _
               (containerinstance.Get (ContainerGroup.resource_group_name d)
                  (ContainerGroup.name d)) in
  let create := existT (P := containerinstance.Call) _
                  (containerinstance.CreateOrUpdate (ContainerGroup.resource_group_name d)
                     (ContainerGroup.name d) (ContainerGroup.containerGroupParameters d)) in
  let made := calls (run groups (ContainerGroup.resourceArmContainerGroupCreate d) s) in
  made = [get] \/ made = [get; create] \/ made = [get; create; get] \/
  exists resGroup name,
    made = [get; create; get; existT _ (containerinstance.Get resGroup name)].
Proof.
  intros get create made. subst made.
  unfold ContainerGroup.resourceArmContainerGroupCreate. cbn.
  destruct (groups _ (containerinstance.Get (ContainerGroup.resource_group_name d)
                        (ContainerGroup.name d)) s) as [[resp err] s1]. cbn.
  destruct (bool_decide (err ≠ None) && negb (ResponseWasNotFound _)); [by left|].
  destruct (containerinstance.ID resp); [by left|]. cbn.
  destruct (groups _ (containerinstance.CreateOrUpdate _ _ _) s1) as [[created [createErr|]] s2];
    cbn; [right; by left|].
  destruct (groups _ (containerinstance.Get (ContainerGroup.resource_group_name d)
                        (ContainerGroup.name d)) s2) as [[read [readErr|]] s3];
    cbn; [right; right; by left|].
  destruct (containerinstance.ID read) as [id|]; [|right; right; by left].
  destruct (group_read_calls (ContainerGroup.SetId d id) groups s3)
    as [Hnone|(resGroup & name & Hone)].
  - right; right; left. cbn. by rewrite Hnone.
  - right; right; right. exists resGroup, name. cbn. by rewrite Hone.
Qed.

(** ** Read of an object that is there *)

(** X15. After a successful Get, the container group Read panics when the
    object has no properties, and also when it has properties but no IP
    address: the ports are read through [props.IPAddress] without a nil
    check. *)
Theorem group_read_panics_without_ip_address `{Externals}
    (d : ContainerGroup.ResourceData) (id : ResourceID)
    {S : Type} (groups : Remote containerinstance.Call S) (s s' : S)
    (resp : containerinstance.ContainerGroup) :
  parseAzureResourceID (ContainerGroup.Id d) = inl id ->
  groups _ (containerinstance.Get (ResourceGroup id)
              (index_string (Path id) "containerGroups")) s = ((resp, None), s') ->
  containerinstance.ContainerGroup_ContainerGroupProperties resp
    ≫= containerinstance.ContainerGroupProperties_IPAddress = None ->
  result (run groups (ContainerGroup.resourceArmContainerGroupRead d) s) = None.
Proof.
  intros Hid Hget Hnil.
  unfold ContainerGroup.resourceArmContainerGroupRead. rewrite Hid.
  cbn. rewrite Hget. cbn.
  destruct (containerinstance.ContainerGroup_ContainerGroupProperties resp) as [props|];
    [|done].
  cbn in *. by rewrite Hnil.
Qed.

(** A remote whose Get succeeds with an object without properties. *)
Lemma group_read_panics_without_ip_address_witness :
  result (run (answering_groups (group_response 200 (Some existing_group_id), None)
                 (group_response 200 None, None) (group_response 200 None, None))
            (@ContainerGroup.resourceArmContainerGroupRead example_externals
               example_group_data) 0%nat) = None.
Proof.
  exact (@group_read_panics_without_ip_address example_externals example_group_data
           {| ResourceGroup := "rg";
              Path := {[ "containerGroups" := "g"; "containerServices" := "a" ]} |}
           nat (answering_groups (group_response 200 (Some existing_group_id), None)
                  (group_response 200 None, None) (group_response 200 None, None))
           0%nat 1%nat (group_response 200 (Some existing_group_id))
           eq_refl eq_refl eq_refl).
Defined.

(** X16. The container service Read treats the two optional profiles
    differently.  When the object read has no service principal profile,
    Read keeps the service principal of the resource data; when it has no
    diagnostics profile, Read panics, since
    [flattenAzureRmContainerServiceDiagnosticsProfile] dereferences it. *)
Theorem service_read_optional_profiles `{Externals}
    (d : ContainerService.ResourceData) (id : ResourceID)
    {S : Type} (services : Remote containerservice.Call S) (s s' : S)
    (resp : containerservice.ContainerService) (properties : containerservice.Properties) :
  parseAzureResourceID (ContainerService.Id d) = inl id ->
  services _ (containerservice.Get (ResourceGroup id)
                (index_string (Path id) "containerServices")) s = ((resp, None), s') ->
  containerservice.ContainerService_Properties resp = Some properties ->
  (containerservice.Properties_DiagnosticsProfile properties = None ->
   result (run services (ContainerService.resourceArmContainerServiceRead d) s) = None) /\
  (containerservice.Properties_ServicePrincipalProfile properties = None ->
   forall d' e,
     result (run services (ContainerService.resourceArmContainerServiceRead d) s)
       = Some (d', e) ->
     e = None /\
     ContainerService.Id d' = ContainerService.Id d /\
     ContainerService.service_principal d' = ContainerService.service_principal d).
Proof.
  intros Hid Hget Hproperties.
  unfold ContainerService.resourceArmContainerServiceRead. rewrite Hid.
  cbn. rewrite Hget. cbn. rewrite Hproperties. cbn.
  destruct (containerservice.OrchestratorProfile properties) as [orchestrator|]; cbn;
    [|split; [done|intros _ d' e [=]]].
  destruct (containerservice.Properties_MasterProfile properties) as [master|]; cbn;
    [|split; [done|intros _ d' e [=]]].
  destruct (ContainerService.flattenAzureRmContainerServiceMasterProfile master); cbn;
    [|split; [done|intros _ d' e [=]]].
  destruct (containerservice.Properties_LinuxProfile properties) as [linux|]; cbn;
    [|split; [done|intros _ d' e [=]]].
  destruct (ContainerService.flattenAzureRmContainerServiceLinuxProfile linux); cbn;
    [|split; [done|intros _ d' e [=]]].
  destruct (ContainerService.flattenAzureRmContainerServiceAgentPoolProfiles _); cbn;
    [|split; [done|intros _ d' e [=]]].
  split.
  - intros ->.
    by destruct (ContainerService.flattenAzureRmContainerServiceServicePrincipalProfile _)
      as [[?|]|].
  - intros ->. cbn.
    destruct (ContainerService.flattenAzureRmContainerServiceDiagnosticsProfile _); cbn;
      [|intros d' e [=]].
    intros d' e [= <- <-]. done.
Qed.

(** The simulated remote holding the example service, whose diagnostics
    profile it returns; a service without service principal keeps the one
    of the resource data. *)
Lemma service_read_optional_profiles_witness :
  exists d',
    result (run (simulated_services [])
              (@ContainerService.resourceArmContainerServiceRead example_externals
                 example_service_data)
              {| created :=
                   Some {| containerservice.ContainerService_Response := None;
                           containerservice.ID := None;
                           containerservice.Name := Some "a";
                           containerservice.Location := Some "westus";
                           containerservice.Tags := ∅;
                           containerservice.ContainerService_Properties :=
                             (fun properties =>
                                {| containerservice.ProvisioningState := None;
                                   containerservice.OrchestratorProfile :=
                                     containerservice.OrchestratorProfile properties;
                                   containerservice.Properties_ServicePrincipalProfile := None;
                                   containerservice.Properties_MasterProfile :=
                                     containerservice.Properties_MasterProfile properties;
                                   containerservice.AgentPoolProfiles :=
                                     containerservice.AgentPoolProfiles properties;
                                   containerservice.Properties_LinuxProfile :=
                                     containerservice.Properties_LinuxProfile properties;
                                   containerservice.Properties_DiagnosticsProfile :=
                                     containerservice.Properties_DiagnosticsProfile
                                       properties |})
                               <$> containerservice.ContainerService_Properties
                                     example_service_parameters |};
                 gets := 0 |})
    = Some (d', None) /\
    ContainerService.service_principal d'
    = ContainerService.service_principal example_service_data.
Proof.
  set (st := {| created := _; gets := 0 |}).
  destruct (result (run (simulated_services [])
                      (@ContainerService.resourceArmContainerServiceRead example_externals
                         example_service_data) st)) as [[d' e]|] eqn:Hrun;
    [|by vm_compute in Hrun].
  destruct (@service_read_optional_profiles example_externals example_service_data
              {| ResourceGroup := "rg";
                 Path := {[ "containerGroups" := "g"; "containerServices" := "a" ]} |}
              Simulated (simulated_services []) st
              (simulated_services [] _ (containerservice.Get "rg" "a") st).2
              (simulated_services [] _ (containerservice.Get "rg" "a") st).1.1
              (default {| containerservice.ProvisioningState := None;
                          containerservice.OrchestratorProfile := None;
                          containerservice.Properties_ServicePrincipalProfile := None;
                          containerservice.Properties_MasterProfile := None;
                          containerservice.AgentPoolProfiles := None;
                          containerservice.Properties_LinuxProfile := None;
                          containerservice.Properties_DiagnosticsProfile := None |}
                 (containerservice.ContainerService_Properties
                    (simulated_services [] _ (containerservice.Get "rg" "a") st).1.1))
              eq_refl eq_refl eq_refl) as [_ Hkept].
  destruct (Hkept eq_refl d' e Hrun) as (-> & _ & Hprincipal).
  by exists d'.
Defined.

(** ** Create, then Read *)

(** X17. Create of a container group against a remote that has no such
    group, accepts the create-or-update and afterwards returns what it was
    sent: for resource data whose containers all declare a port and agree
    on shared ports and shared volume names, Create returns no error after
    exactly four calls, and the resource data then hold the assigned ID, IP
    address and FQDN, the name and resource group of the parsed ID, and the
    configured registry credentials, OS type, restart policy, IP address
    type, DNS name label and containers, the protocols in upper case and
    the storage account keys set aside. *)
Theorem group_create_then_read `{Externals}
    (d : ContainerGroup.ResourceData)
    {S : Type} (groups : Remote containerinstance.Call S) (s0 s1 s2 s3 s4 : S)
    (resp created read : containerinstance.ContainerGroup) (err : option error)
    (id : string) (parsed : ResourceID) (ip fqdn : option string)
    (echo_keys echo_passwords : bool) :
  let get := containerinstance.Get (ContainerGroup.resource_group_name d)
               (ContainerGroup.name d) in
  let create := containerinstance.CreateOrUpdate (ContainerGroup.resource_group_name d)
                  (ContainerGroup.name d) (ContainerGroup.containerGroupParameters d) in
  let get_parsed := containerinstance.Get (ResourceGroup parsed)
                      (index_string (Path parsed) "containerGroups") in
  ports_set d -> ports_agree d -> volumes_agree d ->
  groups _ get s0 = ((resp, err), s1) ->
  containerinstance.ID resp = None ->
  (err = None \/
   ResponseWasNotFound (containerinstance.ContainerGroup_Response resp) = true) ->
  groups _ create s1 = ((created, None), s2) ->
  groups _ get s2 = ((read, None), s3) ->
  containerinstance.ID read = Some id ->
  parseAzureResourceID id = inl parsed ->
  groups _ get_parsed s3
    = ((returned_group id ip fqdn echo_keys echo_passwords
          (ContainerGroup.containerGroupParameters d), None), s4) ->
  exists d',
    run groups (ContainerGroup.resourceArmContainerGroupCreate d) s0
      = {| result := Some (d', None); final := s4;
           calls := [existT _ get; existT _ create; existT _ get; existT _ get_parsed] |} /\
    ContainerGroup.Id d' = id /\
    ContainerGroup.name d' = index_string (Path parsed) "containerGroups" /\
    ContainerGroup.resource_group_name d' = ResourceGroup parsed /\
    ContainerGroup.ip_address d' = default EmptyString ip /\
    ContainerGroup.fqdn d' = default EmptyString fqdn /\
    ContainerGroup.image_registry_credential d' = ContainerGroup.image_registry_credential d /\
    ContainerGroup.os_type d' = ContainerGroup.os_type d /\
    ContainerGroup.restart_policy d' = ContainerGroup.restart_policy d /\
    ContainerGroup.ip_address_type d' = ContainerGroup.ip_address_type d /\
    ContainerGroup.dns_name_label d' = ContainerGroup.dns_name_label d /\
    without_keys <$> ContainerGroup.container d'
      = without_keys <$> (upper_protocol <$> ContainerGroup.container d).
Proof.
  intros get create get_parsed Hports Hagree Hvolumes
    Hget Hno Hok Hcreate Hread Hid Hparsed Hget_parsed.
  assert (bool_decide (err ≠ None)
          && negb (ResponseWasNotFound (containerinstance.ContainerGroup_Response resp))
          = false) as Hcheck.
  { destruct Hok as [-> | ->]; [done|]. by rewrite andb_false_r. }
  destruct (flatten_expanded_containers d echo_keys Hports Hagree Hvolumes)
    as (flat & Hflat & Hstored).
  pose proof (flatten_expanded_credentials d echo_passwords) as Hcredentials.
  unfold ContainerGroup.resourceArmContainerGroupCreate.
  cbn. fold get. rewrite Hget. cbn. rewrite Hcheck, Hno. cbn.
  fold create. rewrite Hcreate. cbn. fold get. rewrite Hread. cbn. rewrite Hid.
  unfold ContainerGroup.resourceArmContainerGroupRead.
  cbn [ContainerGroup.Id ContainerGroup.SetId]. rewrite Hparsed.
  cbn. fold get_parsed. rewrite Hget_parsed.
  unfold returned_group, ContainerGroup.containerGroupParameters.
  destruct (ContainerGroup.expandContainerGroupContainers d)
    as [[containers groupPorts] groupVolumes] eqn:Hexpand.
  cbn [fst snd] in Hflat.
  cbn -[ContainerGroup.flattenContainerGroupContainers
       ContainerGroup.flattenContainerImageRegistryCredentials
       returned_credentials returned_volumes].
  change (ContainerGroup.flattenContainerGroupContainers (ContainerGroup.SetId d id))
    with (ContainerGroup.flattenContainerGroupContainers d).
  rewrite Hflat.
  change (ContainerGroup.flattenContainerImageRegistryCredentials (ContainerGroup.SetId d id))
    with (ContainerGroup.flattenContainerImageRegistryCredentials d).
  cbn [bind run result final calls].
  eexists. split; [reflexivity|].
  cbn. rewrite Hcredentials. repeat (split; [done|]).
  split.
  { destruct (decide (ContainerGroup.dns_name_label d ≠ EmptyString)) as [Hlabel|Hlabel];
      [done|]. by apply dec_stable in Hlabel. }
  exact Hstored.
Qed.

(** The example group, created on a remote that stores nothing yet. *)
Lemma group_create_then_read_witness :
  exists d',
    result (run (storing_groups existing_group_id (Some "10.0.0.4")
                   (Some "g.westus.azurecontainer.io"))
              (@ContainerGroup.resourceArmContainerGroupCreate example_externals
                 example_group_data) None)
      = Some (d', None) /\
    ContainerGroup.Id d' = existing_group_id /\
    ContainerGroup.ip_address d' = "10.0.0.4" /\
    ContainerGroup.fqdn d' = "g.westus.azurecontainer.io" /\
    without_keys <$> ContainerGroup.container d'
      = without_keys <$> (upper_protocol <$> ContainerGroup.container example_group_data).
Proof.
  destruct (@group_create_then_read example_externals example_group_data _
              (storing_groups existing_group_id (Some "10.0.0.4")
                 (Some "g.westus.azurecontainer.io"))
              None None
              (Some (returned_group existing_group_id (Some "10.0.0.4")
                       (Some "g.westus.azurecontainer.io") false false
                       (@ContainerGroup.containerGroupParameters example_externals
                          example_group_data)))
              (Some (returned_group existing_group_id (Some "10.0.0.4")
                       (Some "g.westus.azurecontainer.io") false false
                       (@ContainerGroup.containerGroupParameters example_externals
                          example_group_data)))
              (Some (returned_group existing_group_id (Some "10.0.0.4")
                       (Some "g.westus.azurecontainer.io") false false
                       (@ContainerGroup.containerGroupParameters example_externals
                          example_group_data)))
              (group_response 404 None)
              (returned_group existing_group_id (Some "10.0.0.4")
                 (Some "g.westus.azurecontainer.io") false false
                 (@ContainerGroup.containerGroupParameters example_externals
                    example_group_data))
              (returned_group existing_group_id (Some "10.0.0.4")
                 (Some "g.westus.azurecontainer.io") false false
                 (@ContainerGroup.containerGroupParameters example_externals
                    example_group_data))
              (Some not_found) existing_group_id
              {| ResourceGroup := "rg";
                 Path := {[ "containerGroups" := "g"; "containerServices" := "a" ]} |}
              (Some "10.0.0.4") (Some "g.westus.azurecontainer.io") false false
              example_group_ports_set example_group_ports_agree example_group_volumes_agree
              eq_refl eq_refl (or_intror eq_refl) eq_refl eq_refl eq_refl eq_refl eq_refl)
    as (d' & Hrun & Hid & _ & _ & Hip & Hfqdn & _ & _ & _ & _ & _ & Hcontainers).
  exists d'. rewrite Hrun. by repeat split.
Defined.

(** ** Read after Read *)

(** The map built for a volume mount is the one built without a prior
    configuration, with the key of the prior configuration put in. *)
Lemma flattenVolumeMount_config
    (containerGroupVolumes : list containerinstance.Volume)
    (containerVolumesConfig : option (list ContainerGroup.VolumeConfig))
    (vm : containerinstance.VolumeMount) :
  ContainerGroup.flattenVolumeMount containerGroupVolumes containerVolumesConfig vm
  = (fun base =>
       with_key base
         (containerVolumesConfig ≫= prior_key (ContainerGroup.flat_volume_name base)))
      <$> ContainerGroup.flattenVolumeMount containerGroupVolumes None vm.
Proof.
  unfold ContainerGroup.flattenVolumeMount.
  destruct (containerinstance.VolumeMount_Name vm) as [vmName|]; [|done].
  destruct (containerinstance.MountPath vm) as [vmMountPath|]; [|done].
  cbn [mbind option_bind].
  destruct (rangeM _ _ containerGroupVolumes) as [found|] eqn:Hfound; [|done].
  cbn [mbind option_bind fmap option_fmap option_map].
  assert (ContainerGroup.flat_volume_name found = vmName /\
          ContainerGroup.flat_volume_storage_account_key found = None) as [Hname Hkey].
  { revert Hfound.
    apply (rangeM_invariant
             (fun volumeConfig =>
                ContainerGroup.flat_volume_name volumeConfig = vmName /\
                ContainerGroup.flat_volume_storage_account_key volumeConfig = None));
      [done|].
    intros acc cgv acc' [Hname Hkey] Hbody.
    apply bind_Some in Hbody as (cgvName & _ & Hbody).
    destruct (decide (cgvName = vmName)); [|by injection Hbody as <-].
    destruct (containerinstance.AzureFile cgv); [|by injection Hbody as <-].
    apply bind_Some in Hbody as (shareName & _ & Hbody).
    apply bind_Some in Hbody as (storageAccountName & _ & Hbody).
    by injection Hbody as <-. }
  f_equal. rewrite Hname.
  destruct containerVolumesConfig as [config|]; cbn [mbind option_bind].
  - rewrite config_key_search, Hkey. by destruct (prior_key vmName config).
  - rewrite <- Hkey. by destruct found.
Qed.

Lemma NoDup_fmap_same {A K : Type} (f : A -> K) (l : list A) (x y : A) :
  NoDup (f <$> l) -> x ∈ l -> y ∈ l -> f x = f y -> x = y.
Proof.
  intros Hnodup (i & Hi)%list_elem_of_lookup (j & Hj)%list_elem_of_lookup Heq.
  assert (i = j) as ->.
  { apply (NoDup_lookup _ _ _ (f x) Hnodup); rewrite list_lookup_fmap.
    - by rewrite Hi.
    - by rewrite Hj, Heq. }
  congruence.
Qed.

Lemma last_filter_NoDup {A K : Type} `{EqDecision K} (f : A -> K) (k : K)
    (l : list A) (x : A) :
  NoDup (f <$> l) -> x ∈ l -> f x = k ->
  last (filter (fun y => f y = k) l) = Some x.
Proof.
  intros Hnodup Hin Hk.
  destruct (last (filter (fun y => f y = k) l)) as [y|] eqn:Hlast.
  - apply last_Some_elem_of, list_elem_of_filter in Hlast as [Hy Hyin].
    f_equal. apply (NoDup_fmap_same f l); [done..|congruence].
  - apply last_None in Hlast.
    by destruct (filter_nil_not_elem_of _ _ x Hlast Hk).
Qed.

(** Flatten of the mounts again, with the volumes it stored as the prior
    configuration, stores the same volumes. *)
Lemma flattenContainerVolumes_again
    (volumeMounts : list containerinstance.VolumeMount)
    (containerGroupVolumes : list containerinstance.Volume)
    (containerVolumesConfig : option (list ContainerGroup.VolumeConfig))
    (volumes : list ContainerGroup.FlatVolume) :
  ContainerGroup.flattenContainerVolumes volumeMounts containerGroupVolumes
    containerVolumesConfig = Some volumes ->
  exists volumes',
    ContainerGroup.flattenContainerVolumes volumeMounts containerGroupVolumes
      (Some (ContainerGroup.stored_volume <$> volumes)) = Some volumes' /\
    ContainerGroup.stored_volume <$> volumes' = ContainerGroup.stored_volume <$> volumes.
Proof.
  unfold ContainerGroup.flattenContainerVolumes. intros Hflat.
  apply mapM_Some_1 in Hflat.
  assert (forall v, v ∈ volumes ->
            prior_key (ContainerGroup.flat_volume_name v)
              (ContainerGroup.stored_volume <$> volumes)
            = Some (default EmptyString
                      (containerVolumesConfig
                         ≫= prior_key (ContainerGroup.flat_volume_name v)))) as Hprior.
  { intros v Hv. unfold prior_key.
    destruct (last (filter _ (ContainerGroup.stored_volume <$> volumes)))
      as [cv|] eqn:Hlast.
    - apply last_Some_elem_of, list_elem_of_filter in Hlast as [Hname Hcv].
      apply list_elem_of_fmap in Hcv as (v' & -> & Hv').
      apply list_elem_of_lookup in Hv' as (i & Hi).
      destruct (Forall2_lookup_r _ _ _ _ _ Hflat Hi) as (vm & _ & Hone).
      cbn in Hname. cbn. rewrite (flattenVolumeMount_key _ _ _ _ Hone).
      by rewrite Hname.
    - apply last_None in Hlast.
      destruct (filter_nil_not_elem_of _ _ (ContainerGroup.stored_volume v) Hlast);
        [done|]. apply list_elem_of_fmap. by exists v. }
  assert (Forall2 (fun vm v =>
                     exists v',
                       ContainerGroup.flattenVolumeMount containerGroupVolumes
                         (Some (ContainerGroup.stored_volume <$> volumes)) vm = Some v' /\
                       ContainerGroup.stored_volume v' = ContainerGroup.stored_volume v)
            volumeMounts volumes) as Hagain.
  { apply Forall2_same_length_lookup. split; [by eapply Forall2_length|].
    intros i vm v Hvm Hv.
    pose proof (Forall2_lookup_lr _ _ _ _ _ _ Hflat Hvm Hv) as Hone.
    cbn beta in Hone. rewrite flattenVolumeMount_config in Hone.
    apply fmap_Some in Hone as (base & Hbase & ->).
    rewrite flattenVolumeMount_config, Hbase.
    eexists. split; [reflexivity|].
    cbn [mbind option_bind].
    rewrite (Hprior (with_key base _)) by (by eapply list_elem_of_lookup_2).
    unfold ContainerGroup.stored_volume, with_key. cbn.
    by destruct (containerVolumesConfig ≫= _). }
  clear Hflat Hprior.
  generalize (Some (ContainerGroup.stored_volume <$> volumes)) Hagain.
  intros config. clear.
  induction 1 as [|vm v volumeMounts volumes (v' & Hv' & Hstored) _ (volumes' & Hmap & Hrest)].
  - by exists [].
  - exists (v' :: volumes'). cbn [mapM]. rewrite Hv'. cbn [mbind option_bind].
    rewrite Hmap. cbn. by rewrite Hstored, Hrest.
Qed.

(** Flatten of a remote container again, with the container it stored as
    the only block of that name in the prior configuration, stores the
    same container. *)
Lemma flattenContainer_again (d d1 : ContainerGroup.ResourceData)
    (container : containerinstance.Container)
    (containerGroupPorts : option (list containerinstance.Port))
    (containerGroupVolumes : option (list containerinstance.Volume))
    (containerConfig : ContainerGroup.FlatContainer) :
  ContainerGroup.flattenContainer d container containerGroupPorts containerGroupVolumes
    = Some containerConfig ->
  last (filter (fun data =>
                  ContainerGroup.container_name data
                  = ContainerGroup.flat_container_name containerConfig)
               (ContainerGroup.container d1))
    = Some (ContainerGroup.stored_container containerConfig) ->
  exists containerConfig',
    ContainerGroup.flattenContainer d1 container containerGroupPorts containerGroupVolumes
      = Some containerConfig' /\
    ContainerGroup.stored_container containerConfig'
    = ContainerGroup.stored_container containerConfig.
Proof.
  unfold ContainerGroup.flattenContainer. intros Hflat Hlast.
  apply bind_Some in Hflat as (containerName & -> & Hflat). cbn [mbind option_bind].
  apply bind_Some in Hflat as (properties & -> & Hflat). cbn [mbind option_bind].
  apply bind_Some in Hflat as (containerImage & -> & Hflat). cbn [mbind option_bind].
  apply bind_Some in Hflat as (requests & -> & Hflat). cbn [mbind option_bind].
  apply bind_Some in Hflat as (containerPorts & -> & Hflat). cbn [mbind option_bind].
  apply bind_Some in Hflat as (portAndProtocol & -> & Hflat). cbn [mbind option_bind].
  apply bind_Some in Hflat as (environmentVariables & -> & Hflat). cbn [mbind option_bind].
  apply bind_Some in Hflat as (volume & Hvolume & Hflat).
  injection Hflat as <-. cbn in Hlast.
  destruct containerGroupVolumes as [groupVolumes|];
    [|injection Hvolume as <-; by eexists].
  destruct (containerinstance.VolumeMounts properties) as [volumeMounts|];
    [|injection Hvolume as <-; by eexists].
  apply fmap_Some in Hvolume as (volumes & Hvolumes & ->).
  cbn in Hlast. rewrite prior_volumes_search, Hlast. cbn.
  destruct (flattenContainerVolumes_again _ _ _ _ Hvolumes) as (volumes' & -> & Hstored).
  eexists. split; [reflexivity|].
  unfold ContainerGroup.stored_container. cbn. by rewrite Hstored.
Qed.

Lemma flattenContainerGroupContainers_again (d d1 : ContainerGroup.ResourceData)
    (containers : option (list containerinstance.Container))
    (containerGroupPorts : option (list containerinstance.Port))
    (containerGroupVolumes : option (list containerinstance.Volume))
    (containerConfigs : list ContainerGroup.FlatContainer) :
  ContainerGroup.flattenContainerGroupContainers d containers containerGroupPorts
    containerGroupVolumes = Some containerConfigs ->
  ContainerGroup.container d1 = ContainerGroup.stored_container <$> containerConfigs ->
  NoDup (ContainerGroup.container_name <$> ContainerGroup.container d1) ->
  exists containerConfigs',
    ContainerGroup.flattenContainerGroupContainers d1 containers containerGroupPorts
      containerGroupVolumes = Some containerConfigs' /\
    ContainerGroup.stored_container <$> containerConfigs'
    = ContainerGroup.stored_container <$> containerConfigs.
Proof.
  unfold ContainerGroup.flattenContainerGroupContainers. intros Hflat Hstored Hnodup.
  destruct containers as [containerList|]; [|done]. cbn [mbind option_bind] in *.
  apply mapM_Some_1 in Hflat.
  assert (Forall2 (fun container containerConfig =>
                     exists containerConfig',
                       ContainerGroup.flattenContainer d1 container containerGroupPorts
                         containerGroupVolumes = Some containerConfig' /\
                       ContainerGroup.stored_container containerConfig'
                       = ContainerGroup.stored_container containerConfig)
            containerList containerConfigs) as Hagain.
  { apply Forall2_same_length_lookup. split; [by eapply Forall2_length|].
    intros i container containerConfig Hcontainer HcontainerConfig.
    pose proof (Forall2_lookup_lr _ _ _ _ _ _ Hflat Hcontainer HcontainerConfig) as Hone.
    apply (flattenContainer_again _ _ _ _ _ _ Hone).
    apply (last_filter_NoDup ContainerGroup.container_name); [done| |done].
    rewrite Hstored. apply list_elem_of_fmap. exists containerConfig.
    split; [done|]. by eapply list_elem_of_lookup_2. }
  clear Hflat Hstored Hnodup.
  induction Hagain
    as [|container containerConfig containerList containerConfigs
         (containerConfig' & Hone & Hstored) _ (containerConfigs' & Hmap & Hrest)].
  - by exists [].
  - exists (containerConfig' :: containerConfigs'). cbn [mapM]. rewrite Hone.
    cbn [mbind option_bind]. rewrite Hmap. cbn. by rewrite Hstored, Hrest.
Qed.

(** Flatten of the remote credentials again, with the credentials it
    stored as the prior configuration, gives the same credentials. *)
Lemma flattenContainerImageRegistryCredentials_again (d d1 : ContainerGroup.ResourceData)
    (credsPtr : option (list containerinstance.ImageRegistryCredential)) :
  ContainerGroup.image_registry_credential d1
    = ContainerGroup.stored_credential
        <$> ContainerGroup.flattenContainerImageRegistryCredentials d credsPtr ->
  ContainerGroup.flattenContainerImageRegistryCredentials d1 credsPtr
  = ContainerGroup.flattenContainerImageRegistryCredentials d credsPtr.
Proof.
  destruct credsPtr as [creds|]; [|done]. intros Hstored.
  unfold ContainerGroup.flattenContainerImageRegistryCredentials in *.
  apply list_eq. intros i. rewrite !list_lookup_imap.
  destruct (creds !! i) as [cred|] eqn:Hcred; [|done]. cbn. f_equal. f_equal.
  unfold ContainerGroup.GetOk_image_registry_credential_password.
  rewrite Hstored, list_lookup_fmap, list_lookup_imap, Hcred. cbn.
  destruct (containerinstance.Server cred) as [server|];
    [|by destruct (ContainerGroup.image_registry_credential d !! i)].
  cbn. rewrite decide_True by done. cbn.
  destruct (ContainerGroup.image_registry_credential d !! i) as [data|] eqn:Hdata; [|done].
  destruct (decide (server = ContainerGroup.credential_server data)); [|done].
  unfold ContainerGroup.GetOk_image_registry_credential_password. rewrite Hdata. cbn.
  destruct (decide (ContainerGroup.credential_password data ≠ EmptyString)) as [Hpw|Hpw].
  - rewrite (bool_decide_true (ContainerGroup.credential_password data ≠ EmptyString))
      by done.
    cbn. by rewrite bool_decide_true.
  - rewrite (bool_decide_false (ContainerGroup.credential_password data ≠ EmptyString))
      by done.
    by cbn.
Qed.

(** X18. Read is stable: when Read returned resource data without error,
    the containers read have distinct names, and the remote answers the
    same Get as before, a second Read returns the very same resource data
    after one Get.  The storage account keys and registry passwords that
    Read copies over from the prior configuration are found again in what
    it stored. *)
Theorem group_read_is_stable `{Externals} (d d1 : ContainerGroup.ResourceData)
    {S : Type} (groups : Remote containerinstance.Call S) (s0 s1 s2 : S)
    (id : ResourceID) (resp : containerinstance.ContainerGroup) :
  let get := containerinstance.Get (ResourceGroup id)
               (index_string (Path id) "containerGroups") in
  parseAzureResourceID (ContainerGroup.Id d) = inl id ->
  groups _ get s0 = ((resp, None), s1) ->
  groups _ get s1 = ((resp, None), s2) ->
  result (run groups (ContainerGroup.resourceArmContainerGroupRead d) s0)
    = Some (d1, None) ->
  NoDup (ContainerGroup.container_name <$> ContainerGroup.container d1) ->
  run groups (ContainerGroup.resourceArmContainerGroupRead d1) s1
  = {| result := Some (d1, None); final := s2; calls := [existT _ get] |}.
Proof.
  intros get Hparsed Hget Hget_again Hread Hnodup.
  unfold ContainerGroup.resourceArmContainerGroupRead in Hread.
  rewrite Hparsed in Hread. cbn in Hread. fold get in Hread. rewrite Hget in Hread.
  cbn in Hread.
  destruct (containerinstance.ContainerGroup_ContainerGroupProperties resp)
    as [props|] eqn:Hprops; [|done].
  cbn in Hread.
  destruct (containerinstance.ContainerGroupProperties_IPAddress props)
    as [address|] eqn:Haddress; [|done].
  cbn in Hread.
  destruct (ContainerGroup.flattenContainerGroupContainers d _ _ _)
    as [containerConfigs|] eqn:Hflat; [|done].
  cbn in Hread. injection Hread as Hd1.
  destruct (flattenContainerGroupContainers_again d d1 _ _ _ _ Hflat)
    as (containerConfigs' & Hflat' & Hstored); [by subst d1|done|].
  pose proof (flattenContainerImageRegistryCredentials_again d d1
                (containerinstance.ImageRegistryCredentials props)) as Hcredentials.
  unfold ContainerGroup.resourceArmContainerGroupRead.
  assert (ContainerGroup.Id d1 = ContainerGroup.Id d) as -> by (by subst d1).
  rewrite Hparsed. cbn. fold get. rewrite Hget_again. cbn. rewrite Hprops. cbn.
  rewrite Haddress. cbn. rewrite Hflat'. cbn.
  rewrite Hcredentials by (by subst d1). rewrite Hstored.
  do 3 f_equal. subst d1. cbn. by destruct (containerinstance.Location resp).
Qed.

(** Two Reads of the example group on a remote that stores it. *)
Lemma group_read_is_stable_witness :
  exists d1,
    result (run (storing_groups existing_group_id None None)
              (@ContainerGroup.resourceArmContainerGroupRead example_externals
                 example_group_data)
              (Some example_stored_group))
      = Some (d1, None) /\
    result (run (storing_groups existing_group_id None None)
              (@ContainerGroup.resourceArmContainerGroupRead example_externals d1)
              (Some example_stored_group))
      = Some (d1, None).
Proof.
  destruct (result (run (storing_groups existing_group_id None None)
                      (@ContainerGroup.resourceArmContainerGroupRead example_externals
                         example_group_data)
                      (Some example_stored_group)))
    as [[d1 [err|]]|] eqn:Hread;
    [by vm_compute in Hread| |by vm_compute in Hread].
  exists d1. split; [reflexivity|].
  rewrite (@group_read_is_stable example_externals example_group_data d1 _
             (storing_groups existing_group_id None None)
             (Some example_stored_group) (Some example_stored_group)
             (Some example_stored_group)
             {| ResourceGroup := "rg";
                Path := {[ "containerGroups" := "g"; "containerServices" := "a" ]} |}
             example_stored_group eq_refl eq_refl eq_refl Hread); [reflexivity|].
  vm_compute in Hread. injection Hread as <-. apply NoDup_singleton.
Defined.

(** ** The wait of the container service *)

(** X19. Create / Update of the container service stores the ID only after
    the wait: once the check found nothing and create-or-update and the Get
    after it succeeded, a wait that ends with an error makes Create / Update
    return the "Error waiting ..." error with the resource data as they
    were, without an ID and without running Read, although the remote
    object exists; a wait that ends without error is followed by Read on
    the resource data with the ID of the object read. *)
Theorem service_create_stores_id_after_wait `{Externals}
    (timeoutKey : ContainerService.ResourceData -> schema.TimeoutKey)
    (d : ContainerService.ResourceData) (parameters : containerservice.ContainerService)
    {S : Type} (services : Remote containerservice.Call S) (s0 s1 s2 s3 s4 : S)
    (checks waits : list {X : Type & containerservice.Call X})
    (future : containerservice.Future) (read : containerservice.ContainerService)
    (id : string) (outcome : resource.Outcome) :
  let resGroup := ContainerService.resource_group_name d in
  let name := ContainerService.name d in
  let create := containerservice.CreateOrUpdate resGroup name parameters in
  let get := containerservice.Get resGroup name in
  let await :=
    resource.AwaitTerminalState
      (ContainerService.stateConf resGroup name
         (ContainerService.Timeout d (timeoutKey d))) in
  run services (ContainerService.checkForExisting d resGroup name) s0
    = {| result := Some None; final := s1; calls := checks |} ->
  ContainerService.containerServiceParameters d = Some parameters ->
  services _ create s1 = ((future, None), s2) ->
  services _ get s2 = ((read, None), s3) ->
  containerservice.ID read = Some id ->
  run services await s3 = {| result := Some outcome; final := s4; calls := waits |} ->
  run services (ContainerService.resourceArmContainerServiceCreateUpdate timeoutKey d) s0
  = match resource.err outcome with
    | Some err =>
        {| result :=
             Some (d, Some (Errorf "Error waiting for Container Service %q (Resource Group %q) to become available: %s"
                              [ArgString name; ArgString resGroup; ArgError err]));
           final := s4;
           calls := checks ++ [existT _ create; existT _ get] ++ waits |}
    | None =>
        let r := run services
                   (ContainerService.resourceArmContainerServiceRead
                      (ContainerService.SetId d id)) s4 in
        {| result := result r; final := final r;
           calls := checks ++ [existT _ create; existT _ get] ++ waits ++ calls r |}
    end.
Proof.
  intros resGroup name create get await Hcheck Hparameters Hcreate Hget Hid Hawait.
  unfold ContainerService.resourceArmContainerServiceCreateUpdate.
  fold resGroup name. rewrite run_bind, Hcheck. cbn [result final calls].
  rewrite Hparameters. cbn [lift]. cbn [mbind Prog_bind bind call run].
  fold create. rewrite Hcreate. cbn [fst snd bind run].
  fold get. rewrite Hget. cbn [fst snd bind run]. rewrite Hid.
  fold await. rewrite run_bind, Hawait. cbn [result final calls].
  destruct (resource.err outcome) as [err|]; cbn.
  - by rewrite app_nil_r.
  - done.
Qed.

(** Create of the example service on a simulated remote that shows
    Creating on the Get after the create and Failed on the first read of
    the wait. *)
Lemma service_create_stores_id_after_wait_witness :
  result (run (simulated_services ["Creating"; "Failed"])
            (@ContainerService.resourceArmContainerServiceCreateUpdate example_externals
               (fun _ => schema.TimeoutCreate) example_service_data)
            {| created := None; gets := 0 |})
  = Some (example_service_data,
          Some (Errorf "Error waiting for Container Service %q (Resource Group %q) to become available: %s"
                  [ArgString "a"; ArgString "rg";
                   ArgError (UnexpectedStateError "Failed")])).
Proof.
  rewrite (@service_create_stores_id_after_wait example_externals
             (fun _ => schema.TimeoutCreate) example_service_data example_service_parameters
             Simulated (simulated_services ["Creating"; "Failed"])
             {| created := None; gets := 0 |}
             {| created := None; gets := 0 |}
             {| created := Some example_service_parameters; gets := 0 |}
             {| created := Some example_service_parameters; gets := 1 |}
             {| created := Some example_service_parameters; gets := 2 |}
             [existT _ (containerservice.Get "rg" "a")]
             [existT _ (containerservice.Get "rg" "a")]
             (future_response 201) (assigned example_service_parameters "Creating")
             existing_service_id
             {| resource.state := resource.Failed;
                resource.err := Some (UnexpectedStateError "Failed");
                resource.waited := 0 |});
    [reflexivity|by vm_compute..].
Defined.
